(** * pg-tool: statement classification, cache keys and the query caches

    A shallow embedding of [src/mcp-tool/pg-tool/database.py]
    (class [DatabaseManager]) and the properties of its caching layer.

    Conventions of the embedding.
    - A Python [str] is a [string]; each [ascii] stands for one code point
      below 256.  [isspace] is Python's notion of white space on that range.
      [upper] maps the letters a-z only: on this range the upper-case image
      of any other character is either not ASCII or the pair SS, and no
      write keyword contains either, so keyword membership is unaffected.
    - [time.time()] readings are integers (ticks of the clock, [CACHE_TTL]
      in the same unit); the code only subtracts and compares them.
    - A Python [dict] is an association list in insertion order with
      distinct keys: [min] over [dict.keys()] breaks ties in that order.
    - The database driver (psycopg2 cursor) and the clock form the outside
      world, an interface [Driver]; each call of the driver is logged. *)

From Stdlib Require Import String Ascii List ZArith Lia Bool.
Import ListNotations.
Local Open Scope string_scope.
Local Open Scope Z_scope.

(* ================================================================== *)
(** ** Python string primitives *)

Module PyStr.

Definition code (c : ascii) : Z := Z.of_nat (nat_of_ascii c).

(** [str.isspace] on one character, code points below 256. *)
Definition isspace (c : ascii) : bool :=
  let n := code c in
  ((9 <=? n) && (n <=? 13)) || ((28 <=? n) && (n <=? 32))
  || (n =? 133) || (n =? 160).

Definition is_empty (s : string) : bool :=
  match s with EmptyString => true | String _ _ => false end.

(** [s.split()]: the maximal runs of characters that are not white space. *)
Fixpoint split (s : string) : list string :=
  match s with
  | EmptyString => []
  | String c r =>
      if isspace c then split r
      else match r with
           | EmptyString => [String c EmptyString]
           | String c' _ =>
               if isspace c' then String c EmptyString :: split r
               else match split r with
                    | w :: ws => String c w :: ws
                    | [] => [String c EmptyString]
                    end
           end
  end.

(** [sep.join(l)]. *)
Definition join (sep : string) (l : list string) : string :=
  String.concat sep l.

Fixpoint lstrip (s : string) : string :=
  match s with
  | EmptyString => EmptyString
  | String c r => if isspace c then lstrip r else s
  end.

Fixpoint rstrip (s : string) : string :=
  match s with
  | EmptyString => EmptyString
  | String c r =>
      let r' := rstrip r in
      if is_empty r' && isspace c then EmptyString else String c r'
  end.

(** [s.strip()]. *)
Definition strip (s : string) : string := rstrip (lstrip s).

Definition upper_char (c : ascii) : ascii :=
  let n := code c in
  if (97 <=? n) && (n <=? 122) then ascii_of_nat (Z.to_nat (n - 32)) else c.

(** [s.upper()]. *)
Fixpoint upper (s : string) : string :=
  match s with
  | EmptyString => EmptyString
  | String c r => String (upper_char c) (upper r)
  end.

Definition newline : ascii := ascii_of_nat 10.

(** [s.encode()]: UTF-8, one or two bytes for a code point below 256. *)
Fixpoint encode (s : string) : list Z :=
  match s with
  | EmptyString => []
  | String c r =>
      let n := code c in
      if n <? 128 then n :: encode r
      else Z.lor 192 (Z.shiftr n 6) :: Z.lor 128 (Z.land n 63) :: encode r
  end.

End PyStr.

(* ================================================================== *)
(** ** The two regular-expression substitutions of [_is_write_operation] *)

Module Re.

(** Offset just past the first line feed of [s], if there is one. *)
Fixpoint find_newline (s : string) : option nat :=
  match s with
  | EmptyString => None
  | String c r =>
      if Ascii.eqb c PyStr.newline then Some 1%nat
      else option_map S (find_newline r)
  end.

(** Does [s] start with the two characters * / ? *)
Definition starts_close (s : string) : bool :=
  match s with
  | String a (String b _) => Ascii.eqb a "*" && Ascii.eqb b "/"
  | _ => false
  end.

(** Offset just past the first occurrence of the two characters * / . *)
Fixpoint find_close (s : string) : option nat :=
  match s with
  | EmptyString => None
  | String a r =>
      if starts_close s then Some 2%nat else option_map S (find_close r)
  end.

(** Length of the match of [--.*?\n] anchored at the head of [s]:
    the dot does not accept a line feed, so the lazy star stops at the
    first one; without a line feed there is no match. *)
Definition match_line_comment (s : string) : option nat :=
  match s with
  | String a (String b r) =>
      if Ascii.eqb a "-" && Ascii.eqb b "-" then
        option_map (fun n => (2 + n)%nat) (find_newline r)
      else None
  | _ => None
  end.

(** Length of the match of [/\*.*?\*/] (DOTALL) anchored at the head of
    [s]: the closing pair is looked for after the opening pair. *)
Definition match_block_comment (s : string) : option nat :=
  match s with
  | String a (String b r) =>
      if Ascii.eqb a "/" && Ascii.eqb b "*" then
        option_map (fun n => (2 + n)%nat) (find_close r)
      else None
  | _ => None
  end.

(** [re.sub(p, '', s)] for a pattern that never matches the empty string:
    scan left to right, drop each leftmost match, resume after it.
    [skip] counts the characters of the current match still to drop. *)
Fixpoint sub_empty (match_at : string -> option nat) (skip : nat) (s : string)
  : string :=
  match s with
  | EmptyString => EmptyString
  | String c r =>
      match skip with
      | S k => sub_empty match_at k r
      | O =>
          match match_at s with
          | Some (S k) => sub_empty match_at k r
          | _ => String c (sub_empty match_at O r)
          end
      end
  end.

Definition strip_line_comments (s : string) : string :=
  sub_empty match_line_comment 0 s.

Definition strip_block_comments (s : string) : string :=
  sub_empty match_block_comment 0 s.

End Re.

(* ================================================================== *)
(** ** Exceptions and outcomes *)

(** The places where the module raises. *)
Inductive PyExc : Type :=
| IndexError_split            (* sql_clean.split()[0] on an empty list *)
| RuntimeError_no_connection  (* "connection not established" *)
| ValueError_write_disabled   (* write attempted, writes not allowed *)
| ValueError_min_empty        (* min() of an empty sequence *)
| RuntimeError_sql (e : string)     (* psycopg2.Error in execute_query *)
| ValueError_no_table (schema_name table_name : string)
| RuntimeError_schema (e : string)  (* psycopg2.Error in get_table_schema *)
| ConnectionError_connect (e : string). (* psycopg2.Error in connect *)

Inductive Outcome (A : Type) : Type :=
| Return (a : A)
| Raise (e : PyExc).
Arguments Return {A} a.
Arguments Raise {A} e.

(* ================================================================== *)
(** ** StatementClassifier: [_is_write_operation] *)

Definition write_keywords : list string :=
  [ "INSERT"; "UPDATE"; "DELETE"; "DROP"; "CREATE";
    "ALTER"; "TRUNCATE"; "GRANT"; "REVOKE"; "COMMIT";
    "ROLLBACK"; "SAVEPOINT" ].

Definition in_keywords (w : string) : bool :=
  existsb (String.eqb w) write_keywords.

Definition _is_write_operation (sql : string) : Outcome bool :=
  let sql_clean := Re.strip_line_comments sql in
  let sql_clean := Re.strip_block_comments sql_clean in
  let sql_clean := PyStr.strip sql_clean in
  if PyStr.is_empty sql_clean then Return false
  else
    match PyStr.split sql_clean with
    | [] => Raise IndexError_split
    | w :: _ => Return (in_keywords (PyStr.upper w))
    end.

(* ================================================================== *)
(** ** [hashlib.md5(...).hexdigest()] (RFC 1321), on 32-bit words in [Z] *)

Module MD5.

Definition wrap32 (x : Z) : Z := Z.land x 4294967295.
Definition not32 (x : Z) : Z := Z.lxor x 4294967295.
Definition add32 (x y : Z) : Z := wrap32 (x + y).
Definition rotl32 (x : Z) (n : Z) : Z :=
  wrap32 (Z.lor (Z.shiftl x n) (Z.shiftr x (32 - n))).

Definition shifts : list Z :=
  [ 7; 12; 17; 22; 7; 12; 17; 22; 7; 12; 17; 22; 7; 12; 17; 22;
    5; 9; 14; 20; 5; 9; 14; 20; 5; 9; 14; 20; 5; 9; 14; 20;
    4; 11; 16; 23; 4; 11; 16; 23; 4; 11; 16; 23; 4; 11; 16; 23;
    6; 10; 15; 21; 6; 10; 15; 21; 6; 10; 15; 21; 6; 10; 15; 21 ].

(** [floor (2^32 * abs (sin (i + 1)))] for i = 0 .. 63. *)
Definition sines : list Z :=
  [ 0xd76aa478; 0xe8c7b756; 0x242070db; 0xc1bdceee;
    0xf57c0faf; 0x4787c62a; 0xa8304613; 0xfd469501;
    0x698098d8; 0x8b44f7af; 0xffff5bb1; 0x895cd7be;
    0x6b901122; 0xfd987193; 0xa679438e; 0x49b40821;
    0xf61e2562; 0xc040b340; 0x265e5a51; 0xe9b6c7aa;
    0xd62f105d; 0x02441453; 0xd8a1e681; 0xe7d3fbc8;
    0x21e1cde6; 0xc33707d6; 0xf4d50d87; 0x455a14ed;
    0xa9e3e905; 0xfcefa3f8; 0x676f02d9; 0x8d2a4c8a;
    0xfffa3942; 0x8771f681; 0x6d9d6122; 0xfde5380c;
    0xa4beea44; 0x4bdecfa9; 0xf6bb4b60; 0xbebfbc70;
    0x289b7ec6; 0xeaa127fa; 0xd4ef3085; 0x04881d05;
    0xd9d4d039; 0xe6db99e5; 0x1fa27cf8; 0xc4ac5665;
    0xf4292244; 0x432aff97; 0xab9423a7; 0xfc93a039;
    0x655b59c3; 0x8f0ccc92; 0xffeff47d; 0x85845dd1;
    0x6fa87e4f; 0xfe2ce6e0; 0xa3014314; 0x4e0811a1;
    0xf7537e82; 0xbd3af235; 0x2ad7d2bb; 0xeb86d391 ].

Definition regs : Type := (Z * Z * Z * Z)%type.

Definition init : regs := (0x67452301, 0xefcdab89, 0x98badcfe, 0x10325476).

(** Little-endian value of a list of bytes. *)
Fixpoint le_word (bytes : list Z) : Z :=
  match bytes with
  | [] => 0
  | b :: r => b + 256 * le_word r
  end.

(** The [n] low bytes of [x], least significant first. *)
Fixpoint le_bytes (n : nat) (x : Z) : list Z :=
  match n with
  | O => []
  | S k => Z.land x 255 :: le_bytes k (Z.shiftr x 8)
  end.

(** Cut a list into consecutive pieces of [size] elements. *)
Fixpoint pieces {A} (count size : nat) (l : list A) : list (list A) :=
  match count with
  | O => []
  | S k => firstn size l :: pieces k size (skipn size l)
  end.

Definition pad (msg : list Z) : list Z :=
  let len := Z.of_nat (length msg) in
  msg ++ [128] ++ repeat 0 (Z.to_nat ((55 - len) mod 64)) ++ le_bytes 8 (8 * len).

Definition round (M : list Z) (st : regs) (i : nat) : regs :=
  let '(A, B, C, D) := st in
  let iz := Z.of_nat i in
  let '(F, g) :=
    if iz <? 16 then (Z.lor (Z.land B C) (Z.land (not32 B) D), iz)
    else if iz <? 32 then
           (Z.lor (Z.land D B) (Z.land (not32 D) C), (5 * iz + 1) mod 16)
    else if iz <? 48 then (Z.lxor B (Z.lxor C D), (3 * iz + 5) mod 16)
    else (Z.lxor C (Z.lor B (not32 D)), (7 * iz) mod 16) in
  let F := add32 (add32 (add32 F A) (nth i sines 0)) (nth (Z.to_nat g) M 0) in
  (D, add32 B (rotl32 F (nth i shifts 0)), B, C).

Definition block (st : regs) (chunk : list Z) : regs :=
  let M := map le_word (pieces 16 4 chunk) in
  let '(a0, b0, c0, d0) := st in
  let '(A, B, C, D) := fold_left (round M) (seq 0 64) st in
  (add32 a0 A, add32 b0 B, add32 c0 C, add32 d0 D).

Definition digest (msg : list Z) : list Z :=
  let padded := pad msg in
  let '(a, b, c, d) :=
    fold_left block (pieces (length padded / 64) 64 padded) init in
  le_bytes 4 a ++ le_bytes 4 b ++ le_bytes 4 c ++ le_bytes 4 d.

Definition hex_digit (n : Z) : ascii :=
  ascii_of_nat (Z.to_nat (if n <? 10 then 48 + n else 87 + n)).

Fixpoint hex (bytes : list Z) : string :=
  match bytes with
  | [] => EmptyString
  | b :: r => String (hex_digit (Z.shiftr b 4))
                     (String (hex_digit (Z.land b 15)) (hex r))
  end.

Definition hexdigest (msg : list Z) : string := hex (digest msg).

End MD5.

(* ================================================================== *)
(** ** CacheKeyNormalizer: [_get_cache_key] *)

Definition _get_cache_key (sql : string) : string :=
  let sql_normalized := PyStr.join " " (PyStr.split sql) in
  MD5.hexdigest (PyStr.encode sql_normalized).

(* ================================================================== *)
(** ** Python dictionaries, in insertion order *)

Module PyDict.
Section Dict.
Context {V : Type}.

Definition dict : Type := list (string * V).

(** [d.get(k)]; [k in d] is [contains]. *)
Fixpoint lookup (k : string) (d : dict) : option V :=
  match d with
  | [] => None
  | (k', v) :: r => if String.eqb k k' then Some v else lookup k r
  end.

Definition contains (k : string) (d : dict) : bool :=
  match lookup k d with Some _ => true | None => false end.

(** [d[k] = v]: an existing key keeps its place, a new one goes last. *)
Fixpoint setitem (k : string) (v : V) (d : dict) : dict :=
  match d with
  | [] => [(k, v)]
  | (k', v') :: r =>
      if String.eqb k k' then (k, v) :: r else (k', v') :: setitem k v r
  end.

(** [del d[k]], used by the code on keys that are present only. *)
Definition delitem (k : string) (d : dict) : dict :=
  filter (fun e => negb (String.eqb k (fst e))) d.

Definition keys (d : dict) : list string := map fst d.

Definition len (d : dict) : Z := Z.of_nat (length d).

(** Keys are distinct in a dictionary. *)
Definition wf (d : dict) : Prop := NoDup (keys d).
End Dict.
Arguments dict V : clear implicits.

(** [min(xs, key=f)]: the first element whose [f] is minimal; [None]
    stands for the [ValueError] that an empty argument raises. *)
Fixpoint min_from {A} (f : A -> Z) (best : A) (xs : list A) : A :=
  match xs with
  | [] => best
  | x :: r => if f x <? f best then min_from f x r else min_from f best r
  end.

Definition min_by {A} (f : A -> Z) (xs : list A) : option A :=
  match xs with
  | [] => None
  | x :: r => Some (min_from f x r)
  end.
End PyDict.

(* ================================================================== *)
(** ** models.py *)

Inductive PgValue : Type :=
| PgNull
| PgInt (z : Z)
| PgText (s : string)
| PgBool (b : bool).

(** One fetched row: [dict(row)] of a [RealDictRow]. *)
Definition Row : Type := list (string * PgValue).

Record QueryResult : Type := mkQueryResult {
  columns : list string;
  rows : list Row;
  row_count : Z
}.

Record ColumnInfo : Type := mkColumnInfo {
  name : string;
  data_type : string;
  is_nullable : bool;
  default_value : option string
}.

Record TableSchema : Type := mkTableSchema {
  schema_name : string;
  table_name : string;
  table_columns : list ColumnInfo;   (* field [columns] of TableSchema *)
  primary_key : list string
}.

(* ================================================================== *)
(** ** The outside world: clock and database driver *)

(** A row of [information_schema.columns] as the column query selects it. *)
Record ColumnRow : Type := mkColumnRow {
  column_name : string;
  row_data_type : string;
  row_is_nullable : string;
  column_default : option string
}.

(** What a cursor gives back after [execute]: [cursor.description] reduced
    to the column names ([None] when the statement has no result set) and
    [cursor.fetchall()]. *)
Definition Fetched : Type := (option (list string) * list Row)%type.

(** [inl e] is a [psycopg2.Error] with message [e]. *)
Class Driver (W : Type) : Type := {
  clock : W -> Z;
  connect_db : string -> W -> option string * W;
  cursor_execute : string -> W -> (string + Fetched) * W;
  cursor_columns : string -> string -> W -> (string + list ColumnRow) * W;
  cursor_primary_key : string -> string -> W -> (string + list string) * W
}.

(** The calls made to the driver, oldest first. *)
Inductive Invocation : Type :=
| Executed (sql : string)
| AskedColumns (schema table : string)
| AskedPrimaryKey (schema table : string).

(* ================================================================== *)
(** ** class DatabaseManager *)

Definition CacheEntry (V : Type) : Type := (V * Z)%type.

Record DatabaseManager : Type := mkDatabaseManager {
  database_url : string;
  connection : bool;                 (* [false] is [None] *)
  _allow_write_ops : bool;
  _query_cache : PyDict.dict (CacheEntry QueryResult);
  _cache_enabled : bool;
  _schema_cache : PyDict.dict (CacheEntry TableSchema)
}.

Definition set_connection (self : DatabaseManager) (c : bool) :=
  mkDatabaseManager (database_url self) c (_allow_write_ops self)
    (_query_cache self) (_cache_enabled self) (_schema_cache self).

Definition set_query_cache (self : DatabaseManager) qc :=
  mkDatabaseManager (database_url self) (connection self) (_allow_write_ops self)
    qc (_cache_enabled self) (_schema_cache self).

Definition set_schema_cache (self : DatabaseManager) sc :=
  mkDatabaseManager (database_url self) (connection self) (_allow_write_ops self)
    (_query_cache self) (_cache_enabled self) sc.

(** [__init__]; the two flags are the parsed environment variables
    DANGEROUSLY_ALLOW_WRITE_OPS and ENABLE_QUERY_CACHE. *)
Definition __init__ (url : string) (allow_write_ops cache_enabled : bool)
  : DatabaseManager :=
  mkDatabaseManager url false allow_write_ops [] cache_enabled [].

Definition timestamp_of {V} (d : PyDict.dict (CacheEntry V)) (k : string) : Z :=
  match PyDict.lookup k d with
  | Some (_, timestamp) => timestamp
  | None => 0
  end.

(** [min(self._query_cache.keys(), key=lambda k: self._query_cache[k][1])] *)
Definition oldest_key {V} (d : PyDict.dict (CacheEntry V)) : option string :=
  PyDict.min_by (timestamp_of d) (PyDict.keys d).

Section Cache.
(** Module constants read from the environment at import. *)
Variables CACHE_TTL MAX_CACHE_SIZE : Z.

(** [now] is the reading of [time.time()]. *)
Definition _get_cached_result (self : DatabaseManager) (now : Z)
           (cache_key : string) : option QueryResult * DatabaseManager :=
  if negb (_cache_enabled self) then (None, self)
  else
    match PyDict.lookup cache_key (_query_cache self) with
    | None => (None, self)
    | Some (result, timestamp) =>
        if now - timestamp >? CACHE_TTL then
          (None, set_query_cache self
                   (PyDict.delitem cache_key (_query_cache self)))
        else (Some result, self)
    end.

Definition _set_cached_result (self : DatabaseManager) (now : Z)
           (cache_key : string) (result : QueryResult)
  : Outcome DatabaseManager :=
  if negb (_cache_enabled self) then Return self
  else
    let evicted :=
      if PyDict.len (_query_cache self) >=? MAX_CACHE_SIZE then
        match oldest_key (_query_cache self) with
        | None => Raise ValueError_min_empty
        | Some oldest => Return (PyDict.delitem oldest (_query_cache self))
        end
      else Return (_query_cache self) in
    match evicted with
    | Raise e => Raise e
    | Return qc =>
        Return (set_query_cache self (PyDict.setitem cache_key (result, now) qc))
    end.

Definition clear_cache (self : DatabaseManager) : DatabaseManager :=
  set_schema_cache (set_query_cache self []) [].
End Cache.

(* ================================================================== *)
(** ** Running the manager against the outside world *)

(** The manager object, the world it talks to, and the driver calls so far. *)
Record Machine (W : Type) : Type := mkMachine {
  self : DatabaseManager;
  world : W;
  calls : list Invocation
}.
Arguments mkMachine {W} self world calls.
Arguments self {W} m.
Arguments world {W} m.
Arguments calls {W} m.

(** A method body: it ends in a value or an exception, and in both cases
    leaves behind whatever it did to the object and to the world. *)
Definition M (W A : Type) : Type := Machine W -> Outcome A * Machine W.

Definition ret {W A} (a : A) : M W A := fun m => (Return a, m).

Definition raise {W A} (e : PyExc) : M W A := fun m => (Raise e, m).

Definition bind {W A B} (c : M W A) (k : A -> M W B) : M W B :=
  fun m =>
    match c m with
    | (Return a, m') => k a m'
    | (Raise e, m') => (Raise e, m')
    end.

Declare Scope py_scope.
Delimit Scope py_scope with py.
Notation "x <- c ;; k" := (bind c (fun x => k))
  (at level 61, c at next level, right associativity) : py_scope.
Notation "c ;;; k" := (bind c (fun _ => k))
  (at level 61, right associativity) : py_scope.

Definition get_self {W} : M W DatabaseManager := fun m => (Return (self m), m).

Definition put_self {W} (s : DatabaseManager) : M W unit :=
  fun m => (Return tt, mkMachine s (world m) (calls m)).

Definition lift {W A} (o : Outcome A) : M W A := fun m => (o, m).

Definition when {W} (b : bool) (c : M W unit) : M W unit :=
  if b then c else ret tt.

Section Gateway.
Context {W : Type} {driver : Driver W}.
Variables CACHE_TTL MAX_CACHE_SIZE : Z.
Local Open Scope py_scope.

(** [time.time()] *)
Definition time_time : M W Z := fun m => (Return (clock (world m)), m).

(** A call of the driver: the world moves on and the call is recorded. *)
Definition invoke {A} (what : Invocation) (op : W -> A * W) : M W A :=
  fun m =>
    let (a, w') := op (world m) in
    (Return a, mkMachine (self m) w' (calls m ++ [what])).

Definition connect : M W unit :=
  s <- get_self ;;
  r <- (fun m => let (r, w') := connect_db (database_url s) (world m) in
                 (Return r, mkMachine (self m) w' (calls m))) ;;
  match r with
  | Some e => raise (ConnectionError_connect e)
  | None => put_self (set_connection s true)
  end.

Definition close : M W unit :=
  s <- get_self ;;
  when (connection s) (put_self (set_connection s false)).

Definition execute_query (sql : string) (use_cache : bool) : M W QueryResult :=
  s <- get_self ;;
  if negb (connection s) then raise RuntimeError_no_connection
  else
    is_write <- lift (_is_write_operation sql) ;;
    (if is_write then
       if negb (_allow_write_ops s) then raise ValueError_write_disabled
       else when (_cache_enabled s) (put_self (clear_cache s))
     else ret tt) ;;;
    cached_result <-
      (if negb is_write && use_cache then
         let cache_key := _get_cache_key sql in
         s <- get_self ;;
         now <- time_time ;;
         let (hit, s') := _get_cached_result CACHE_TTL s now cache_key in
         put_self s' ;;; ret hit
       else ret None) ;;
    match cached_result with
    | Some result => ret result
    | None =>
        r <- invoke (Executed sql) (cursor_execute sql) ;;
        match r with
        | inl e => raise (RuntimeError_sql e)
        | inr (description, fetched) =>
            let columns := match description with
                           | Some names => names
                           | None => []
                           end in
            let rows := fetched in
            let result :=
              mkQueryResult columns rows (Z.of_nat (length rows)) in
            when (negb is_write && use_cache)
                 (let cache_key := _get_cache_key sql in
                  s <- get_self ;;
                  now <- time_time ;;
                  s' <- lift (_set_cached_result MAX_CACHE_SIZE s now
                                                 cache_key result) ;;
                  put_self s') ;;;
            ret result
        end
    end.

Definition column_info (row : ColumnRow) : ColumnInfo :=
  mkColumnInfo (column_name row) (row_data_type row)
               (String.eqb (row_is_nullable row) "YES") (column_default row).

Definition get_table_schema (schema_name table_name : string)
           (use_cache : bool) : M W TableSchema :=
  s <- get_self ;;
  if negb (connection s) then raise RuntimeError_no_connection
  else
    let cache_key := schema_name ++ "." ++ table_name in
    cached <-
      (if use_cache && _cache_enabled s then
         match PyDict.lookup cache_key (_schema_cache s) with
         | Some (schema_obj, timestamp) =>
             now <- time_time ;;
             if now - timestamp <=? CACHE_TTL then ret (Some schema_obj)
             else
               put_self (set_schema_cache s
                           (PyDict.delitem cache_key (_schema_cache s))) ;;;
               ret None
         | None => ret None
         end
       else ret None) ;;
    match cached with
    | Some schema_obj => ret schema_obj
    | None =>
        r <- invoke (AskedColumns schema_name table_name)
                    (cursor_columns schema_name table_name) ;;
        match r with
        | inl e => raise (RuntimeError_schema e)
        | inr [] => raise (ValueError_no_table schema_name table_name)
        | inr column_rows =>
            let columns := map column_info column_rows in
            r <- invoke (AskedPrimaryKey schema_name table_name)
                        (cursor_primary_key schema_name table_name) ;;
            match r with
            | inl e => raise (RuntimeError_schema e)
            | inr primary_key =>
                let schema_obj :=
                  mkTableSchema schema_name table_name columns primary_key in
                s <- get_self ;;
                (if use_cache && _cache_enabled s then
                   now <- time_time ;;
                   put_self (set_schema_cache s
                               (PyDict.setitem cache_key (schema_obj, now)
                                               (_schema_cache s)))
                 else ret tt) ;;;
                ret schema_obj
            end
        end
    end.
End Gateway.

(* ================================================================== *)
(** ** A small database to run the manager against *)

Module Toy.

(** The clock, the tables that exist with their columns and primary key,
    and the statements the server rejects. *)
Record World : Type := mkWorld {
  now : Z;
  tables : list (string * string * list ColumnRow * list string);
  rejected : list string
}.

Definition tick (w : World) : World :=
  mkWorld (now w + 1) (tables w) (rejected w).

Definition refuses (w : World) (sql : string) : bool :=
  existsb (String.eqb sql) (rejected w).

Fixpoint find_table (schema table : string)
         (l : list (string * string * list ColumnRow * list string))
  : option (list ColumnRow * list string) :=
  match l with
  | [] => None
  | (s, t, cols, pk) :: r =>
      if String.eqb s schema && String.eqb t table then Some (cols, pk)
      else find_table schema table r
  end.

Definition one_row : Fetched := (Some ["n"], [[("n", PgInt 1)]]).

#[global] Instance driver : Driver World := {|
  clock := now;
  connect_db := fun _ w => (None, w);
  cursor_execute := fun sql w =>
    (if refuses w sql then inl "rejected" else inr one_row, tick w);
  cursor_columns := fun schema table w =>
    (inr match find_table schema table (tables w) with
         | Some (cols, _) => cols
         | None => []
         end, tick w);
  cursor_primary_key := fun schema table w =>
    (inr match find_table schema table (tables w) with
         | Some (_, pk) => pk
         | None => []
         end, tick w)
|}.

Definition users : string * string * list ColumnRow * list string :=
  ("public", "users",
   [mkColumnRow "id" "integer" "NO" None;
    mkColumnRow "email" "text" "YES" None],
   ["id"]).

(** A connected manager with empty caches. *)
Definition manager (allow_write_ops cache_enabled : bool) : DatabaseManager :=
  set_connection (__init__ "postgresql://localhost/app"
                           allow_write_ops cache_enabled) true.

Definition start (allow_write_ops cache_enabled : bool) (w : World)
  : Machine World :=
  mkMachine (manager allow_write_ops cache_enabled) w [].

(** Carry the manager and the call log over to another state of the world. *)
Definition later (m : Machine World) (w : World) : Machine World :=
  mkMachine (self m) w (calls m).

Definition sample : QueryResult := mkQueryResult ["n"] [[("n", PgInt 1)]] 1.

(** The manager with the default settings: entries live 300 ticks, at
    most 128 results are kept. *)
Definition run := @execute_query World driver 300 128.
Definition describe := @get_table_schema World driver 300.

(** At tick 10 the table public.users exists; the server rejects two
    statements. *)
Definition w0 : World :=
  mkWorld 10 [users] ["DELETE FROM t"; "SELECT * FROM missing"].

(** The same database after another client dropped the table. *)
Definition w_dropped : World :=
  mkWorld 20 [] ["DELETE FROM t"; "SELECT * FROM missing"].

(** A manager that has answered one query and described one table. *)
Definition warm : Machine World :=
  snd (describe "public" "users" true
         (snd (run "SELECT 1" true (start true true w0)))).

(** The same history on a manager that does not allow writes. *)
Definition warm_readonly : Machine World :=
  snd (describe "public" "users" true
         (snd (run "SELECT 1" true (start false true w0)))).

Definition users_schema : TableSchema :=
  mkTableSchema "public" "users"
    [mkColumnInfo "id" "integer" false None;
     mkColumnInfo "email" "text" true None]
    ["id"].

(** A full store of two results, "A" inserted before "B". *)
Definition two_entries : DatabaseManager :=
  set_query_cache (manager false true)
    [("A", (sample, 1)); ("B", (sample, 2))].

(** A store whose single entry was inserted at tick 0. *)
Definition one_old_entry : DatabaseManager :=
  set_query_cache (manager false true) [("k", (sample, 0))].

End Toy.

Definition nl : string := String PyStr.newline EmptyString.

(* ================================================================== *)
(** ** Notions used to state the properties *)

Inductive Kind : Type := READ | WRITE.

Definition is_write_kind (k : Kind) : bool :=
  match k with WRITE => true | READ => false end.

(** The text up to the first white-space character. *)
Fixpoint first_token (s : string) : string :=
  match s with
  | EmptyString => EmptyString
  | String c r => if PyStr.isspace c then EmptyString else String c (first_token r)
  end.

(** The classifier of the specification, section 4.1, written from its
    words alone: none of the definitions in this module uses the
    embedding of the code. *)
Module Spec.

(** White space, as a Python string counts it below code point 256: the
    characters tab, line feed, vertical tab, form feed, carriage return,
    the four separators 28 to 31, space, next line and no-break space. *)
Definition whitespace_codes : list nat :=
  [9; 10; 11; 12; 13; 28; 29; 30; 31; 32; 133; 160]%nat.

Definition whitespace (c : ascii) : bool :=
  existsb (Nat.eqb (nat_of_ascii c)) whitespace_codes.

Definition line_feed : ascii := "010"%char.

(** Upper-casing, letter by letter. *)
Definition small_letters : string := "abcdefghijklmnopqrstuvwxyz".
Definition capital_letters : string := "ABCDEFGHIJKLMNOPQRSTUVWXYZ".

Fixpoint translate (from to : string) (c : ascii) : ascii :=
  match from, to with
  | String a from', String b to' =>
      if Ascii.eqb c a then b else translate from' to' c
  | _, _ => c
  end.

Fixpoint uppercase (s : string) : string :=
  match s with
  | EmptyString => EmptyString
  | String c r =>
      String (translate small_letters capital_letters c) (uppercase r)
  end.

(** "Strip single-line comments (from -- to end of line)": a comment
    opens at two dashes and runs to the end of its line, or to the end of
    the text when no line feed follows.  The words leave open whether
    the line feed that ends the line goes with the comment or stays in
    the text; both readings are kept. *)
Inductive LineEnd : Type := feed_goes | feed_stays.

(** [in_comment] tells whether the text read so far ends inside a
    comment. *)
Fixpoint strip_line_comments_from (e : LineEnd) (in_comment : bool)
  (s : string) : string :=
  match s with
  | EmptyString => EmptyString
  | String c r =>
      if in_comment then
        if Ascii.eqb c line_feed then
          match e with
          | feed_goes => strip_line_comments_from e false r
          | feed_stays => String c (strip_line_comments_from e false r)
          end
        else strip_line_comments_from e true r
      else
        match r with
        | String d _ =>
            if Ascii.eqb c "-" && Ascii.eqb d "-"
            then strip_line_comments_from e true r
            else String c (strip_line_comments_from e false r)
        | EmptyString => String c EmptyString
        end
  end.

Definition strip_line_comments (e : LineEnd) (s : string) : string :=
  strip_line_comments_from e false s.

(** Does the text hold two dashes in a row anywhere? *)
Fixpoint has_line_comment (s : string) : bool :=
  match s with
  | String c ((String d _) as r) =>
      (Ascii.eqb c "-" && Ascii.eqb d "-") || has_line_comment r
  | _ => false
  end.

(** Does the text end inside a line comment, that is, does its last line
    hold two dashes (outside an earlier comment of that line)? *)
Fixpoint ends_in_line_comment_from (in_comment : bool) (s : string) : bool :=
  match s with
  | EmptyString => in_comment
  | String c r =>
      if in_comment then
        ends_in_line_comment_from (negb (Ascii.eqb c line_feed)) r
      else
        match r with
        | String d _ =>
            if Ascii.eqb c "-" && Ascii.eqb d "-"
            then ends_in_line_comment_from true r
            else ends_in_line_comment_from false r
        | EmptyString => false
        end
  end.

Definition ends_in_line_comment (s : string) : bool :=
  ends_in_line_comment_from false s.

(** The text after the first closing pair * / , if there is one. *)
Fixpoint after_close (s : string) : option string :=
  match s with
  | String a ((String b r') as r) =>
      if Ascii.eqb a "*" && Ascii.eqb b "/" then Some r' else after_close r
  | _ => None
  end.

(** "Block comments (/* ... */, non-greedy, spanning newlines)": from the
    left, each opening pair that has a closing pair after it goes, with
    everything up to the first such closing pair; an opening pair that is
    never closed stays.  Every step reads at least one character, so the
    length of the text is fuel enough. *)
Fixpoint strip_block_comments_fuel (fuel : nat) (s : string) : string :=
  match fuel with
  | O => s
  | S n =>
      match s with
      | String a ((String b r') as r) =>
          if Ascii.eqb a "/" && Ascii.eqb b "*" then
            match after_close r' with
            | Some rest => strip_block_comments_fuel n rest
            | None => String a (strip_block_comments_fuel n r)
            end
          else String a (strip_block_comments_fuel n r)
      | _ => s
      end
  end.

Definition strip_block_comments (s : string) : string :=
  strip_block_comments_fuel (String.length s) s.

(** "Trim leading/trailing whitespace". *)
Fixpoint drop_leading (s : string) : string :=
  match s with
  | EmptyString => EmptyString
  | String c r => if whitespace c then drop_leading r else s
  end.

Fixpoint reverse (s : string) : string :=
  match s with
  | EmptyString => EmptyString
  | String c r => reverse r ++ String c EmptyString
  end.

Definition trim (s : string) : string :=
  reverse (drop_leading (reverse (drop_leading s))).

(** "The first whitespace-delimited token". *)
Fixpoint first_token (s : string) : string :=
  match s with
  | EmptyString => EmptyString
  | String c r => if whitespace c then EmptyString else String c (first_token r)
  end.

(** "The fixed WRITE keyword set". *)
Definition write_set : list string :=
  [ "INSERT"; "UPDATE"; "DELETE"; "DROP"; "CREATE"; "ALTER"; "TRUNCATE";
    "GRANT"; "REVOKE"; "COMMIT"; "ROLLBACK"; "SAVEPOINT" ].

Definition classify (e : LineEnd) (statement : string) : Kind :=
  let text :=
    trim (strip_block_comments (strip_line_comments e statement)) in
  match text with
  | EmptyString => READ
  | String _ _ =>
      if existsb (String.eqb (uppercase (first_token text))) write_set
      then WRITE else READ
  end.

End Spec.

(** Only white space. *)
Fixpoint blank (s : string) : bool :=
  match s with
  | EmptyString => true
  | String c r => PyStr.isspace c && blank r
  end.

(** No white space. *)
Fixpoint solid (s : string) : bool :=
  match s with
  | EmptyString => true
  | String c r => negb (PyStr.isspace c) && solid r
  end.

Definition word (t : string) : bool := negb (PyStr.is_empty t) && solid t.

(** [Layout ts s]: the text [s] is the words [ts] in this order, with a
    non-empty run of white space between two words and any run of white
    space, possibly none, before the first and after the last. *)
Inductive Layout : list string -> string -> Prop :=
| layout_blank u :
    blank u = true -> Layout [] u
| layout_last u t :
    blank u = true -> word t = true -> Layout [t] (u ++ t)
| layout_word u t c r ts :
    blank u = true -> word t = true -> PyStr.isspace c = true ->
    Layout ts r -> Layout (t :: ts) (u ++ t ++ String c r).

(** Two statements that differ only in their runs of white space. *)
Definition same_layout (s1 s2 : string) : Prop :=
  exists ts, Layout ts s1 /\ Layout ts s2.

(** What every manager built by [__init__] and used through its methods
    satisfies: a disabled cache stays empty, and the result cache never
    holds more than [MAX_CACHE_SIZE] entries. *)
Definition cache_inv (MAX_CACHE_SIZE : Z) (s : DatabaseManager) : Prop :=
  (_cache_enabled s = false -> _query_cache s = [] /\ _schema_cache s = [])
  /\ PyDict.len (_query_cache s) <= Z.max 0 MAX_CACHE_SIZE
  /\ PyDict.wf (_query_cache s).

(** A series of [_get_cached_result] calls, each with its key and the
    reading of the clock at that call. *)
Definition run_gets (CACHE_TTL : Z) (s : DatabaseManager)
           (gets : list (string * Z)) : DatabaseManager :=
  fold_left (fun s g => snd (_get_cached_result CACHE_TTL s (snd g) (fst g)))
            gets s.

(** The [QueryResult] that [execute_query] builds from what the cursor
    fetched. *)
Definition fetched_result (f : Fetched) : QueryResult :=
  mkQueryResult (match fst f with Some names => names | None => [] end)
                (snd f) (Z.of_nat (List.length (snd f))).

(** The first step of [get_table_schema]: what the schema cache answers
    at time [now], and the manager after an expired entry was dropped. *)
Definition schema_cache_check (CACHE_TTL : Z) (s : DatabaseManager) (now : Z)
           (cache_key : string) (use_cache : bool)
  : option TableSchema * DatabaseManager :=
  if use_cache && _cache_enabled s then
    match PyDict.lookup cache_key (_schema_cache s) with
    | Some (schema_obj, timestamp) =>
        if now - timestamp <=? CACHE_TTL then (Some schema_obj, s)
        else (None, set_schema_cache s
                      (PyDict.delitem cache_key (_schema_cache s)))
    | None => (None, s)
    end
  else (None, s).

(** The local [sql_normalized] of [_get_cache_key]: the words of the
    statement joined by single spaces. *)
Definition sql_normalized (sql : string) : string :=
  PyStr.join " " (PyStr.split sql).

(** Does the character occur in the text? *)
Fixpoint mentions (c : ascii) (s : string) : bool :=
  match s with
  | EmptyString => false
  | String a r => Ascii.eqb a c || mentions c r
  end.

(* ================================================================== *)
(** ** The environment read by [__init__] *)

Module PyEnv.

(** [str.lower] on one character, code points below 256. *)
Definition lower_char (c : ascii) : ascii :=
  let n := PyStr.code c in
  if ((65 <=? n) && (n <=? 90))
     || ((192 <=? n) && (n <=? 222) && negb (n =? 215))
  then ascii_of_nat (Z.to_nat (n + 32)) else c.

Fixpoint lower (s : string) : string :=
  match s with
  | EmptyString => EmptyString
  | String c r => String (lower_char c) (lower r)
  end.

(** [os.getenv(name, default).lower() in ('true', '1', 'yes')], the
    environment being a lookup of variables that are set. *)
Definition env_flag (getenv : string -> option string) (name default : string)
  : bool :=
  let value := match getenv name with Some v => v | None => default end in
  existsb (String.eqb (lower value)) ["true"; "1"; "yes"].

(** [DatabaseManager(database_url)] in a given environment. *)
Definition init_from_env (getenv : string -> option string) (url : string)
  : DatabaseManager :=
  __init__ url
    (env_flag getenv "DANGEROUSLY_ALLOW_WRITE_OPS" "false")
    (env_flag getenv "ENABLE_QUERY_CACHE" "true").

End PyEnv.

(* ================================================================== *)
(** ** Histories of calls *)

(** The calls a user of the manager can make. *)
Inductive Request : Type :=
| RunQuery (sql : string) (use_cache : bool)
| Describe (schema table : string) (use_cache : bool)
| ClearCache
| Connect
| Close.

Section Histories.
Context {W : Type} {driver : Driver W}.
Variables CACHE_TTL MAX_CACHE_SIZE : Z.

(** One call, whatever its outcome: what it leaves behind. *)
Definition serve (r : Request) (m : Machine W) : Machine W :=
  match r with
  | RunQuery sql use_cache =>
      snd (execute_query CACHE_TTL MAX_CACHE_SIZE sql use_cache m)
  | Describe schema table use_cache =>
      snd (get_table_schema CACHE_TTL schema table use_cache m)
  | ClearCache => mkMachine (clear_cache (self m)) (world m) (calls m)
  | Connect => snd (connect m)
  | Close => snd (close m)
  end.

(** A history: each call with the state the outside world is in when the
    call is made (the database and the clock move between calls). *)
Fixpoint serve_all (h : list (W * Request)) (m : Machine W) : Machine W :=
  match h with
  | [] => m
  | (w, r) :: rest =>
      serve_all rest (serve r (mkMachine (self m) w (calls m)))
  end.
End Histories.

(* ================================================================== *)
(** ** [list_tables] and the resource reader of server.py *)

(** The catalogue query of [list_tables]: the driver's answer as the pairs
    (table_schema, table_name) of the rows, in the order fetched. *)
Class Catalog (W : Type) : Type := {
  cursor_tables : W -> (string + list (string * string)) * W
}.

Module Server.

Definition indent (n : nat) : string := string_of_list_ascii (repeat " "%char n).

(** The text that [list_tables] hands to [cursor.execute]. *)
Definition list_tables_query : string :=
  nl ++ indent 20 ++ "SELECT table_schema, table_name"
  ++ nl ++ indent 20 ++ "FROM information_schema.tables"
  ++ nl ++ indent 20
  ++ "WHERE table_schema NOT IN ('information_schema', 'pg_catalog')"
  ++ nl ++ indent 24 ++ "AND table_type = 'BASE TABLE'"
  ++ nl ++ indent 20 ++ "ORDER BY table_schema, table_name"
  ++ nl ++ indent 16.

(** [TableList]: each table a dictionary with the keys schema_name and
    table_name, here the pair of their values. *)
Record TableList : Type := mkTableList {
  tables : list (string * string)
}.

(** The two ways [list_tables] raises, both a [RuntimeError]. *)
Inductive ListTablesError : Type :=
| ListTables_no_connection
| ListTables_sql (e : string).

(** [s.startswith(prefix)] *)
Fixpoint startswith (prefix s : string) : bool :=
  match prefix, s with
  | EmptyString, _ => true
  | String a p, String b r => Ascii.eqb a b && startswith p r
  | String _ _, EmptyString => false
  end.

(** [s[n:]] *)
Fixpoint slice_from (n : nat) (s : string) : string :=
  match n, s with
  | O, _ => s
  | S k, String _ r => slice_from k r
  | S _, EmptyString => EmptyString
  end.

(** The text before and after the first occurrence of [sep]. *)
Fixpoint cut (sep : ascii) (s : string) : option (string * string) :=
  match s with
  | EmptyString => None
  | String c r =>
      if Ascii.eqb c sep then Some (EmptyString, r)
      else match cut sep r with
           | Some (a, b) => Some (String c a, b)
           | None => None
           end
  end.

(** [s.split(sep, 1)] for a separator of one character. *)
Definition split_once (sep : ascii) (s : string) : list string :=
  match cut sep s with
  | Some (a, b) => [a; b]
  | None => [s]
  end.

(** What [read_resource] hands to [json.dumps]: the list of tables, the
    description of a table, or an error with its context. *)
Inductive Reply : Type :=
| TablesReply (tables : list (string * string))
| TablesFailed (e : ListTablesError)
| SchemaReply (schema : TableSchema)
| SchemaFailed (e : PyExc)
| UnknownUri (uri : string).

Section Handlers.
Context {W : Type} {driver : Driver W} {catalog : Catalog W}.
Variable CACHE_TTL : Z.

Definition list_tables (m : Machine W)
  : (ListTablesError + TableList) * Machine W :=
  if negb (connection (self m)) then (inl ListTables_no_connection, m)
  else
    let (r, w') := cursor_tables (world m) in
    let m' := mkMachine (self m) w' (calls m ++ [Executed list_tables_query]) in
    match r with
    | inl e => (inl (ListTables_sql e), m')
    | inr rows => (inr (mkTableList rows), m')
    end.

Definition read_resource (uri : string) (m : Machine W) : Reply * Machine W :=
  if String.eqb uri "table://*" then
    match list_tables m with
    | (inr table_list, m') => (TablesReply (tables table_list), m')
    | (inl e, m') => (TablesFailed e, m')
    end
  else
    let unknown := (UnknownUri uri, m) in
    if startswith "table://" uri then
      match split_once "/" (slice_from 8 uri) with
      | [schema_name; table_name] =>
          match get_table_schema CACHE_TTL schema_name table_name true m with
          | (Return table_schema, m') => (SchemaReply table_schema, m')
          | (Raise e, m') => (SchemaFailed e, m')
          end
      | _ => unknown
      end
    else unknown.
End Handlers.

End Server.

(* ================================================================== *)
(** ** More of the small database *)

Module Lab.

#[global] Instance catalog : Catalog Toy.World := {|
  cursor_tables := fun w =>
    (inr (map (fun t => (fst (fst (fst t)), snd (fst (fst t)))) (Toy.tables w)),
     Toy.tick w)
|}.

Definition read_resource := @Server.read_resource Toy.World Toy.driver catalog 300.

(** An environment in which no variable is set. *)
Definition empty_env : string -> option string := fun _ => None.

(** A descriptor of public.users made before the column email existed. *)
Definition old_users_schema : TableSchema :=
  mkTableSchema "public" "users" [mkColumnInfo "id" "integer" false None] ["id"].

(** A connected manager that described public.users at tick 0. *)
Definition with_old_schema : DatabaseManager :=
  set_schema_cache (Toy.manager false true)
    [("public.users", (old_users_schema, 0))].

(** The database at tick 1000. *)
Definition w_late : Toy.World := Toy.mkWorld 1000 [Toy.users] [].

(** A manager holding one result stored at tick 10. *)
Definition one_entry : DatabaseManager :=
  set_query_cache (Toy.manager false true) [("k", (Toy.sample, 10))].

End Lab.

(* ================================================================== *)
(** * Properties *)

(** ** Strings *)

Lemma split_blank u s : blank u = true -> PyStr.split (u ++ s) = PyStr.split s.
Proof.
  induction u as [|c u IH]; simpl; [reflexivity|].
  intros H. apply andb_prop in H as [Hc Hu]. now rewrite Hc, IH.
Qed.

Lemma split_word t : word t = true -> PyStr.split t = [t].
Proof.
  unfold word. induction t as [|c t IH]; simpl; [discriminate|].
  intros H. apply andb_prop in H as [Hc Ht].
  apply negb_true_iff in Hc. rewrite Hc.
  destruct t as [|c' t']; [reflexivity|].
  simpl in Ht. apply andb_prop in Ht as [Hc' Ht'].
  apply negb_true_iff in Hc'. rewrite Hc'.
  rewrite IH; [reflexivity|]. simpl. now rewrite Hc', Ht'.
Qed.

Lemma word_cons a t :
  word (String a t) = true -> PyStr.isspace a = false /\ solid t = true.
Proof.
  unfold word. simpl. intros H. apply andb_prop in H as [Ha Ht].
  now apply negb_true_iff in Ha.
Qed.

Lemma word_tail a b t : word (String a (String b t)) = true -> word (String b t) = true.
Proof.
  intros H. apply word_cons in H as [_ H]. exact H.
Qed.

Lemma split_cons_solid a b r :
  PyStr.isspace a = false -> PyStr.isspace b = false ->
  PyStr.split (String a (String b r)) =
  match PyStr.split (String b r) with
  | w :: ws => String a w :: ws
  | [] => [String a EmptyString]
  end.
Proof.
  intros Ha Hb. change (PyStr.split (String a (String b r))) with
    (if PyStr.isspace a then PyStr.split (String b r)
     else if PyStr.isspace b then String a EmptyString :: PyStr.split (String b r)
          else match PyStr.split (String b r) with
               | w :: ws => String a w :: ws
               | [] => [String a EmptyString]
               end).
  now rewrite Ha, Hb.
Qed.

Lemma split_word_sep t c r :
  word t = true -> PyStr.isspace c = true ->
  PyStr.split (t ++ String c r) = t :: PyStr.split r.
Proof.
  revert c r. induction t as [|a t IH]; intros c r; [discriminate|].
  intros H Hc. pose proof (word_cons _ _ H) as [Ha Ht].
  destruct t as [|b t'].
  - simpl. now rewrite Ha, Hc.
  - apply word_tail in H. pose proof (word_cons _ _ H) as [Hb _].
    change (String a (String b t') ++ String c r)
      with (String a (String b (t' ++ String c r))).
    rewrite split_cons_solid by assumption.
    change (String b (t' ++ String c r)) with (String b t' ++ String c r).
    now rewrite IH.
Qed.

Lemma append_assoc (a b c : string) : ((a ++ b) ++ c = a ++ (b ++ c))%string.
Proof. induction a; simpl; congruence. Qed.

Lemma layout_split ts s : Layout ts s -> PyStr.split s = ts.
Proof.
  induction 1 as [u Hu | u t Hu Ht | u t c r ts Hu Ht Hc _ IH].
  - induction u as [|c u IH]; [reflexivity|].
    simpl in Hu. apply andb_prop in Hu as [Hc Hu]. simpl. now rewrite Hc, IH.
  - rewrite split_blank by assumption. now apply split_word.
  - rewrite split_blank by assumption.
    rewrite split_word_sep by assumption. now rewrite IH.
Qed.

Lemma same_layout_key s1 s2 : same_layout s1 s2 -> _get_cache_key s1 = _get_cache_key s2.
Proof.
  intros (ts & H1 & H2). unfold _get_cache_key.
  now rewrite (layout_split _ _ H1), (layout_split _ _ H2).
Qed.

Lemma first_token_split c r :
  PyStr.isspace c = false ->
  exists ws, PyStr.split (String c r) = first_token (String c r) :: ws.
Proof.
  revert c. induction r as [|c' r IH]; intros c Hc.
  - exists []. simpl. now rewrite Hc.
  - destruct (PyStr.isspace c') eqn:Hc'.
    + exists (PyStr.split r). simpl. now rewrite Hc, Hc'.
    + rewrite split_cons_solid by assumption.
      destruct (IH c' Hc') as [ws Hws]. rewrite Hws. exists ws.
      change (first_token (String c (String c' r))) with
        (if PyStr.isspace c then EmptyString
         else String c (first_token (String c' r))).
      now rewrite Hc.
Qed.

Lemma lstrip_head s :
  PyStr.lstrip s = EmptyString \/
  exists c r, PyStr.lstrip s = String c r /\ PyStr.isspace c = false.
Proof.
  induction s as [|c s IH]; simpl; [now left|].
  destruct (PyStr.isspace c) eqn:Hc; [exact IH|].
  right. now exists c, s.
Qed.

Lemma strip_head s :
  PyStr.strip s = EmptyString \/
  exists c r, PyStr.strip s = String c r /\ PyStr.isspace c = false.
Proof.
  unfold PyStr.strip. destruct (lstrip_head s) as [-> | (c & r & -> & Hc)].
  - now left.
  - right. exists c, (PyStr.rstrip r). simpl. rewrite Hc.
    now rewrite andb_false_r.
Qed.

Lemma _is_write_operation_first_token sql :
  _is_write_operation sql =
  Return
    (let text :=
       PyStr.strip (Re.strip_block_comments (Re.strip_line_comments sql)) in
     if PyStr.is_empty text then false
     else in_keywords (PyStr.upper (first_token text))).
Proof.
  unfold _is_write_operation. cbv zeta.
  destruct (strip_head (Re.strip_block_comments (Re.strip_line_comments sql)))
    as [-> | (c & r & -> & Hc)]; [reflexivity|].
  cbn [PyStr.is_empty].
  now destruct (first_token_split c r Hc) as [ws ->].
Qed.

(** Every text is a layout of its own words, so two texts differ only in
    white space exactly when [split] gives the same words. *)
Lemma layout_space c ts s :
  PyStr.isspace c = true -> Layout ts s -> Layout ts (String c s).
Proof.
  intros Hc H. destruct H as [u Hu | u t Hu Ht | u t d r ts Hu Ht Hd H].
  - apply layout_blank. simpl. now rewrite Hc.
  - change (String c (u ++ t)) with (String c u ++ t).
    apply layout_last; [simpl; now rewrite Hc | exact Ht].
  - change (String c (u ++ t ++ String d r)) with (String c u ++ t ++ String d r).
    apply layout_word; auto. simpl. now rewrite Hc.
Qed.

Lemma blank_head_solid u t b r :
  blank u = true -> PyStr.isspace b = false -> (u ++ t)%string = String b r ->
  u = EmptyString.
Proof.
  destruct u as [|x u]; [reflexivity|]. simpl. intros Hu Hb H.
  injection H as -> _. apply andb_prop in Hu as [Hx _]. congruence.
Qed.

Lemma word_extend a t :
  PyStr.isspace a = false -> word t = true -> word (String a t) = true.
Proof.
  unfold word. intros Ha Ht. apply andb_prop in Ht as [_ Ht].
  simpl. now rewrite Ha, Ht.
Qed.

Lemma layout_extend a b r w ts :
  PyStr.isspace a = false -> PyStr.isspace b = false ->
  Layout (w :: ts) (String b r) ->
  Layout (String a w :: ts) (String a (String b r)).
Proof.
  intros Ha Hb H.
  remember (w :: ts) as l eqn:El. remember (String b r) as s eqn:Es.
  destruct H as [u Hu | u t Hu Ht | u t d r0 ts0 Hu Ht Hd H0].
  - discriminate.
  - injection El as <- <-.
    pose proof (blank_head_solid _ _ _ _ Hu Hb Es) as ->.
    apply (layout_last EmptyString (String a t)); [reflexivity|].
    now apply word_extend.
  - injection El as <- <-.
    pose proof (blank_head_solid _ _ _ _ Hu Hb Es) as ->.
    apply (layout_word EmptyString (String a t) d r0 ts0); auto.
    now apply word_extend.
Qed.

Lemma layout_of_split_bounded n :
  forall s, (String.length s < n)%nat -> Layout (PyStr.split s) s.
Proof.
  induction n as [|n IH]; intros s Hlen; [lia|].
  destruct s as [|c r]; [now apply layout_blank|].
  simpl in Hlen.
  destruct (PyStr.isspace c) eqn:Hc.
  - simpl. rewrite Hc. apply layout_space; [exact Hc|]. apply IH. lia.
  - destruct r as [|c' r'].
    + simpl. rewrite Hc.
      apply (layout_last EmptyString (String c EmptyString)); [reflexivity|].
      unfold word. simpl. now rewrite Hc.
    + destruct (PyStr.isspace c') eqn:Hc'.
      * assert (E : PyStr.split (String c (String c' r'))
                    = String c EmptyString :: PyStr.split r').
        { simpl. now rewrite Hc, Hc'. }
        rewrite E.
        apply (layout_word EmptyString (String c EmptyString) c' r');
          auto.
        -- unfold word. simpl. now rewrite Hc.
        -- apply IH. simpl in Hlen. lia.
      * rewrite split_cons_solid by assumption.
        destruct (first_token_split c' r' Hc') as [ws Hws].
        assert (L : Layout (PyStr.split (String c' r')) (String c' r'))
          by (apply IH; lia).
        rewrite Hws in *. now apply layout_extend.
Qed.

Lemma layout_of_split s : Layout (PyStr.split s) s.
Proof. apply (layout_of_split_bounded (S (String.length s))). lia. Qed.

Lemma same_layout_iff s1 s2 :
  same_layout s1 s2 <-> PyStr.split s1 = PyStr.split s2.
Proof.
  split.
  - intros (ts & H1 & H2).
    now rewrite (layout_split _ _ H1), (layout_split _ _ H2).
  - intros E. exists (PyStr.split s1). split; [apply layout_of_split|].
    rewrite E. apply layout_of_split.
Qed.

(** ** The substitutions do what the regular expressions do *)

Lemma sub_empty_skip f a b :
  Re.sub_empty f (String.length a) (a ++ b) = Re.sub_empty f 0 b.
Proof. induction a as [|c a IH]; [reflexivity | exact IH]. Qed.

Lemma find_newline_tail c r :
  Re.find_newline (String c r) = None ->
  Ascii.eqb c PyStr.newline = false /\ Re.find_newline r = None.
Proof.
  simpl. destruct (Ascii.eqb c PyStr.newline); [discriminate|].
  destruct (Re.find_newline r); [discriminate | auto].
Qed.

Lemma find_newline_first body rest :
  Re.find_newline body = None ->
  Re.find_newline (body ++ nl ++ rest) = Some (S (String.length body)).
Proof.
  induction body as [|c body IH]; [reflexivity|].
  intros H. apply find_newline_tail in H as [Hc H].
  change (String c body ++ nl ++ rest)%string
    with (String c (body ++ nl ++ rest)).
  cbn [Re.find_newline String.length]. rewrite Hc. now rewrite (IH H).
Qed.

Lemma length_append_nl body : String.length (body ++ nl) = S (String.length body).
Proof. induction body as [|c b IH]; [reflexivity | simpl; now rewrite IH]. Qed.

(** A comment from two dashes to the end of its line goes, line feed included. *)
Lemma strip_line_comment_head body rest :
  Re.find_newline body = None ->
  Re.strip_line_comments ("--" ++ body ++ nl ++ rest)
  = Re.strip_line_comments rest.
Proof.
  intros H. unfold Re.strip_line_comments.
  change ("--" ++ body ++ nl ++ rest)%string
    with (String "-" (String "-" (body ++ nl ++ rest))).
  cbn [Re.sub_empty Re.match_line_comment].
  rewrite Ascii.eqb_refl. cbn [andb].
  rewrite (find_newline_first body rest H). cbn [option_map Nat.add].
  rewrite <- append_assoc, <- length_append_nl.
  apply sub_empty_skip.
Qed.

(** Text without a line feed is left alone: a last line that is a comment
    stays. *)
Lemma strip_line_comments_one_line s :
  Re.find_newline s = None -> Re.strip_line_comments s = s.
Proof.
  unfold Re.strip_line_comments. induction s as [|c r IH]; [reflexivity|].
  intros H. pose proof (find_newline_tail _ _ H) as [Hc Hr].
  cbn [Re.sub_empty].
  assert (M : Re.match_line_comment (String c r) = None).
  { unfold Re.match_line_comment. destruct r as [|b r']; [reflexivity|].
    destruct (Ascii.eqb c "-" && Ascii.eqb b "-"); [|reflexivity].
    apply find_newline_tail in Hr as [_ Hr']. now rewrite Hr'. }
  rewrite M. now rewrite IH.
Qed.

Lemma starts_close_same a b rest :
  Re.starts_close (String a (b ++ "*"))
  = Re.starts_close (String a (b ++ "*/" ++ rest)).
Proof. destruct b; reflexivity. Qed.

Lemma find_close_first body rest :
  Re.find_close (body ++ "*") = None ->
  Re.find_close (body ++ "*/" ++ rest) = Some (S (S (String.length body))).
Proof.
  induction body as [|a b IH]; [reflexivity|].
  change (String a b ++ "*")%string with (String a (b ++ "*")).
  change (String a b ++ "*/" ++ rest)%string with (String a (b ++ "*/" ++ rest)).
  cbn [Re.find_close String.length].
  rewrite <- (starts_close_same a b rest).
  destruct (Re.starts_close (String a (b ++ "*"))); [discriminate|].
  destruct (Re.find_close (b ++ "*")) eqn:E; [discriminate|].
  intros _. now rewrite IH.
Qed.

Lemma length_append_close body :
  String.length (body ++ "*/") = S (S (String.length body)).
Proof. induction body as [|c b IH]; [reflexivity | simpl; now rewrite IH]. Qed.

(** A block comment goes, from its opening pair to the first closing pair
    after it, line feeds included. *)
Lemma strip_block_comment_head body rest :
  Re.find_close (body ++ "*") = None ->
  Re.strip_block_comments ("/*" ++ body ++ "*/" ++ rest)
  = Re.strip_block_comments rest.
Proof.
  intros H. unfold Re.strip_block_comments.
  change ("/*" ++ body ++ "*/" ++ rest)%string
    with (String "/" (String "*" (body ++ "*/" ++ rest))).
  cbn [Re.sub_empty Re.match_block_comment].
  rewrite !Ascii.eqb_refl. cbn [andb].
  rewrite (find_close_first body rest H). cbn [option_map Nat.add].
  rewrite <- append_assoc, <- length_append_close.
  apply sub_empty_skip.
Qed.

(** ** Dictionaries *)

Section DictFacts.
Context {V : Type}.
Implicit Types (d : PyDict.dict V) (k : string) (v : V).

Lemma lookup_setitem_same k v d :
  PyDict.lookup k (PyDict.setitem k v d) = Some v.
Proof.
  induction d as [|[k' v'] d IH]; simpl.
  - now rewrite String.eqb_refl.
  - destruct (String.eqb k k') eqn:E; simpl.
    + now rewrite String.eqb_refl.
    + now rewrite E.
Qed.

Lemma lookup_setitem_other k k' v d :
  k' <> k -> PyDict.lookup k' (PyDict.setitem k v d) = PyDict.lookup k' d.
Proof.
  intros N. apply String.eqb_neq in N.
  induction d as [|[k0 v0] d IH]; simpl.
  - now rewrite N.
  - destruct (String.eqb k k0) eqn:E; simpl.
    + apply String.eqb_eq in E. subst k0. now rewrite N.
    + now rewrite IH.
Qed.

Lemma lookup_delitem_same k d : PyDict.lookup k (PyDict.delitem k d) = None.
Proof.
  induction d as [|[k0 v0] d IH]; simpl; [reflexivity|].
  destruct (String.eqb k k0) eqn:E; simpl; [exact IH|]. now rewrite E.
Qed.

Lemma lookup_delitem_other k k' d :
  k' <> k -> PyDict.lookup k' (PyDict.delitem k d) = PyDict.lookup k' d.
Proof.
  intros N. apply String.eqb_neq in N.
  induction d as [|[k0 v0] d IH]; simpl; [reflexivity|].
  destruct (String.eqb k k0) eqn:E; simpl.
  - apply String.eqb_eq in E. subst k0. now rewrite N.
  - now rewrite IH.
Qed.

Lemma setitem_absent k v d :
  PyDict.lookup k d = None -> PyDict.setitem k v d = (d ++ [(k, v)])%list.
Proof.
  induction d as [|[k0 v0] d IH]; simpl; [reflexivity|].
  destruct (String.eqb k k0); [discriminate|]. intros H. now rewrite IH.
Qed.

Lemma length_delitem_le k d :
  (length (PyDict.delitem k d) <= length d)%nat.
Proof. apply filter_length_le. Qed.

Lemma length_delitem_lt k d v :
  PyDict.lookup k d = Some v ->
  (length (PyDict.delitem k d) < length d)%nat.
Proof.
  induction d as [|[k0 v0] d IH]; simpl; [discriminate|].
  destruct (String.eqb k k0) eqn:E; simpl.
  - intros _. pose proof (length_delitem_le k d) as H.
    unfold PyDict.delitem in *. lia.
  - intros H. apply IH in H. unfold PyDict.delitem in *. lia.
Qed.

Lemma length_setitem_le k v d :
  (length (PyDict.setitem k v d) <= S (length d))%nat.
Proof.
  induction d as [|[k0 v0] d IH]; simpl; [lia|].
  destruct (String.eqb k k0); simpl; lia.
Qed.

Lemma length_setitem_present k v v0 d :
  PyDict.lookup k d = Some v0 ->
  length (PyDict.setitem k v d) = length d.
Proof.
  induction d as [|[k0 v1] d IH]; simpl; [discriminate|].
  destruct (String.eqb k k0); simpl; [reflexivity|].
  intros H. now rewrite IH.
Qed.

Lemma lookup_none_keys k d :
  PyDict.lookup k d = None <-> ~ In k (PyDict.keys d).
Proof.
  induction d as [|[k0 v0] d IH]; simpl; [tauto|].
  destruct (String.eqb k k0) eqn:E.
  - apply String.eqb_eq in E. subst. split; [discriminate | tauto].
  - apply String.eqb_neq in E. rewrite IH. split; intros H; [intros [?|?]|];
      try congruence; tauto.
Qed.

Lemma keys_delitem_incl k d x :
  In x (PyDict.keys (PyDict.delitem k d)) -> In x (PyDict.keys d).
Proof.
  unfold PyDict.keys, PyDict.delitem. rewrite !in_map_iff.
  intros (e & He & Hin). apply filter_In in Hin as [Hin _]. now exists e.
Qed.

Lemma wf_delitem k d : PyDict.wf d -> PyDict.wf (PyDict.delitem k d).
Proof.
  unfold PyDict.wf. induction d as [|[k0 v0] d IH]; simpl; [auto|].
  intros H. inversion H as [|? ? Hn Hd]; subst.
  destruct (String.eqb k k0); simpl; [auto|].
  constructor; [|auto]. intros Hin. apply Hn.
  now apply (keys_delitem_incl k).
Qed.

Lemma keys_setitem k v d x :
  In x (PyDict.keys (PyDict.setitem k v d)) -> x = k \/ In x (PyDict.keys d).
Proof.
  induction d as [|[k0 v0] d IH]; simpl.
  - intros [H|[]]; auto.
  - destruct (String.eqb k k0) eqn:E; simpl.
    + apply String.eqb_eq in E. subst. tauto.
    + intros [H|H]; [tauto|]. apply IH in H. tauto.
Qed.

Lemma wf_setitem k v d : PyDict.wf d -> PyDict.wf (PyDict.setitem k v d).
Proof.
  unfold PyDict.wf. induction d as [|[k0 v0] d IH]; simpl.
  - intros _. constructor; [tauto | constructor].
  - intros H. inversion H as [|? ? Hn Hd]; subst.
    destruct (String.eqb k k0) eqn:E; simpl.
    + apply String.eqb_eq in E. subst. now constructor.
    + constructor; [|auto]. intros Hin. apply keys_setitem in Hin as [->|Hin].
      * now rewrite String.eqb_refl in E.
      * auto.
Qed.
End DictFacts.

Lemma min_from_in {A} (f : A -> Z) xs best :
  In (PyDict.min_from f best xs) (best :: xs).
Proof.
  revert best. induction xs as [|x xs IH]; intros best; simpl; [auto|].
  destruct (f x <? f best); [specialize (IH x) | specialize (IH best)];
    simpl in IH; tauto.
Qed.

Lemma min_from_le {A} (f : A -> Z) xs :
  forall best y, In y (best :: xs) -> f (PyDict.min_from f best xs) <= f y.
Proof.
  induction xs as [|x xs IH]; intros best y; simpl.
  - intros [->|[]]. lia.
  - destruct (f x <? f best) eqn:E.
    + apply Z.ltb_lt in E. intros [<-|[<-|H]].
      * specialize (IH x x (or_introl eq_refl)). lia.
      * apply IH. now left.
      * apply IH. now right.
    + apply Z.ltb_ge in E. intros [<-|[<-|H]].
      * apply IH. now left.
      * specialize (IH best best (or_introl eq_refl)). lia.
      * apply IH. now right.
Qed.

Lemma oldest_key_some {V} (d : PyDict.dict (CacheEntry V)) :
  d <> [] -> exists k, oldest_key d = Some k.
Proof.
  destruct d as [|[k v] d]; [congruence|]. intros _. eexists. reflexivity.
Qed.

Lemma oldest_key_in {V} (d : PyDict.dict (CacheEntry V)) k :
  oldest_key d = Some k -> In k (PyDict.keys d).
Proof.
  destruct d as [|[k0 v] d]; [discriminate|].
  unfold oldest_key. simpl. intros H. injection H as <-. apply min_from_in.
Qed.

Lemma oldest_key_min {V} (d : PyDict.dict (CacheEntry V)) k k' :
  oldest_key d = Some k -> In k' (PyDict.keys d) ->
  timestamp_of d k <= timestamp_of d k'.
Proof.
  destruct d as [|[k0 v] d]; [discriminate|].
  unfold oldest_key. simpl PyDict.keys. simpl PyDict.min_by.
  intros H Hin. injection H as <-. now apply min_from_le.
Qed.

Lemma lookup_some_keys {V} k (d : PyDict.dict V) :
  In k (PyDict.keys d) -> exists v, PyDict.lookup k d = Some v.
Proof.
  intros H. destruct (PyDict.lookup k d) as [v|] eqn:E; [now exists v|].
  now apply lookup_none_keys in E.
Qed.

(** ** ResultCache: [_get_cached_result] and [_set_cached_result] *)

Section CacheFacts.
Variables CACHE_TTL MAX_CACHE_SIZE : Z.

Local Abbreviation get := (_get_cached_result CACHE_TTL).
Local Abbreviation put := (_set_cached_result MAX_CACHE_SIZE).

Lemma get_disabled s now key :
  _cache_enabled s = false -> get s now key = (None, s).
Proof. unfold _get_cached_result. now intros ->. Qed.

Lemma get_absent s now key :
  PyDict.lookup key (_query_cache s) = None -> get s now key = (None, s).
Proof.
  unfold _get_cached_result. intros ->. now destruct (_cache_enabled s).
Qed.

Lemma get_live s now key r ts :
  _cache_enabled s = true ->
  PyDict.lookup key (_query_cache s) = Some (r, ts) ->
  now - ts <= CACHE_TTL ->
  get s now key = (Some r, s).
Proof.
  unfold _get_cached_result. intros -> -> H. simpl.
  destruct (now - ts >? CACHE_TTL) eqn:E; [|reflexivity].
  apply Z.gtb_lt in E. lia.
Qed.

Lemma get_expired s now key r ts :
  _cache_enabled s = true ->
  PyDict.lookup key (_query_cache s) = Some (r, ts) ->
  now - ts > CACHE_TTL ->
  get s now key =
  (None, set_query_cache s (PyDict.delitem key (_query_cache s))).
Proof.
  unfold _get_cached_result. intros -> -> H. simpl.
  destruct (now - ts >? CACHE_TTL) eqn:E; [reflexivity|].
  rewrite Z.gtb_ltb in E. apply Z.ltb_ge in E. lia.
Qed.

(** A hit changes nothing: reading does not refresh the timestamp. *)
Lemma get_hit s now key r s' :
  get s now key = (Some r, s') ->
  s' = s /\ _cache_enabled s = true /\
  exists ts, PyDict.lookup key (_query_cache s) = Some (r, ts)
             /\ now - ts <= CACHE_TTL.
Proof.
  unfold _get_cached_result.
  destruct (_cache_enabled s); simpl; [|discriminate].
  destruct (PyDict.lookup key (_query_cache s)) as [[r0 ts]|]; [|discriminate].
  destruct (now - ts >? CACHE_TTL) eqn:E; [discriminate|].
  intros H. injection H as <- <-. repeat split; auto.
  exists ts. split; [reflexivity|].
  rewrite Z.gtb_ltb in E. apply Z.ltb_ge in E. lia.
Qed.

(** A miss leaves every other key alone and never adds one. *)
Lemma get_miss s now key s' :
  get s now key = (None, s') ->
  PyDict.lookup key (_query_cache s') = None \/ _cache_enabled s = false.
Proof.
  unfold _get_cached_result.
  destruct (_cache_enabled s); simpl; [|now right].
  destruct (PyDict.lookup key (_query_cache s)) as [[r0 ts]|] eqn:L.
  - destruct (now - ts >? CACHE_TTL); [|discriminate].
    intros H. injection H as <-. left. simpl. apply lookup_delitem_same.
  - intros H. injection H as <-. now left.
Qed.

Lemma get_fields s now key :
  let s' := snd (get s now key) in
  connection s' = connection s /\ _allow_write_ops s' = _allow_write_ops s
  /\ _cache_enabled s' = _cache_enabled s
  /\ _schema_cache s' = _schema_cache s
  /\ (_query_cache s' = _query_cache s
      \/ _query_cache s' = PyDict.delitem key (_query_cache s)).
Proof.
  unfold _get_cached_result.
  destruct (_cache_enabled s) eqn:E; simpl; [|now rewrite E; auto 6].
  destruct (PyDict.lookup key (_query_cache s)) as [[r0 ts]|];
    [destruct (now - ts >? CACHE_TTL)|]; simpl; rewrite ?E; auto 6.
Qed.

Lemma put_disabled s now key v :
  _cache_enabled s = false -> put s now key v = Return s.
Proof. unfold _set_cached_result. now intros ->. Qed.

Lemma put_room s now key v :
  _cache_enabled s = true ->
  PyDict.len (_query_cache s) < MAX_CACHE_SIZE ->
  put s now key v =
  Return (set_query_cache s (PyDict.setitem key (v, now) (_query_cache s))).
Proof.
  unfold _set_cached_result. intros -> H. simpl.
  destruct (PyDict.len (_query_cache s) >=? MAX_CACHE_SIZE) eqn:E;
    [|reflexivity].
  rewrite Z.geb_leb in E. apply Z.leb_le in E. lia.
Qed.

Lemma put_full s now key v oldest :
  _cache_enabled s = true ->
  MAX_CACHE_SIZE <= PyDict.len (_query_cache s) ->
  oldest_key (_query_cache s) = Some oldest ->
  put s now key v =
  Return (set_query_cache s
            (PyDict.setitem key (v, now)
               (PyDict.delitem oldest (_query_cache s)))).
Proof.
  unfold _set_cached_result. intros -> H ->. simpl.
  destruct (PyDict.len (_query_cache s) >=? MAX_CACHE_SIZE) eqn:E;
    [reflexivity|].
  rewrite Z.geb_leb in E. apply Z.leb_gt in E. lia.
Qed.

(** The only way [put] raises: an empty store with a bound below one. *)
Lemma put_raises s now key v e :
  put s now key v = Raise e ->
  e = ValueError_min_empty /\ _cache_enabled s = true
  /\ _query_cache s = [] /\ MAX_CACHE_SIZE <= 0.
Proof.
  unfold _set_cached_result.
  destruct (_cache_enabled s); simpl; [|discriminate].
  destruct (PyDict.len (_query_cache s) >=? MAX_CACHE_SIZE) eqn:E;
    [|discriminate].
  destruct (_query_cache s) as [|[k0 v0] d]; [|discriminate].
  simpl. intros H. injection H as <-.
  rewrite Z.geb_leb in E. apply Z.leb_le in E. unfold PyDict.len in E.
  simpl in E. auto.
Qed.

Lemma put_stores s now key v s' :
  _cache_enabled s = true ->
  put s now key v = Return s' ->
  PyDict.lookup key (_query_cache s') = Some (v, now).
Proof.
  unfold _set_cached_result. intros ->. simpl.
  destruct (PyDict.len (_query_cache s) >=? MAX_CACHE_SIZE);
    [destruct (oldest_key (_query_cache s)); [|discriminate]|];
    intros H; injection H as <-; simpl; apply lookup_setitem_same.
Qed.

Lemma put_fields s now key v s' :
  put s now key v = Return s' ->
  connection s' = connection s /\ _allow_write_ops s' = _allow_write_ops s
  /\ _cache_enabled s' = _cache_enabled s
  /\ _schema_cache s' = _schema_cache s.
Proof.
  unfold _set_cached_result.
  destruct (_cache_enabled s) eqn:E; simpl.
  - destruct (PyDict.len (_query_cache s) >=? MAX_CACHE_SIZE);
      [destruct (oldest_key (_query_cache s)); [|discriminate]|];
      intros H; injection H as <-; simpl; auto.
  - intros H. injection H as <-. auto.
Qed.
End CacheFacts.

(** ** The manager invariant *)

Lemma cache_inv_init MAX url aw ce : cache_inv MAX (__init__ url aw ce).
Proof.
  unfold cache_inv, PyDict.len, PyDict.wf. simpl.
  repeat split; [lia | constructor].
Qed.

Lemma cache_inv_clear MAX s : cache_inv MAX (clear_cache s).
Proof.
  unfold cache_inv, PyDict.len, PyDict.wf. simpl.
  repeat split; [lia | constructor].
Qed.

Lemma cache_inv_connection MAX s c :
  cache_inv MAX s -> cache_inv MAX (set_connection s c).
Proof. now unfold cache_inv. Qed.

Lemma cache_inv_get TTL MAX s now key :
  cache_inv MAX s -> cache_inv MAX (snd (_get_cached_result TTL s now key)).
Proof.
  intros (Hoff & Hlen & Hwf).
  destruct (get_fields TTL s now key) as (_ & _ & He & Hs & Hq).
  unfold cache_inv. rewrite He, Hs.
  destruct Hq as [-> | ->]; [auto|].
  split; [|split].
  - intros H. destruct (Hoff H) as [-> ->]. auto.
  - pose proof (length_delitem_le key (_query_cache s)).
    unfold PyDict.len in *. lia.
  - now apply wf_delitem.
Qed.

Lemma cache_inv_put MAX s now key v s' :
  cache_inv MAX s -> _set_cached_result MAX s now key v = Return s' ->
  cache_inv MAX s'.
Proof.
  intros (Hoff & Hlen & Hwf) H.
  destruct (_cache_enabled s) eqn:E.
  - destruct (Z.lt_ge_cases (PyDict.len (_query_cache s)) MAX) as [Hlt|Hge].
    + rewrite put_room in H by assumption. injection H as <-.
      unfold cache_inv. simpl. rewrite E. split; [discriminate|]. split.
      * pose proof (length_setitem_le key (v, now) (_query_cache s)).
        unfold PyDict.len, CacheEntry in *. lia.
      * now apply wf_setitem.
    + destruct (_query_cache s) as [|e d] eqn:Q.
      * unfold _set_cached_result in H. rewrite E, Q in H. simpl in H.
        unfold PyDict.len in Hge. simpl in Hge.
        destruct (PyDict.len [] >=? MAX) eqn:G; [discriminate|].
        rewrite Z.geb_leb in G. apply Z.leb_gt in G.
        unfold PyDict.len in G. simpl in G. lia.
      * rewrite <- Q in *.
        destruct (oldest_key_some (_query_cache s)) as [o Ho];
          [rewrite Q; discriminate|].
        rewrite (put_full MAX s now key v o E Hge Ho) in H. injection H as <-.
        unfold cache_inv. simpl. rewrite E. split; [discriminate|]. split.
        -- destruct (lookup_some_keys o _ (oldest_key_in _ _ Ho)) as [vo Hvo].
           pose proof (length_delitem_lt o _ _ Hvo).
           pose proof (length_setitem_le key (v, now)
                         (PyDict.delitem o (_query_cache s))).
           unfold PyDict.len, CacheEntry in *. lia.
        -- now apply wf_setitem, wf_delitem.
  - rewrite put_disabled in H by assumption. injection H as <-.
    unfold cache_inv. auto.
Qed.

(** ** C2: [put] on a key that is present *)

(** C2 (as amended).  Whenever [_set_cached_result] does not raise, the key
    ends up mapped to the new value with the current time, whether it was
    present or not.  While the store holds fewer than [MAX_CACHE_SIZE]
    entries no other key is touched.  When it holds [MAX_CACHE_SIZE] or
    more, the entry with the smallest timestamp is removed first: the size
    test does not look at the key, so this happens for a key that is
    present as well as for one that is absent, and every key other than the
    written one and the oldest one is untouched. *)
Theorem set_cached_result_eviction
  (MAX_CACHE_SIZE : Z) (s : DatabaseManager) (now : Z) (key : string)
  (v : QueryResult) :
  _cache_enabled s = true ->
  0 < MAX_CACHE_SIZE \/ _query_cache s <> [] ->
  exists s',
    _set_cached_result MAX_CACHE_SIZE s now key v = Return s'
    /\ PyDict.lookup key (_query_cache s') = Some (v, now)
    /\ (PyDict.len (_query_cache s) < MAX_CACHE_SIZE ->
        _query_cache s' = PyDict.setitem key (v, now) (_query_cache s)
        /\ forall k, k <> key ->
             PyDict.lookup k (_query_cache s') = PyDict.lookup k (_query_cache s))
    /\ (MAX_CACHE_SIZE <= PyDict.len (_query_cache s) ->
        exists oldest,
          oldest_key (_query_cache s) = Some oldest
          /\ (forall k, In k (PyDict.keys (_query_cache s)) ->
                timestamp_of (_query_cache s) oldest
                <= timestamp_of (_query_cache s) k)
          /\ _query_cache s' =
             PyDict.setitem key (v, now)
               (PyDict.delitem oldest (_query_cache s))
          /\ (oldest <> key -> PyDict.lookup oldest (_query_cache s') = None)
          /\ forall k, k <> key -> k <> oldest ->
               PyDict.lookup k (_query_cache s')
               = PyDict.lookup k (_query_cache s)).
Proof.
  intros E Hne.
  destruct (Z.lt_ge_cases (PyDict.len (_query_cache s)) MAX_CACHE_SIZE)
    as [Hlt|Hge].
  - eexists. split; [now apply put_room|]. simpl. split; [|split].
    + apply lookup_setitem_same.
    + intros _. split; [reflexivity|]. intros k Hk.
      now apply lookup_setitem_other.
    + intros H. lia.
  - assert (Hq : _query_cache s <> []).
    { destruct Hne as [Hpos|Hq]; [|exact Hq].
      intros Q. rewrite Q in Hge. unfold PyDict.len in Hge. simpl in Hge. lia. }
    destruct (oldest_key_some _ Hq) as [o Ho].
    eexists. split; [now apply (put_full MAX_CACHE_SIZE s now key v o)|].
    simpl. split; [|split].
    + apply lookup_setitem_same.
    + intros H. lia.
    + intros _. exists o. split; [exact Ho|]. split; [|split; [|split]].
      * intros k Hk. now apply oldest_key_min.
      * reflexivity.
      * intros N. rewrite lookup_setitem_other by exact N.
        apply lookup_delitem_same.
      * intros k Hk Hko. rewrite lookup_setitem_other by exact Hk.
        now apply lookup_delitem_other.
Qed.

(** ** C5: eviction follows insertion, not access *)

Lemma get_keeps TTL s now key :
  (forall v ts, PyDict.lookup key (_query_cache s) = Some (v, ts) ->
                now - ts <= TTL) ->
  snd (_get_cached_result TTL s now key) = s.
Proof.
  intros H. destruct (_cache_enabled s) eqn:E.
  - destruct (PyDict.lookup key (_query_cache s)) as [[v ts]|] eqn:L.
    + now rewrite (get_live TTL s now key v ts E L (H _ _ eq_refl)).
    + now rewrite get_absent.
  - now rewrite get_disabled.
Qed.

Lemma run_gets_keeps TTL gets s :
  (forall g k v ts, In g gets ->
     PyDict.lookup k (_query_cache s) = Some (v, ts) -> snd g - ts <= TTL) ->
  run_gets TTL s gets = s.
Proof.
  unfold run_gets. induction gets as [|g gets IH]; intros H; [reflexivity|].
  simpl. rewrite get_keeps.
  - apply IH. intros g' k v ts Hin. apply H. now right.
  - intros v ts. apply H. now left.
Qed.

(** C5.  With room for two entries and an empty store, inserting the
    distinct keys A, B and C in this order (the clock not running backwards
    between A and B) leaves exactly B and C, in this order and with the
    timestamps of their insertion: A, the oldest insertion, is the one
    evicted.  Any lookups made in between, on any keys and as long as
    nothing has expired, change neither the store nor a timestamp. *)
Theorem fifo_eviction_by_insertion
  (CACHE_TTL : Z) (s0 : DatabaseManager) (A B C : string)
  (vA vB vC : QueryResult) (tA tB tC : Z) (gets1 gets2 : list (string * Z)) :
  _cache_enabled s0 = true -> _query_cache s0 = [] ->
  A <> B -> A <> C -> B <> C ->
  tA <= tB ->
  (forall g, In g gets1 -> snd g - tA <= CACHE_TTL) ->
  (forall g, In g gets2 -> snd g - tA <= CACHE_TTL /\ snd g - tB <= CACHE_TTL) ->
  exists s1 s2 s3,
    _set_cached_result 2 s0 tA A vA = Return s1
    /\ run_gets CACHE_TTL s1 gets1 = s1
    /\ _set_cached_result 2 (run_gets CACHE_TTL s1 gets1) tB B vB = Return s2
    /\ run_gets CACHE_TTL s2 gets2 = s2
    /\ _set_cached_result 2 (run_gets CACHE_TTL s2 gets2) tC C vC = Return s3
    /\ _query_cache s3 = [(B, (vB, tB)); (C, (vC, tC))]
    /\ PyDict.lookup A (_query_cache s3) = None.
Proof.
  intros E Q AB AC BC Ht G1 G2.
  pose proof AB as AB'. pose proof AC as AC'. pose proof BC as BC'.
  apply String.eqb_neq in AB', AC', BC'.
  assert (BA : String.eqb B A = false) by now rewrite String.eqb_sym.
  assert (CB : String.eqb C B = false) by now rewrite String.eqb_sym.
  set (s1 := set_query_cache s0 [(A, (vA, tA))]).
  set (s2 := set_query_cache s1 [(A, (vA, tA)); (B, (vB, tB))]).
  set (s3 := set_query_cache s2 [(B, (vB, tB)); (C, (vC, tC))]).
  assert (P1 : _set_cached_result 2 s0 tA A vA = Return s1).
  { rewrite put_room; [now rewrite Q | exact E |].
    rewrite Q. unfold PyDict.len. simpl. lia. }
  assert (R1 : run_gets CACHE_TTL s1 gets1 = s1).
  { apply run_gets_keeps. intros g k v ts Hin. simpl.
    destruct (String.eqb k A); [|discriminate].
    intros H. injection H as _ <-. now apply G1. }
  assert (P2 : _set_cached_result 2 s1 tB B vB = Return s2).
  { rewrite put_room; [| exact E | unfold PyDict.len; simpl; lia].
    simpl. now rewrite BA. }
  assert (R2 : run_gets CACHE_TTL s2 gets2 = s2).
  { apply run_gets_keeps. intros g k v ts Hin. simpl.
    destruct (G2 g Hin) as [HA HB].
    destruct (String.eqb k A).
    - intros H. now injection H as _ <-.
    - destruct (String.eqb k B); [|discriminate].
      intros H. now injection H as _ <-. }
  assert (P3 : _set_cached_result 2 s2 tC C vC = Return s3).
  { rewrite (put_full 2 s2 tC C vC A); [| exact E | unfold PyDict.len; simpl; lia |].
    - simpl. rewrite String.eqb_refl, AB'. simpl. now rewrite CB.
    - unfold oldest_key, timestamp_of. simpl.
      rewrite BA, !String.eqb_refl.
      destruct (tB <? tA) eqn:L; [|reflexivity].
      apply Z.ltb_lt in L. lia. }
  exists s1, s2, s3. rewrite R1, R2.
  repeat split; try assumption.
  simpl. now rewrite AB', AC'.
Qed.

(** ** C6: lazy expiry *)

(** C6.  On a manager in a reachable state, a lookup of a key whose entry
    is older than [CACHE_TTL] reports absence and removes that entry and
    no other; a following store under the same key, at any time and with
    any value, does not raise and appends the entry without evicting
    anything, as if the slot had been free. *)
Theorem lazy_expiry_frees_slot
  (CACHE_TTL MAX_CACHE_SIZE : Z) (s : DatabaseManager) (now : Z)
  (key : string) (v0 : QueryResult) (ts : Z) :
  cache_inv MAX_CACHE_SIZE s ->
  PyDict.lookup key (_query_cache s) = Some (v0, ts) ->
  now - ts > CACHE_TTL ->
  exists s',
    _get_cached_result CACHE_TTL s now key = (None, s')
    /\ PyDict.lookup key (_query_cache s') = None
    /\ (forall k, k <> key ->
          PyDict.lookup k (_query_cache s') = PyDict.lookup k (_query_cache s))
    /\ forall now' v, exists s'',
         _set_cached_result MAX_CACHE_SIZE s' now' key v = Return s''
         /\ _query_cache s'' = (_query_cache s' ++ [(key, (v, now'))])%list.
Proof.
  intros (Hoff & Hlen & Hwf) L Hold.
  assert (E : _cache_enabled s = true).
  { destruct (_cache_enabled s); [reflexivity|].
    destruct (Hoff eq_refl) as [Q _]. rewrite Q in L. discriminate. }
  eexists. split; [now apply (get_expired CACHE_TTL s now key v0 ts)|].
  simpl. split; [apply lookup_delitem_same|].
  split; [intros k Hk; now apply lookup_delitem_other|].
  intros now' v. eexists. split.
  - apply put_room; [exact E|]. simpl.
    pose proof (length_delitem_lt key _ _ L).
    unfold PyDict.len, CacheEntry in *. lia.
  - simpl. apply setitem_absent, lookup_delitem_same.
Qed.

(** ** QueryGateway: the paths through [execute_query] *)

Section GatewayFacts.
Context {W : Type} {driver : Driver W}.
Variables CACHE_TTL MAX_CACHE_SIZE : Z.

Local Abbreviation run := (execute_query CACHE_TTL MAX_CACHE_SIZE).

Lemma execute_query_no_connection s w c sql uc :
  connection s = false ->
  run sql uc (mkMachine s w c) = (Raise RuntimeError_no_connection, mkMachine s w c).
Proof.
  intros H. unfold execute_query, bind, get_self, raise. simpl. now rewrite H.
Qed.

Lemma execute_query_denied s w c sql uc :
  connection s = true -> _is_write_operation sql = Return true ->
  _allow_write_ops s = false ->
  run sql uc (mkMachine s w c) = (Raise ValueError_write_disabled, mkMachine s w c).
Proof.
  intros H1 H2 H3.
  unfold execute_query, bind, get_self, raise, lift. simpl.
  now rewrite H1, H2, H3.
Qed.

Lemma execute_query_write s w c sql uc :
  connection s = true -> _is_write_operation sql = Return true ->
  _allow_write_ops s = true ->
  run sql uc (mkMachine s w c) =
  let s1 := if _cache_enabled s then clear_cache s else s in
  let m1 := mkMachine s1 (snd (cursor_execute sql w)) (c ++ [Executed sql]) in
  match fst (cursor_execute sql w) with
  | inl e => (Raise (RuntimeError_sql e), m1)
  | inr f => (Return (fetched_result f), m1)
  end.
Proof.
  intros H1 H2 H3.
  unfold execute_query, bind, get_self, raise, lift, when, put_self, ret, invoke.
  simpl. rewrite H1, H2, H3. simpl.
  destruct (_cache_enabled s); simpl;
    destruct (cursor_execute sql w) as [[e|[d f]] w']; reflexivity.
Qed.

Lemma execute_query_uncached s w c sql :
  connection s = true -> _is_write_operation sql = Return false ->
  run sql false (mkMachine s w c) =
  let m1 := mkMachine s (snd (cursor_execute sql w)) (c ++ [Executed sql]) in
  match fst (cursor_execute sql w) with
  | inl e => (Raise (RuntimeError_sql e), m1)
  | inr f => (Return (fetched_result f), m1)
  end.
Proof.
  intros H1 H2.
  unfold execute_query, bind, get_self, raise, lift, when, put_self, ret, invoke.
  simpl. rewrite H1, H2. simpl.
  destruct (cursor_execute sql w) as [[e|[d f]] w']; reflexivity.
Qed.

Lemma execute_query_read s w c sql :
  connection s = true -> _is_write_operation sql = Return false ->
  run sql true (mkMachine s w c) =
  let key := _get_cache_key sql in
  match _get_cached_result CACHE_TTL s (clock w) key with
  | (Some result, s1) => (Return result, mkMachine s1 w c)
  | (None, s1) =>
      let w' := snd (cursor_execute sql w) in
      let c' := (c ++ [Executed sql])%list in
      match fst (cursor_execute sql w) with
      | inl e => (Raise (RuntimeError_sql e), mkMachine s1 w' c')
      | inr f =>
          match _set_cached_result MAX_CACHE_SIZE s1 (clock w') key
                                   (fetched_result f) with
          | Return s2 => (Return (fetched_result f), mkMachine s2 w' c')
          | Raise e => (Raise e, mkMachine s1 w' c')
          end
      end
  end.
Proof.
  intros H1 H2.
  unfold execute_query, bind, get_self, raise, lift, when, put_self, ret,
    invoke, time_time.
  simpl. rewrite H1, H2. simpl.
  destruct (_get_cached_result CACHE_TTL s (clock w) (_get_cache_key sql))
    as [[r|] s1]; simpl; [reflexivity|].
  destruct (cursor_execute sql w) as [[e|[d f]] w']; simpl; [reflexivity|].
  unfold fetched_result. simpl.
  now destruct (_set_cached_result _ _ _ _ _).
Qed.

(** [connect] on a reachable manager: when the driver accepts, the
    connection is there and the caches are as before. *)
Lemma connect_establishes s w c :
  fst (connect_db (database_url s) w) = None ->
  connect (mkMachine s w c)
  = (Return tt,
     mkMachine (set_connection s true) (snd (connect_db (database_url s) w)) c).
Proof.
  intros H. unfold connect, bind, get_self, put_self. simpl.
  destruct (connect_db (database_url s) w) as [r w']. simpl in H. now subst r.
Qed.

Lemma _is_write_operation_total sql : exists b, _is_write_operation sql = Return b.
Proof. eexists. apply _is_write_operation_first_token. Qed.

(** [execute_query] keeps a reachable manager reachable. *)
Lemma cache_inv_execute_query s w c sql uc :
  cache_inv MAX_CACHE_SIZE s ->
  cache_inv MAX_CACHE_SIZE (self (snd (run sql uc (mkMachine s w c)))).
Proof.
  intros I. destruct (connection s) eqn:Hc;
    [|now rewrite execute_query_no_connection].
  destruct (_is_write_operation_total sql) as [[|] Hw].
  - destruct (_allow_write_ops s) eqn:Ha;
      [|now rewrite execute_query_denied].
    rewrite execute_query_write by assumption. cbv zeta.
    destruct (fst (cursor_execute sql w)); simpl;
      destruct (_cache_enabled s); auto using cache_inv_clear.
  - destruct uc.
    + rewrite execute_query_read by assumption. cbv zeta.
      pose proof (cache_inv_get CACHE_TTL MAX_CACHE_SIZE s (clock w)
                    (_get_cache_key sql) I) as I1.
      destruct (_get_cached_result _ _ _ _) as [[r|] s1]; simpl in *; [exact I1|].
      destruct (fst (cursor_execute sql w)) as [e|f]; simpl; [exact I1|].
      destruct (_set_cached_result _ _ _ _ _) as [s2|e] eqn:P; simpl;
        [|exact I1].
      now apply (cache_inv_put _ _ _ _ _ _ I1 P).
    + rewrite execute_query_uncached by assumption. cbv zeta.
      now destruct (fst (cursor_execute sql w)).
Qed.

(** ** C3 and C10: a write that is not allowed *)

(** C3.  On a connected manager, a statement classified as a write, run
    while writes are not allowed, raises the policy error ([ValueError],
    "writes are disabled"); the driver is not called (the log of calls is
    the one before) and the world is the one before: nothing reached the
    database. *)
Theorem write_refused_without_execution
  (s : DatabaseManager) (w : W) (c : list Invocation) (sql : string)
  (use_cache : bool) :
  connection s = true ->
  _is_write_operation sql = Return true ->
  _allow_write_ops s = false ->
  run sql use_cache (mkMachine s w c)
  = (Raise ValueError_write_disabled, mkMachine s w c).
Proof. apply execute_query_denied. Qed.

(** C10.  A statement classified as a write, run while writes are not
    allowed, ends in an exception and leaves the manager (both caches
    included), the world and the log of driver calls exactly as they were;
    on a connected manager the exception is the policy error.  The refusal
    comes before the step that clears the caches. *)
Theorem write_refusal_keeps_caches
  (s : DatabaseManager) (w : W) (c : list Invocation) (sql : string)
  (use_cache : bool) :
  _is_write_operation sql = Return true ->
  _allow_write_ops s = false ->
  exists e,
    run sql use_cache (mkMachine s w c) = (Raise e, mkMachine s w c)
    /\ _query_cache (self (snd (run sql use_cache (mkMachine s w c))))
       = _query_cache s
    /\ _schema_cache (self (snd (run sql use_cache (mkMachine s w c))))
       = _schema_cache s
    /\ (connection s = true -> e = ValueError_write_disabled).
Proof.
  intros Hw Ha. destruct (connection s) eqn:Hc.
  - exists ValueError_write_disabled.
    now rewrite execute_query_denied.
  - exists RuntimeError_no_connection.
    rewrite execute_query_no_connection by assumption.
    repeat split; auto. discriminate.
Qed.

(** ** C1: what a permitted write does to the caches *)

(** C1 (as amended).  On a connected manager that allows writes, a
    statement classified as a write calls the driver exactly once and ends
    as the driver did.  With the cache enabled both caches are empty
    afterwards, whether the driver reported success or failure: they are
    cleared before the statement is sent.  With the cache disabled the
    manager is left as it was.  In both cases a following read with
    [use_cache] calls the driver again. *)
Theorem write_clears_caches_before_execution
  (s : DatabaseManager) (w : W) (c : list Invocation) (sql : string)
  (use_cache : bool) :
  connection s = true ->
  _is_write_operation sql = Return true ->
  _allow_write_ops s = true ->
  exists s',
    run sql use_cache (mkMachine s w c)
    = (match fst (cursor_execute sql w) with
       | inl e => Raise (RuntimeError_sql e)
       | inr f => Return (fetched_result f)
       end,
       mkMachine s' (snd (cursor_execute sql w)) (c ++ [Executed sql]))
    /\ (_cache_enabled s = true ->
        _query_cache s' = [] /\ _schema_cache s' = [])
    /\ (_cache_enabled s = false -> s' = s)
    /\ forall sql' w2 c2,
         _is_write_operation sql' = Return false ->
         calls (snd (run sql' true (mkMachine s' w2 c2)))
         = (c2 ++ [Executed sql'])%list.
Proof.
  intros Hc Hw Ha.
  exists (if _cache_enabled s then clear_cache s else s).
  split; [|split; [|split]].
  - rewrite execute_query_write by assumption. cbv zeta.
    now destruct (fst (cursor_execute sql w)).
  - now intros ->.
  - now intros ->.
  - intros sql' w2 c2 Hr.
    assert (Hc' : connection (if _cache_enabled s then clear_cache s else s)
                  = true) by now destruct (_cache_enabled s).
    rewrite execute_query_read by assumption. cbv zeta.
    assert (G : _get_cached_result CACHE_TTL
                  (if _cache_enabled s then clear_cache s else s)
                  (clock w2) (_get_cache_key sql')
                = (None, if _cache_enabled s then clear_cache s else s)).
    { destruct (_cache_enabled s) eqn:E.
      - now apply get_absent.
      - now apply get_disabled. }
    rewrite G.
    destruct (fst (cursor_execute sql' w2)); [reflexivity|].
    now destruct (_set_cached_result _ _ _ _ _).
Qed.

(** ** C4: a repeated read *)

(** C4 (as amended).  On a connected manager with the cache enabled, when a
    statement classified as a read is run with [use_cache] and returns a
    result, the driver was called at most once, and a second run of the
    same statement, with no other call in between and before the entry is
    older than [CACHE_TTL], returns the same result without calling the
    driver and without changing the manager. *)
Theorem repeated_read_served_from_cache
  (s : DatabaseManager) (w : W) (c : list Invocation) (sql : string)
  (r : QueryResult) (s1 : DatabaseManager) (w1 : W) (c1 : list Invocation)
  (w2 : W) :
  connection s = true ->
  _cache_enabled s = true ->
  _is_write_operation sql = Return false ->
  run sql true (mkMachine s w c) = (Return r, mkMachine s1 w1 c1) ->
  (forall v ts,
     PyDict.lookup (_get_cache_key sql) (_query_cache s1) = Some (v, ts) ->
     clock w2 - ts <= CACHE_TTL) ->
  (c1 = c \/ c1 = (c ++ [Executed sql])%list)
  /\ run sql true (mkMachine s1 w2 c1) = (Return r, mkMachine s1 w2 c1).
Proof.
  intros Hc He Hr Hrun Hfresh.
  rewrite execute_query_read in Hrun by assumption. cbv zeta in Hrun.
  assert (Hit : exists ts,
            connection s1 = true /\ _cache_enabled s1 = true
            /\ PyDict.lookup (_get_cache_key sql) (_query_cache s1)
               = Some (r, ts)
            /\ (c1 = c \/ c1 = (c ++ [Executed sql])%list)).
  { pose proof (get_fields CACHE_TTL s (clock w) (_get_cache_key sql))
      as (Fc & _ & Fe & _).
    destruct (_get_cached_result CACHE_TTL s (clock w) (_get_cache_key sql))
      as [[r0|] s0] eqn:G; simpl in Fc, Fe.
    - injection Hrun as -> -> _ ->.
      apply get_hit in G as (-> & _ & ts & L & _).
      exists ts. auto.
    - destruct (fst (cursor_execute sql w)) as [e|f]; [discriminate|].
      destruct (_set_cached_result MAX_CACHE_SIZE s0 _ _ _) as [s2|e] eqn:P;
        [|discriminate].
      injection Hrun as <- -> _ <-.
      rewrite He in Fe. rewrite Hc in Fc.
      pose proof (put_fields _ _ _ _ _ _ P) as (Pc & _ & Pe & _).
      exists (clock (snd (cursor_execute sql w))).
      rewrite Pc, Pe. repeat split; auto.
      now apply (put_stores _ _ _ _ _ _ Fe P). }
  destruct Hit as (ts & Hc1 & He1 & L & Hcalls).
  split; [exact Hcalls|].
  rewrite execute_query_read by assumption. cbv zeta.
  now rewrite (get_live CACHE_TTL s1 (clock w2) _ r ts He1 L (Hfresh _ _ L)).
Qed.

(** ** SchemaCache: [get_table_schema] *)

Local Abbreviation describe := (get_table_schema CACHE_TTL).

Lemma get_table_schema_no_connection s w c schema table uc :
  connection s = false ->
  describe schema table uc (mkMachine s w c)
  = (Raise RuntimeError_no_connection, mkMachine s w c).
Proof.
  intros H. unfold get_table_schema, bind, get_self, raise. simpl.
  now rewrite H.
Qed.

Lemma get_table_schema_paths s w c schema table uc :
  connection s = true ->
  describe schema table uc (mkMachine s w c) =
  let key := schema ++ "." ++ table in
  match schema_cache_check CACHE_TTL s (clock w) key uc with
  | (Some schema_obj, s1) => (Return schema_obj, mkMachine s1 w c)
  | (None, s1) =>
      let w1 := snd (cursor_columns schema table w) in
      let c1 := (c ++ [AskedColumns schema table])%list in
      match fst (cursor_columns schema table w) with
      | inl e => (Raise (RuntimeError_schema e), mkMachine s1 w1 c1)
      | inr [] => (Raise (ValueError_no_table schema table), mkMachine s1 w1 c1)
      | inr (row :: more) =>
          let w2 := snd (cursor_primary_key schema table w1) in
          let c2 := (c1 ++ [AskedPrimaryKey schema table])%list in
          match fst (cursor_primary_key schema table w1) with
          | inl e => (Raise (RuntimeError_schema e), mkMachine s1 w2 c2)
          | inr pk =>
              let schema_obj :=
                mkTableSchema schema table (map column_info (row :: more)) pk in
              (Return schema_obj,
               mkMachine
                 (if uc && _cache_enabled s1 then
                    set_schema_cache s1
                      (PyDict.setitem key (schema_obj, clock w2)
                                      (_schema_cache s1))
                  else s1) w2 c2)
          end
      end
  end.
Proof.
  intros Hc.
  unfold get_table_schema, schema_cache_check, bind, get_self, raise, ret,
    put_self, invoke, time_time.
  simpl. rewrite Hc. simpl.
  assert (Tail : forall s1 : DatabaseManager,
    (let (a, w') := cursor_columns schema table w in
     (Return a, mkMachine s1 w' (c ++ [AskedColumns schema table]))) =
    (Return (fst (cursor_columns schema table w)),
     mkMachine s1 (snd (cursor_columns schema table w))
               (c ++ [AskedColumns schema table]))).
  { intros s1. now destruct (cursor_columns schema table w). }
  destruct (uc && _cache_enabled s) eqn:U; simpl.
  - destruct (PyDict.lookup _ (_schema_cache s)) as [[obj ts]|]; simpl.
    + destruct (clock w - ts <=? CACHE_TTL); simpl; [reflexivity|].
      rewrite Tail.
      destruct (fst (cursor_columns schema table w)) as [e|[|row more]];
        simpl; try reflexivity.
      destruct (cursor_primary_key schema table _) as [[e|pk] w2]; simpl;
        [reflexivity|].
      now destruct (uc && _cache_enabled s).
    + rewrite Tail.
      destruct (fst (cursor_columns schema table w)) as [e|[|row more]];
        simpl; try reflexivity.
      destruct (cursor_primary_key schema table _) as [[e|pk] w2]; simpl;
        [reflexivity|].
      now rewrite U.
  - rewrite Tail.
    destruct (fst (cursor_columns schema table w)) as [e|[|row more]];
      simpl; try reflexivity.
    destruct (cursor_primary_key schema table _) as [[e|pk] w2]; simpl;
      [reflexivity|].
    now rewrite U.
Qed.

Lemma schema_cache_check_fields s now key uc :
  let s1 := snd (schema_cache_check CACHE_TTL s now key uc) in
  connection s1 = connection s /\ _query_cache s1 = _query_cache s
  /\ _cache_enabled s1 = _cache_enabled s
  /\ (_cache_enabled s = false -> s1 = s).
Proof.
  unfold schema_cache_check. destruct (_cache_enabled s) eqn:E.
  - destruct (uc && true); simpl; [|rewrite E; repeat split; discriminate].
    destruct (PyDict.lookup key (_schema_cache s)) as [[obj ts]|]; simpl;
      [destruct (now - ts <=? CACHE_TTL); simpl|];
      rewrite ?E; repeat split; discriminate.
  - rewrite andb_false_r. simpl. rewrite E. auto.
Qed.

Lemma get_table_schema_fields s w c schema table uc :
  let s' := self (snd (describe schema table uc (mkMachine s w c))) in
  _query_cache s' = _query_cache s /\ _cache_enabled s' = _cache_enabled s
  /\ (_cache_enabled s = false -> _schema_cache s' = _schema_cache s).
Proof.
  destruct (connection s) eqn:Hc;
    [|rewrite get_table_schema_no_connection by assumption; simpl; auto].
  rewrite get_table_schema_paths by assumption. cbv zeta.
  destruct (schema_cache_check_fields s (clock w) (schema ++ "." ++ table) uc)
    as (_ & Q & E & S).
  destruct (schema_cache_check _ _ _ _ _) as [[obj|] s1]; simpl in *.
  - split; [exact Q|]. split; [exact E|]. intros H. now rewrite (S H).
  - assert (Base : _query_cache s1 = _query_cache s
                   /\ _cache_enabled s1 = _cache_enabled s
                   /\ (_cache_enabled s = false ->
                       _schema_cache s1 = _schema_cache s)).
    { split; [exact Q|]. split; [exact E|]. intros H. now rewrite (S H). }
    destruct (fst (cursor_columns schema table w)) as [e|[|row more]];
      simpl; try exact Base.
    destruct (fst (cursor_primary_key schema table _)) as [e|pk];
      simpl; try exact Base.
    destruct (uc && _cache_enabled s1) eqn:U; simpl; [|exact Base].
    split; [exact Q|]. split; [exact E|]. intros H.
    rewrite E, H, andb_false_r in U. discriminate.
Qed.

(** [get_table_schema] keeps a reachable manager reachable. *)
Lemma cache_inv_get_table_schema s w c schema table uc :
  cache_inv MAX_CACHE_SIZE s ->
  cache_inv MAX_CACHE_SIZE
    (self (snd (describe schema table uc (mkMachine s w c)))).
Proof.
  intros (Hoff & Hlen & Hwf).
  destruct (get_table_schema_fields s w c schema table uc) as (Q & E & S).
  unfold cache_inv. rewrite Q, E. split; [|auto].
  intros H. rewrite (S H). auto.
Qed.

Lemma schema_cache_check_absent s now key uc :
  PyDict.lookup key (_schema_cache s) = None ->
  schema_cache_check CACHE_TTL s now key uc = (None, s).
Proof.
  unfold schema_cache_check. intros ->. now destruct (uc && _cache_enabled s).
Qed.

Lemma get_table_schema_missing s w c schema table uc :
  connection s = true ->
  fst (cursor_columns schema table w) = inr [] ->
  PyDict.lookup (schema ++ "." ++ table) (_schema_cache s) = None ->
  describe schema table uc (mkMachine s w c)
  = (Raise (ValueError_no_table schema table),
     mkMachine s (snd (cursor_columns schema table w))
               (c ++ [AskedColumns schema table])).
Proof.
  intros Hc Hno L. rewrite get_table_schema_paths by assumption. cbv zeta.
  rewrite schema_cache_check_absent by assumption. now rewrite Hno.
Qed.

(** ** C9: a table that does not exist *)

(** C9 (as amended).  On a connected manager, when the driver reports no
    column for (schema, table) and the schema cache has no entry for it
    that is still served (no entry at all, or an expired one looked up
    with [use_cache] on an enabled cache), the lookup calls the driver
    once, raises the not-found error ([ValueError], "table does not
    exist") and leaves the schema cache without an entry for the key and
    otherwise as it was.  A second lookup of a table still absent calls the
    driver again and raises the same error. *)
Theorem missing_table_is_not_cached
  (s : DatabaseManager) (w : W) (c : list Invocation)
  (schema table : string) (use_cache : bool) :
  connection s = true ->
  fst (cursor_columns schema table w) = inr [] ->
  (forall obj ts,
     PyDict.lookup (schema ++ "." ++ table) (_schema_cache s) = Some (obj, ts) ->
     use_cache = true /\ _cache_enabled s = true /\ clock w - ts > CACHE_TTL) ->
  exists s',
    describe schema table use_cache (mkMachine s w c)
    = (Raise (ValueError_no_table schema table),
       mkMachine s' (snd (cursor_columns schema table w))
                 (c ++ [AskedColumns schema table]))
    /\ PyDict.lookup (schema ++ "." ++ table) (_schema_cache s') = None
    /\ (forall k, k <> schema ++ "." ++ table ->
          PyDict.lookup k (_schema_cache s') = PyDict.lookup k (_schema_cache s))
    /\ _query_cache s' = _query_cache s
    /\ forall w2 c2 use_cache2,
         fst (cursor_columns schema table w2) = inr [] ->
         describe schema table use_cache2 (mkMachine s' w2 c2)
         = (Raise (ValueError_no_table schema table),
            mkMachine s' (snd (cursor_columns schema table w2))
                      (c2 ++ [AskedColumns schema table])).
Proof.
  intros Hc Hno Hstale.
  destruct (PyDict.lookup (schema ++ "." ++ table) (_schema_cache s))
    as [[obj ts]|] eqn:L.
  - destruct (Hstale obj ts eq_refl) as (-> & He & Hold).
    exists (set_schema_cache s
              (PyDict.delitem (schema ++ "." ++ table) (_schema_cache s))).
    assert (L' : PyDict.lookup (schema ++ "." ++ table)
                   (_schema_cache
                      (set_schema_cache s
                         (PyDict.delitem (schema ++ "." ++ table)
                                         (_schema_cache s)))) = None)
      by apply lookup_delitem_same.
    split; [|split; [exact L'|split; [|split; [reflexivity|]]]].
    + rewrite get_table_schema_paths by assumption. cbv zeta.
      unfold schema_cache_check. rewrite He, L. simpl.
      destruct (clock w - ts <=? CACHE_TTL) eqn:G.
      * apply Z.leb_le in G. lia.
      * now rewrite Hno.
    + intros k Hk. simpl. now apply lookup_delitem_other.
    + intros w2 c2 uc2 Hno2. now apply get_table_schema_missing.
  - exists s. split; [now apply get_table_schema_missing|].
    split; [exact L|]. split; [reflexivity|]. split; [reflexivity|].
    intros w2 c2 uc2 Hno2. now apply get_table_schema_missing.
Qed.

End GatewayFacts.

(** ** C7: the classifier *)

Lemma whitespace_isspace c : Spec.whitespace c = PyStr.isspace c.
Proof. destruct c as [[] [] [] [] [] [] [] []]; reflexivity. Qed.

Lemma translate_upper_char c :
  Spec.translate Spec.small_letters Spec.capital_letters c = PyStr.upper_char c.
Proof. destruct c as [[] [] [] [] [] [] [] []]; reflexivity. Qed.

Lemma uppercase_upper s : Spec.uppercase s = PyStr.upper s.
Proof.
  induction s as [|c s IH]; [reflexivity|].
  cbn [Spec.uppercase PyStr.upper]. now rewrite translate_upper_char, IH.
Qed.

Lemma spec_first_token s : Spec.first_token s = first_token s.
Proof.
  induction s as [|c s IH]; [reflexivity|].
  cbn [Spec.first_token first_token]. now rewrite whitespace_isspace, IH.
Qed.

Lemma drop_leading_lstrip s : Spec.drop_leading s = PyStr.lstrip s.
Proof.
  induction s as [|c s IH]; [reflexivity|].
  cbn [Spec.drop_leading PyStr.lstrip]. now rewrite whitespace_isspace, IH.
Qed.

Lemma append_empty_r (s : string) : (s ++ EmptyString)%string = s.
Proof. induction s; simpl; congruence. Qed.

Lemma lstrip_blank a : blank a = true -> PyStr.lstrip a = EmptyString.
Proof.
  induction a as [|c a IH]; [reflexivity|]. simpl.
  intros H. apply andb_prop in H as [-> Ha]. auto.
Qed.

Lemma lstrip_app a b :
  PyStr.lstrip (a ++ b) =
  if blank a then PyStr.lstrip b else (PyStr.lstrip a ++ b)%string.
Proof.
  induction a as [|c a IH]; [reflexivity|].
  change (String c a ++ b)%string with (String c (a ++ b)).
  cbn [PyStr.lstrip blank]. destruct (PyStr.isspace c); [exact IH | reflexivity].
Qed.

Lemma lstrip_empty_blank a : PyStr.is_empty (PyStr.lstrip a) = blank a.
Proof.
  induction a as [|c a IH]; [reflexivity|].
  simpl. now destruct (PyStr.isspace c).
Qed.

Lemma reverse_snoc a c :
  Spec.reverse (a ++ String c EmptyString) = String c (Spec.reverse a).
Proof.
  induction a as [|x a IH]; [reflexivity|].
  change (String x a ++ String c EmptyString)%string
    with (String x (a ++ String c EmptyString)).
  cbn [Spec.reverse]. now rewrite IH.
Qed.

(** Trimming on the right is trimming the reversed text on the left. *)
Lemma rstrip_reverse s :
  PyStr.rstrip s = Spec.reverse (PyStr.lstrip (Spec.reverse s)).
Proof.
  induction s as [|c s IH]; [reflexivity|].
  cbn [PyStr.rstrip Spec.reverse]. rewrite lstrip_app.
  rewrite IH at 1. rewrite IH.
  destruct (blank (Spec.reverse s)) eqn:B.
  - rewrite (lstrip_blank _ B). cbn [Spec.reverse PyStr.is_empty andb PyStr.lstrip].
    now destruct (PyStr.isspace c).
  - rewrite reverse_snoc.
    assert (E : PyStr.is_empty
                  (Spec.reverse (PyStr.lstrip (Spec.reverse s))) = false).
    { pose proof (lstrip_empty_blank (Spec.reverse s)) as L. rewrite B in L.
      destruct (PyStr.lstrip (Spec.reverse s)) as [|x l]; [discriminate|].
      cbn [Spec.reverse]. now destruct (Spec.reverse l). }
    now rewrite E.
Qed.

Lemma trim_strip s : Spec.trim s = PyStr.strip s.
Proof.
  unfold Spec.trim, PyStr.strip.
  now rewrite !drop_leading_lstrip, <- rstrip_reverse.
Qed.

(** *** Line comments: the code and the specification *)

Lemma string_length_append (a b : string) :
  String.length (a ++ b) = (String.length a + String.length b)%nat.
Proof. induction a as [|c a IH]; simpl; [reflexivity | now rewrite IH]. Qed.

Lemma find_newline_some x :
  forall k, Re.find_newline x = Some k ->
  exists body y,
    x = (body ++ nl ++ y)%string /\ Re.find_newline body = None
    /\ k = S (String.length body).
Proof.
  induction x as [|c r IH]; intros k; [discriminate|].
  cbn [Re.find_newline]. destruct (Ascii.eqb c PyStr.newline) eqn:E.
  - intros H. injection H as <-. apply Ascii.eqb_eq in E. subst c.
    exists EmptyString, r. auto.
  - destruct (Re.find_newline r) as [k'|]; [|discriminate].
    intros H. injection H as <-.
    destruct (IH k' eq_refl) as (body & y & -> & Hb & ->).
    exists (String c body), y. repeat split.
    cbn [Re.find_newline]. now rewrite E, Hb.
Qed.

Lemma spec_comment_runs_to_line_end body y :
  Re.find_newline body = None ->
  Spec.strip_line_comments_from Spec.feed_goes true (body ++ nl ++ y)
  = Spec.strip_line_comments_from Spec.feed_goes false y
  /\ Spec.ends_in_line_comment_from true (body ++ nl ++ y)
     = Spec.ends_in_line_comment_from false y.
Proof.
  induction body as [|c b IH]; [split; reflexivity|].
  intros H. apply find_newline_tail in H as [Hc Hb].
  change (String c b ++ nl ++ y)%string with (String c (b ++ nl ++ y)).
  cbn [Spec.strip_line_comments_from Spec.ends_in_line_comment_from].
  change Spec.line_feed with PyStr.newline. rewrite Hc. exact (IH Hb).
Qed.

Lemma spec_comment_unclosed x :
  Re.find_newline x = None -> Spec.ends_in_line_comment_from true x = true.
Proof.
  induction x as [|c r IH]; [reflexivity|].
  intros H. apply find_newline_tail in H as [Hc Hr].
  cbn [Spec.ends_in_line_comment_from].
  change Spec.line_feed with PyStr.newline. rewrite Hc. exact (IH Hr).
Qed.

Lemma sub_empty_step f c r :
  Re.sub_empty f 0 (String c r) =
  match f (String c r) with
  | Some (S k) => Re.sub_empty f k r
  | _ => String c (Re.sub_empty f 0 r)
  end.
Proof. reflexivity. Qed.

Lemma spec_line_step e c d r :
  Spec.strip_line_comments_from e false (String c (String d r)) =
  (if Ascii.eqb c "-" && Ascii.eqb d "-"
   then Spec.strip_line_comments_from e true (String d r)
   else String c (Spec.strip_line_comments_from e false (String d r)))
  /\ Spec.ends_in_line_comment_from false (String c (String d r)) =
     (if Ascii.eqb c "-" && Ascii.eqb d "-"
      then Spec.ends_in_line_comment_from true (String d r)
      else Spec.ends_in_line_comment_from false (String d r)).
Proof. split; reflexivity. Qed.

Lemma spec_line_inside e d r :
  Ascii.eqb d Spec.line_feed = false ->
  Spec.strip_line_comments_from e true (String d r)
  = Spec.strip_line_comments_from e true r
  /\ Spec.ends_in_line_comment_from true (String d r)
     = Spec.ends_in_line_comment_from true r.
Proof.
  intros H. cbn [Spec.strip_line_comments_from Spec.ends_in_line_comment_from].
  now rewrite H.
Qed.

Lemma match_line_comment_step c d r :
  Re.match_line_comment (String c (String d r)) =
  if Ascii.eqb c "-" && Ascii.eqb d "-"
  then option_map (fun n => (2 + n)%nat) (Re.find_newline r)
  else None.
Proof. reflexivity. Qed.

(** Under the reading that takes the line feed with the comment, the
    code strips what the specification strips from every text that does
    not end inside a line comment. *)
Lemma line_comments_agree_bounded n :
  forall s, (String.length s < n)%nat ->
  Spec.ends_in_line_comment_from false s = false ->
  Re.sub_empty Re.match_line_comment 0 s
  = Spec.strip_line_comments_from Spec.feed_goes false s.
Proof.
  induction n as [|n IH]; intros s Hlen Hclosed; [lia|].
  destruct s as [|c [|d r]]; [reflexivity | reflexivity |].
  cbn [String.length] in Hlen.
  destruct (spec_line_step Spec.feed_goes c d r) as [Es Ee].
  rewrite Es. rewrite Ee in Hclosed. clear Es Ee.
  rewrite sub_empty_step, match_line_comment_step.
  destruct (Ascii.eqb c "-" && Ascii.eqb d "-") eqn:Dash.
  - assert (Hd : Ascii.eqb d Spec.line_feed = false).
    { apply andb_prop in Dash as [_ Hd]. apply Ascii.eqb_eq in Hd. now subst d. }
    destruct (spec_line_inside Spec.feed_goes d r Hd) as [Is Ie].
    rewrite Is. rewrite Ie in Hclosed. clear Is Ie.
    destruct (Re.find_newline r) as [k|] eqn:F.
    + destruct (find_newline_some r k F) as (body & y & -> & Hb & ->).
      destruct (spec_comment_runs_to_line_end body y Hb) as [Hs He].
      rewrite Hs. rewrite He in Hclosed.
      cbn [option_map Nat.add].
      change (Re.sub_empty Re.match_line_comment (S (S (String.length body)))
                (String d (body ++ nl ++ y)))
        with (Re.sub_empty Re.match_line_comment (S (String.length body))
                (body ++ nl ++ y)).
      rewrite <- append_assoc, <- length_append_nl, sub_empty_skip.
      apply IH; [|exact Hclosed].
      rewrite !string_length_append in Hlen. lia.
    + rewrite (spec_comment_unclosed r F) in Hclosed. discriminate.
  - f_equal. apply IH; [cbn [String.length]; lia | exact Hclosed].
Qed.

Lemma line_comments_agree s :
  Spec.ends_in_line_comment s = false ->
  Re.strip_line_comments s = Spec.strip_line_comments Spec.feed_goes s.
Proof.
  apply (line_comments_agree_bounded (S (String.length s))). lia.
Qed.

(** A text without two dashes in a row is left as it is, by the code and
    by the specification under either reading. *)
Lemma has_line_comment_step c d r :
  Spec.has_line_comment (String c (String d r)) =
  (Ascii.eqb c "-" && Ascii.eqb d "-") || Spec.has_line_comment (String d r).
Proof. reflexivity. Qed.

Lemma no_dashes_code s :
  Spec.has_line_comment s = false -> Re.strip_line_comments s = s.
Proof.
  unfold Re.strip_line_comments.
  induction s as [|c [|d r] IH]; [reflexivity | reflexivity |].
  rewrite has_line_comment_step. intros H.
  apply orb_false_elim in H as [Dash Hr].
  rewrite sub_empty_step, match_line_comment_step, Dash.
  f_equal. exact (IH Hr).
Qed.

Lemma no_dashes_spec e s :
  Spec.has_line_comment s = false -> Spec.strip_line_comments e s = s.
Proof.
  unfold Spec.strip_line_comments.
  induction s as [|c [|d r] IH]; [reflexivity | reflexivity |].
  rewrite has_line_comment_step. intros H.
  apply orb_false_elim in H as [Dash Hr].
  destruct (spec_line_step e c d r) as [-> _]. rewrite Dash.
  f_equal. exact (IH Hr).
Qed.

(** A text that ends with a line feed does not end inside a comment. *)
Lemma closed_by_line_feed s :
  forall b, Spec.ends_in_line_comment_from b (s ++ nl) = false.
Proof.
  induction s as [|c [|d r] IH]; intros b.
  - destruct b; reflexivity.
  - change (String c EmptyString ++ nl)%string
      with (String c (String Spec.line_feed EmptyString)).
    destruct b.
    + change (Spec.ends_in_line_comment_from true
                (String c (String Spec.line_feed EmptyString)))
        with (Spec.ends_in_line_comment_from
                (negb (Ascii.eqb c Spec.line_feed))
                (String Spec.line_feed EmptyString)).
      destruct (negb (Ascii.eqb c Spec.line_feed)); reflexivity.
    + destruct (spec_line_step Spec.feed_goes c Spec.line_feed EmptyString)
        as [_ ->].
      destruct (Ascii.eqb c "-" && Ascii.eqb Spec.line_feed "-"); reflexivity.
  - change (String c (String d r) ++ nl)%string
      with (String c (String d r ++ nl)) in *.
    destruct b.
    + change (Spec.ends_in_line_comment_from true (String c (String d r ++ nl)))
        with (Spec.ends_in_line_comment_from
                (negb (Ascii.eqb c Spec.line_feed)) (String d r ++ nl)).
      apply IH.
    + change (String d r ++ nl)%string with (String d (r ++ nl)) in *.
      destruct (spec_line_step Spec.feed_goes c d (r ++ nl)) as [_ ->].
      destruct (Ascii.eqb c "-" && Ascii.eqb d "-"); apply IH.
Qed.

(** *** Block comments: the code and the specification *)

Lemma find_close_step c r :
  Re.find_close (String c r) =
  if Re.starts_close (String c r) then Some 2%nat
  else option_map S (Re.find_close r).
Proof. reflexivity. Qed.

Lemma after_close_step c d r :
  Spec.after_close (String c (String d r)) =
  if Ascii.eqb c "*" && Ascii.eqb d "/" then Some r
  else Spec.after_close (String d r).
Proof. reflexivity. Qed.

Lemma find_close_after x :
  match Re.find_close x with
  | Some k =>
      exists a rest, x = (a ++ rest)%string /\ String.length a = k
                     /\ Spec.after_close x = Some rest
  | None => Spec.after_close x = None
  end.
Proof.
  induction x as [|c [|d r] IH]; [reflexivity | reflexivity |].
  rewrite find_close_step, after_close_step.
  change (Re.starts_close (String c (String d r)))
    with (Ascii.eqb c "*" && Ascii.eqb d "/").
  destruct (Ascii.eqb c "*" && Ascii.eqb d "/").
  - exists (String c (String d EmptyString)), r. auto.
  - destruct (Re.find_close (String d r)) as [k|]; [|exact IH].
    destruct IH as (a & rest & E & L & A).
    exists (String c a), rest. cbn [option_map String.length].
    repeat split; [| congruence | exact A].
    change (String c a ++ rest)%string with (String c (a ++ rest)).
    now rewrite E.
Qed.

Lemma match_block_comment_step c d r :
  Re.match_block_comment (String c (String d r)) =
  if Ascii.eqb c "/" && Ascii.eqb d "*"
  then option_map (fun n => (2 + n)%nat) (Re.find_close r)
  else None.
Proof. reflexivity. Qed.

Lemma strip_block_step n c d r :
  Spec.strip_block_comments_fuel (S n) (String c (String d r)) =
  if Ascii.eqb c "/" && Ascii.eqb d "*" then
    match Spec.after_close r with
    | Some rest => Spec.strip_block_comments_fuel n rest
    | None => String c (Spec.strip_block_comments_fuel n (String d r))
    end
  else String c (Spec.strip_block_comments_fuel n (String d r)).
Proof. reflexivity. Qed.

Lemma block_comments_agree_fuel n :
  forall s, (String.length s <= n)%nat ->
  Re.sub_empty Re.match_block_comment 0 s
  = Spec.strip_block_comments_fuel n s.
Proof.
  induction n as [|n IH]; intros s Hlen.
  - destruct s; [reflexivity | cbn [String.length] in Hlen; lia].
  - destruct s as [|c [|d r]]; [reflexivity | reflexivity |].
    cbn [String.length] in Hlen.
    rewrite sub_empty_step, match_block_comment_step, strip_block_step.
    destruct (Ascii.eqb c "/" && Ascii.eqb d "*").
    + pose proof (find_close_after r) as F.
      destruct (Re.find_close r) as [k|].
      * destruct F as (a & rest & -> & <- & ->).
        cbn [option_map Nat.add].
        change (Re.sub_empty Re.match_block_comment
                  (S (String.length a)) (String d (a ++ rest)))
          with (Re.sub_empty Re.match_block_comment
                  (String.length a) (a ++ rest)).
        rewrite sub_empty_skip. apply IH.
        rewrite string_length_append in Hlen. lia.
      * rewrite F. cbn [option_map]. f_equal.
        apply IH. cbn [String.length]. lia.
    + f_equal. apply IH. cbn [String.length]. lia.
Qed.

Lemma block_comments_agree s :
  Re.strip_block_comments s = Spec.strip_block_comments s.
Proof. apply block_comments_agree_fuel. lia. Qed.

(** *** The classifier, from the stripped text on *)

Lemma classify_stripped_text x y :
  x = y ->
  (let text := PyStr.strip (Re.strip_block_comments x) in
   if PyStr.is_empty text then false
   else in_keywords (PyStr.upper (first_token text)))
  = is_write_kind
      (let text := Spec.trim (Spec.strip_block_comments y) in
       match text with
       | EmptyString => READ
       | String _ _ =>
           if existsb (String.eqb (Spec.uppercase (Spec.first_token text)))
                      Spec.write_set
           then WRITE else READ
       end).
Proof.
  intros <-. cbv zeta.
  rewrite trim_strip, <- block_comments_agree.
  destruct (PyStr.strip (Re.strip_block_comments x)) as [|c t] eqn:E;
    [reflexivity|].
  cbn [PyStr.is_empty].
  rewrite uppercase_upper, spec_first_token.
  unfold in_keywords. change Spec.write_set with write_keywords.
  now destruct (existsb _ write_keywords).
Qed.

(** C7.  The classifier against the algorithm of the specification.
    The three examples evaluate as stated.  The property fails on a line
    comment that no line feed ends: the code removes a line comment only
    with its line feed, so in "COMMIT--x" the comment stays, the first
    token is COMMIT--x and the statement counts as a read, where the
    algorithm, under either reading of "to end of line", strips the
    comment and answers WRITE; with a line feed after the comment the
    code answers WRITE too.  Away from that case the code follows the
    algorithm: under either reading on every statement without two
    dashes in a row, and, when the line feed goes with the comment, on
    every statement that does not end inside a line comment, hence on
    every statement that ends with a line feed.  When the line feed
    stays in the text the code differs once more, where a comment is all
    that separates two words: in "COMMIT--x", line feed, ";" it glues
    the semicolon to COMMIT. *)
Theorem classifier_keeps_unterminated_line_comment :
  (_is_write_operation ("-- comment" ++ nl ++ "  SELECT 1") = Return false
   /\ _is_write_operation "  DROP TABLE x" = Return true
   /\ _is_write_operation "" = Return false)
  /\ (_is_write_operation "COMMIT--x" = Return false
      /\ (forall e, Spec.classify e "COMMIT--x" = WRITE)
      /\ _is_write_operation ("COMMIT--x" ++ nl) = Return true)
  /\ (forall e sql,
        Spec.has_line_comment sql = false ->
        _is_write_operation sql
        = Return (is_write_kind (Spec.classify e sql)))
  /\ (forall sql,
        Spec.ends_in_line_comment sql = false ->
        _is_write_operation sql
        = Return (is_write_kind (Spec.classify Spec.feed_goes sql)))
  /\ (forall sql,
        _is_write_operation (sql ++ nl)
        = Return (is_write_kind (Spec.classify Spec.feed_goes (sql ++ nl))))
  /\ (_is_write_operation ("COMMIT--x" ++ nl ++ ";") = Return false
      /\ Spec.classify Spec.feed_stays ("COMMIT--x" ++ nl ++ ";") = WRITE).
Proof.
  assert (Closed : forall sql,
            Spec.ends_in_line_comment sql = false ->
            _is_write_operation sql
            = Return (is_write_kind (Spec.classify Spec.feed_goes sql))).
  { intros sql H. rewrite _is_write_operation_first_token. f_equal.
    apply (classify_stripped_text (Re.strip_line_comments sql)
             (Spec.strip_line_comments Spec.feed_goes sql)).
    now apply line_comments_agree. }
  split; [|split; [|split; [|split; [|split]]]].
  - split; [|split]; vm_compute; reflexivity.
  - split; [|split]; [| intros [] |]; vm_compute; reflexivity.
  - intros e sql H. rewrite _is_write_operation_first_token. f_equal.
    apply (classify_stripped_text (Re.strip_line_comments sql)
             (Spec.strip_line_comments e sql)).
    now rewrite no_dashes_code, no_dashes_spec.
  - exact Closed.
  - intros sql. apply Closed. apply closed_by_line_feed.
  - split; vm_compute; reflexivity.
Qed.

(** The code and the algorithm at "COMMIT--x", without and with a line
    feed after the comment. *)
Lemma unterminated_line_comment_is_kept :
  _is_write_operation "COMMIT--x" = Return false
  /\ Spec.classify Spec.feed_goes "COMMIT--x" = WRITE
  /\ Spec.classify Spec.feed_stays "COMMIT--x" = WRITE
  /\ Re.strip_line_comments "COMMIT--x" = "COMMIT--x"
  /\ Spec.strip_line_comments Spec.feed_goes "COMMIT--x" = "COMMIT"
  /\ Spec.strip_line_comments Spec.feed_stays "COMMIT--x" = "COMMIT"
  /\ _is_write_operation ("COMMIT--x" ++ nl) = Return true.
Proof. repeat split; vm_compute; reflexivity. Qed.

(** A statement whose line comment is closed by a line feed. *)
Lemma classifier_on_closed_comment_witness :
  Spec.ends_in_line_comment ("/* a */ drop table t -- bye" ++ nl) = false
  /\ _is_write_operation ("/* a */ drop table t -- bye" ++ nl)
     = Return (is_write_kind
                 (Spec.classify Spec.feed_goes
                    ("/* a */ drop table t -- bye" ++ nl)))
  /\ Spec.classify Spec.feed_goes ("/* a */ drop table t -- bye" ++ nl)
     = WRITE.
Proof.
  split; [reflexivity|]. split; [|vm_compute; reflexivity].
  apply (proj1 (proj2 (proj2 (proj2
           classifier_keeps_unterminated_line_comment)))).
  reflexivity.
Defined.


(** ** C8: the cache key *)

(** C8.  Two statements with the same words in the same order, whatever
    the runs of white space between and around the words, have the same
    cache key; so do "SELECT  *\nFROM t" and "SELECT * FROM t". *)
Theorem cache_key_ignores_layout (s1 s2 : string) :
  same_layout s1 s2 ->
  _get_cache_key s1 = _get_cache_key s2
  /\ _get_cache_key ("SELECT  *" ++ nl ++ "FROM t")
     = _get_cache_key "SELECT * FROM t".
Proof.
  intros H. split; [now apply same_layout_key|]. vm_compute. reflexivity.
Qed.

(* ================================================================== *)
(** * The properties at work on the small database *)

(** C1, witness: a DELETE that the server accepts, on a warm manager. *)
Lemma write_clears_caches_witness :
  _is_write_operation "DELETE FROM u" = Return true
  /\ fst (Toy.run "DELETE FROM u" true Toy.warm) = Return Toy.sample
  /\ _query_cache (self (snd (Toy.run "DELETE FROM u" true Toy.warm))) = []
  /\ _schema_cache (self (snd (Toy.run "DELETE FROM u" true Toy.warm))) = [].
Proof.
  split; [vm_compute; reflexivity|].
  destruct (@write_clears_caches_before_execution Toy.World Toy.driver 300 128
              (self Toy.warm) (world Toy.warm) (calls Toy.warm)
              "DELETE FROM u" true)
    as (s' & Hrun & Hon & _);
    [vm_compute; reflexivity ..|].
  change (mkMachine (self Toy.warm) (world Toy.warm) (calls Toy.warm))
    with Toy.warm in Hrun.
  unfold Toy.run. rewrite Hrun. simpl.
  destruct Hon as [Q S]; [vm_compute; reflexivity|].
  repeat split; assumption.
Defined.

(** C1, counterexample: the server rejects the DELETE, the call raises,
    and the two caches, which held an entry each, are empty all the same. *)
Lemma failed_write_still_clears_caches :
  _is_write_operation "DELETE FROM t" = Return true
  /\ _allow_write_ops (self Toy.warm) = true
  /\ PyDict.keys (_query_cache (self Toy.warm))
     = [_get_cache_key "SELECT 1"]
  /\ PyDict.keys (_schema_cache (self Toy.warm)) = ["public.users"]
  /\ fst (Toy.run "DELETE FROM t" true Toy.warm)
     = Raise (RuntimeError_sql "rejected")
  /\ _query_cache (self (snd (Toy.run "DELETE FROM t" true Toy.warm))) = []
  /\ _schema_cache (self (snd (Toy.run "DELETE FROM t" true Toy.warm))) = [].
Proof. repeat split; vm_compute; reflexivity. Qed.

(** C2, witness: overwriting "B" in a store of two with room for three. *)
Lemma set_cached_result_witness :
  _cache_enabled Toy.two_entries = true
  /\ exists s',
       _set_cached_result 3 Toy.two_entries 5 "B" Toy.sample = Return s'
       /\ PyDict.lookup "B" (_query_cache s') = Some (Toy.sample, 5)
       /\ PyDict.lookup "A" (_query_cache s') = Some (Toy.sample, 1).
Proof.
  split; [reflexivity|].
  destruct (set_cached_result_eviction 3 Toy.two_entries 5 "B" Toy.sample)
    as (s' & Hput & HB & Hroom & _);
    [reflexivity | left; lia |].
  exists s'. split; [exact Hput|]. split; [exact HB|].
  destruct Hroom as [_ Hother]; [vm_compute; reflexivity|].
  rewrite Hother; [reflexivity | discriminate].
Defined.

(** C2, counterexample: with room for two, overwriting "B", which is
    present, evicts "A". *)
Lemma overwrite_at_capacity_evicts_oldest :
  PyDict.lookup "A" (_query_cache Toy.two_entries) = Some (Toy.sample, 1)
  /\ PyDict.lookup "B" (_query_cache Toy.two_entries) = Some (Toy.sample, 2)
  /\ _set_cached_result 2 Toy.two_entries 3 "B" Toy.sample
     = Return (set_query_cache Toy.two_entries [("B", (Toy.sample, 3))]).
Proof. repeat split; vm_compute; reflexivity. Qed.

(** C3, witness: DROP TABLE with writes not allowed. *)
Lemma write_refused_witness :
  _is_write_operation "DROP TABLE users" = Return true
  /\ Toy.run "DROP TABLE users" true (Toy.start false true Toy.w0)
     = (Raise ValueError_write_disabled, Toy.start false true Toy.w0).
Proof.
  split; [vm_compute; reflexivity|].
  apply (@write_refused_without_execution Toy.World Toy.driver 300 128);
    vm_compute; reflexivity.
Defined.

(** C4, witness: the same SELECT twice, 89 ticks apart. *)
Lemma repeated_read_witness :
  Toy.run "SELECT 1" true (Toy.start false true Toy.w0)
  = (Return Toy.sample,
     snd (Toy.run "SELECT 1" true (Toy.start false true Toy.w0)))
  /\ calls (snd (Toy.run "SELECT 1" true (Toy.start false true Toy.w0)))
     = [Executed "SELECT 1"]
  /\ Toy.run "SELECT 1" true
       (Toy.later (snd (Toy.run "SELECT 1" true (Toy.start false true Toy.w0)))
                  (Toy.mkWorld 100 [] []))
     = (Return Toy.sample,
        Toy.later (snd (Toy.run "SELECT 1" true (Toy.start false true Toy.w0)))
                  (Toy.mkWorld 100 [] [])).
Proof.
  split; [vm_compute; reflexivity|]. split; [vm_compute; reflexivity|].
  pose (m1 := snd (Toy.run "SELECT 1" true (Toy.start false true Toy.w0))).
  assert (Fresh : forall v ts,
            PyDict.lookup (_get_cache_key "SELECT 1") (_query_cache (self m1))
            = Some (v, ts) ->
            clock (Toy.mkWorld 100 [] []) - ts <= 300).
  { intros v ts H. vm_compute in H. injection H as _ <-. vm_compute.
    discriminate. }
  apply (fun Hread Hfirst =>
           proj2 (@repeated_read_served_from_cache Toy.World Toy.driver 300 128
                    (Toy.manager false true) Toy.w0 [] "SELECT 1" Toy.sample
                    (self m1) (world m1) (calls m1) (Toy.mkWorld 100 [] [])
                    eq_refl eq_refl Hread Hfirst Fresh));
    vm_compute; reflexivity.
Defined.

(** C4, counterexample: a SELECT that the server rejects reaches the
    driver on the first call and again on the second. *)
Lemma failed_read_is_executed_twice :
  _is_write_operation "SELECT * FROM missing" = Return false
  /\ _cache_enabled (Toy.manager false true) = true
  /\ fst (Toy.run "SELECT * FROM missing" true (Toy.start false true Toy.w0))
     = Raise (RuntimeError_sql "rejected")
  /\ calls (snd (Toy.run "SELECT * FROM missing" true
                (snd (Toy.run "SELECT * FROM missing" true
                        (Toy.start false true Toy.w0)))))
     = [Executed "SELECT * FROM missing"; Executed "SELECT * FROM missing"].
Proof. repeat split; vm_compute; reflexivity. Qed.

(** C5, witness: keys "a", "b", "c" stored at ticks 1, 2, 3, with "a"
    read after "b" was stored. *)
Lemma fifo_eviction_witness :
  exists s3,
    _query_cache s3 = [("b", (Toy.sample, 2)); ("c", (Toy.sample, 3))]
    /\ PyDict.lookup "a" (_query_cache s3) = None.
Proof.
  destruct (fifo_eviction_by_insertion 300 (Toy.manager false true)
              "a" "b" "c" Toy.sample Toy.sample Toy.sample 1 2 3
              [("a", 2)] [("a", 3); ("b", 3); ("a", 3)])
    as (s1 & s2 & s3 & _ & _ & _ & _ & _ & Q & L);
    try reflexivity; try discriminate.
  - intros g [<-|[]]. simpl. lia.
  - intros g [<-|[<-|[<-|[]]]]; simpl; lia.
  - exists s3. split; assumption.
Defined.

(** C6, witness: an entry stored at tick 0 and looked up at tick 1000. *)
Lemma lazy_expiry_witness :
  PyDict.lookup "k" (_query_cache Toy.one_old_entry) = Some (Toy.sample, 0)
  /\ exists s',
       _get_cached_result 300 Toy.one_old_entry 1000 "k" = (None, s')
       /\ _query_cache s' = []
       /\ exists s'',
            _set_cached_result 128 s' 1001 "k" Toy.sample = Return s''
            /\ _query_cache s'' = [("k", (Toy.sample, 1001))].
Proof.
  split; [reflexivity|].
  assert (I : cache_inv 128 Toy.one_old_entry).
  { split; [discriminate|]. split; [vm_compute; discriminate|].
    repeat constructor. simpl. tauto. }
  destruct (lazy_expiry_frees_slot 300 128 Toy.one_old_entry 1000 "k"
              Toy.sample 0 I eq_refl eq_refl)
    as (s' & Hget & _ & _ & Hput).
  exists s'. split; [exact Hget|].
  assert (Q : _query_cache s' = []).
  { vm_compute in Hget. now injection Hget as <-. }
  split; [exact Q|].
  destruct (Hput 1001 Toy.sample) as (s'' & Hset & Happ).
  exists s''. split; [exact Hset|]. now rewrite Happ, Q.
Defined.

(** C8, witness: the two statements of the specification. *)
Lemma cache_key_witness :
  same_layout ("SELECT  *" ++ nl ++ "FROM t") "SELECT * FROM t"
  /\ _get_cache_key ("SELECT  *" ++ nl ++ "FROM t")
     = _get_cache_key "SELECT * FROM t".
Proof.
  assert (L : same_layout ("SELECT  *" ++ nl ++ "FROM t") "SELECT * FROM t").
  { exists ["SELECT"; "*"; "FROM"; "t"]. split.
    - apply (layout_word "" "SELECT" " " (" *" ++ nl ++ "FROM t"));
        try reflexivity.
      apply (layout_word " " "*" PyStr.newline "FROM t"); try reflexivity.
      apply (layout_word "" "FROM" " " "t"); try reflexivity.
      apply (layout_last "" "t"); reflexivity.
    - apply (layout_word "" "SELECT" " " "* FROM t"); try reflexivity.
      apply (layout_word "" "*" " " "FROM t"); try reflexivity.
      apply (layout_word "" "FROM" " " "t"); try reflexivity.
      apply (layout_last "" "t"); reflexivity. }
  split; [exact L|].
  exact (proj1 (cache_key_ignores_layout _ _ L)).
Defined.

(** C9, witness: a table that never existed, on a fresh manager. *)
Lemma missing_table_witness :
  fst (cursor_columns "public" "orders" Toy.w0) = inr []
  /\ Toy.describe "public" "orders" true (Toy.start false true Toy.w0)
     = (Raise (ValueError_no_table "public" "orders"),
        mkMachine (Toy.manager false true) (Toy.tick Toy.w0)
                  [AskedColumns "public" "orders"])
  /\ calls (snd (Toy.describe "public" "orders" true
                   (mkMachine (Toy.manager false true) (Toy.tick Toy.w0)
                              [AskedColumns "public" "orders"])))
     = [AskedColumns "public" "orders"; AskedColumns "public" "orders"].
Proof.
  split; [reflexivity|].
  destruct (@missing_table_is_not_cached Toy.World Toy.driver 300
              (Toy.manager false true) Toy.w0 [] "public" "orders" true)
    as (s' & Hfirst & _ & _ & _ & Hsecond);
    [reflexivity | reflexivity | discriminate |].
  assert (E : s' = Toy.manager false true).
  { vm_compute in Hfirst. now injection Hfirst as <-. }
  subst s'. split; [exact Hfirst|].
  unfold Toy.describe.
  rewrite (Hsecond (Toy.tick Toy.w0) [AskedColumns "public" "orders"] true);
    reflexivity.
Defined.

(** C9, counterexample: public.users was described while it existed;
    after another client dropped it the driver reports no column for it,
    yet the lookup returns the cached descriptor and calls nothing. *)
Lemma dropped_table_served_from_cache :
  fst (cursor_columns "public" "users" Toy.w_dropped) = inr []
  /\ Toy.describe "public" "users" true
       (Toy.start false true Toy.w0)
     = (Return Toy.users_schema,
        snd (Toy.describe "public" "users" true (Toy.start false true Toy.w0)))
  /\ Toy.describe "public" "users" true
       (Toy.later
          (snd (Toy.describe "public" "users" true
                  (Toy.start false true Toy.w0)))
          Toy.w_dropped)
     = (Return Toy.users_schema,
        Toy.later
          (snd (Toy.describe "public" "users" true
                  (Toy.start false true Toy.w0)))
          Toy.w_dropped).
Proof. repeat split; vm_compute; reflexivity. Qed.

(** C10, witness: DROP TABLE refused on a warm manager that forbids
    writes; its two cache entries are still there. *)
Lemma write_refusal_witness :
  _is_write_operation "DROP TABLE users" = Return true
  /\ PyDict.keys
       (_query_cache
          (self (snd (Toy.run "DROP TABLE users" true Toy.warm_readonly))))
     = [_get_cache_key "SELECT 1"]
  /\ PyDict.keys
       (_schema_cache
          (self (snd (Toy.run "DROP TABLE users" true Toy.warm_readonly))))
     = ["public.users"].
Proof.
  split; [vm_compute; reflexivity|].
  destruct (@write_refusal_keeps_caches Toy.World Toy.driver 300 128
              (self Toy.warm_readonly) (world Toy.warm_readonly)
              (calls Toy.warm_readonly) "DROP TABLE users" true)
    as (e & _ & Q & S & _); [vm_compute; reflexivity ..|].
  change (mkMachine (self Toy.warm_readonly) (world Toy.warm_readonly)
                    (calls Toy.warm_readonly))
    with Toy.warm_readonly in Q, S.
  unfold Toy.run. rewrite Q, S. split; vm_compute; reflexivity.
Defined.

(* ================================================================== *)
(** * Further properties of the manager *)

Section MoreFacts.
Context {W : Type} {driver : Driver W}.
Variables CACHE_TTL MAX_CACHE_SIZE : Z.

Local Abbreviation run := (execute_query CACHE_TTL MAX_CACHE_SIZE).
Local Abbreviation describe := (get_table_schema CACHE_TTL).

Lemma execute_query_flags s w c sql uc :
  let s' := self (snd (run sql uc (mkMachine s w c))) in
  _cache_enabled s' = _cache_enabled s
  /\ _allow_write_ops s' = _allow_write_ops s
  /\ connection s' = connection s.
Proof.
  destruct (connection s) eqn:Hc;
    [|rewrite execute_query_no_connection by assumption; simpl; auto].
  destruct (_is_write_operation_total sql) as [[|] Hw].
  - destruct (_allow_write_ops s) eqn:Ha;
      [|rewrite execute_query_denied by assumption; simpl; auto].
    rewrite execute_query_write by assumption. cbv zeta.
    destruct (fst (cursor_execute sql w)); simpl;
      destruct (_cache_enabled s) eqn:E; simpl; auto.
  - destruct uc.
    + rewrite execute_query_read by assumption. cbv zeta.
      pose proof (get_fields CACHE_TTL s (clock w) (_get_cache_key sql))
        as (Fc & Fa & Fe & _).
      destruct (_get_cached_result _ _ _ _) as [[r|] s1]; simpl in *;
        [rewrite Fc, Fa, Fe; auto|].
      destruct (fst (cursor_execute sql w)) as [e|f]; simpl;
        [rewrite Fc, Fa, Fe; auto|].
      destruct (_set_cached_result _ _ _ _ _) as [s2|e] eqn:P; simpl;
        [|rewrite Fc, Fa, Fe; auto].
      pose proof (put_fields _ _ _ _ _ _ P) as (Pc & Pa & Pe & _).
      rewrite Pc, Pa, Pe, Fc, Fa, Fe. auto.
    + rewrite execute_query_uncached by assumption. cbv zeta.
      destruct (fst (cursor_execute sql w)); simpl; auto.
Qed.

Lemma get_table_schema_flags s w c schema table uc :
  let s' := self (snd (describe schema table uc (mkMachine s w c))) in
  _allow_write_ops s' = _allow_write_ops s /\ connection s' = connection s.
Proof.
  destruct (connection s) eqn:Hc;
    [|rewrite get_table_schema_no_connection by assumption; simpl; auto].
  rewrite get_table_schema_paths by assumption. cbv zeta.
  assert (K : let s1 := snd (schema_cache_check CACHE_TTL s (clock w)
                               (schema ++ "." ++ table) uc) in
              _allow_write_ops s1 = _allow_write_ops s
              /\ connection s1 = connection s).
  { unfold schema_cache_check. destruct (uc && _cache_enabled s); simpl; auto.
    destruct (PyDict.lookup _ _) as [[obj ts]|]; simpl; auto.
    destruct (clock w - ts <=? CACHE_TTL); simpl; auto. }
  destruct (schema_cache_check _ _ _ _ _) as [[obj|] s1]; simpl in *;
    [rewrite Hc in K; exact K|].
  rewrite Hc in K.
  destruct (fst (cursor_columns schema table w)) as [e|[|row more]];
    simpl; try exact K.
  destruct (fst (cursor_primary_key schema table _)) as [e|pk];
    simpl; try exact K.
  destruct (uc && _cache_enabled s1); simpl; exact K.
Qed.

Lemma connect_fields s (w : W) c :
  let s' := self (snd (connect (mkMachine s w c))) in
  _query_cache s' = _query_cache s /\ _schema_cache s' = _schema_cache s
  /\ _cache_enabled s' = _cache_enabled s
  /\ _allow_write_ops s' = _allow_write_ops s.
Proof.
  unfold connect, bind, get_self, put_self, raise. simpl.
  destruct (connect_db (database_url s) w) as [[e|] w']; simpl; auto.
Qed.

Lemma close_fields s (w : W) c :
  snd (close (mkMachine s w c)) = mkMachine (set_connection s false) w c
  \/ (connection s = false /\ snd (close (mkMachine s w c)) = mkMachine s w c).
Proof.
  unfold close, bind, get_self, put_self, when, ret. simpl.
  destruct (connection s); simpl; auto.
Qed.

(** One call keeps the invariant and the two flags. *)
Lemma serve_keeps r s w c :
  cache_inv MAX_CACHE_SIZE s ->
  let s' := self (serve CACHE_TTL MAX_CACHE_SIZE r (mkMachine s w c)) in
  cache_inv MAX_CACHE_SIZE s'
  /\ _cache_enabled s' = _cache_enabled s
  /\ _allow_write_ops s' = _allow_write_ops s.
Proof.
  intros I. destruct r as [sql uc | schema table uc | | |]; cbn [serve].
  - split; [now apply cache_inv_execute_query|].
    pose proof (execute_query_flags s w c sql uc) as (E & A & _). auto.
  - split; [now apply cache_inv_get_table_schema|].
    pose proof (get_table_schema_fields CACHE_TTL s w c schema table uc)
      as (_ & E & _).
    pose proof (get_table_schema_flags s w c schema table uc) as (A & _). auto.
  - simpl. split; [apply cache_inv_clear | auto].
  - pose proof (connect_fields s w c) as (Q & S & E & A).
    cbv zeta in *. unfold cache_inv in *. rewrite Q, S, E, A. auto.
  - destruct (close_fields s w c) as [-> | [_ ->]]; simpl; auto.
Qed.

(** X1.  Whatever calls are made on a manager built by [__init__], in
    whatever order and whatever the database answers, the two flags stay
    as they were set, a disabled cache stays empty, the result cache never
    holds more than [MAX_CACHE_SIZE] entries (none when the bound is below
    one) and never holds a key twice. *)
Theorem result_cache_stays_bounded
  (url : string) (allow_write_ops cache_enabled : bool) (w0 : W)
  (h : list (W * Request)) :
  let s := self (serve_all CACHE_TTL MAX_CACHE_SIZE h
                   (mkMachine (__init__ url allow_write_ops cache_enabled)
                              w0 [])) in
  _allow_write_ops s = allow_write_ops
  /\ _cache_enabled s = cache_enabled
  /\ (cache_enabled = false -> _query_cache s = [] /\ _schema_cache s = [])
  /\ PyDict.len (_query_cache s) <= Z.max 0 MAX_CACHE_SIZE
  /\ NoDup (PyDict.keys (_query_cache s)).
Proof.
  cbv zeta.
  assert (G : forall (h : list (W * Request)) (m : Machine W),
             cache_inv MAX_CACHE_SIZE (self m) ->
             let s := self (serve_all CACHE_TTL MAX_CACHE_SIZE h m) in
             cache_inv MAX_CACHE_SIZE s
             /\ _cache_enabled s = _cache_enabled (self m)
             /\ _allow_write_ops s = _allow_write_ops (self m)).
  { clear h. induction h as [|[w r] h IH]; intros m I; [cbn; auto|].
    cbn [serve_all].
    destruct (serve_keeps r (self m) w (calls m) I) as (I1 & E1 & A1).
    destruct (IH _ I1) as (I2 & E2 & A2). cbv zeta in *.
    rewrite E2, A2, E1, A1. auto. }
  destruct (G h (mkMachine (__init__ url allow_write_ops cache_enabled) w0 [])
              (cache_inv_init _ _ _ _)) as ((Hoff & Hlen & Hwf) & E & A).
  cbv zeta in *. simpl in E, A. rewrite E in Hoff. auto.
Qed.

(** X2.  A result stored at time [now] is served, unchanged and without
    any change to the store, at every later reading of the clock up to and
    including [now + CACHE_TTL]; one tick later the lookup reports
    absence, drops the entry and leaves the other entries alone. *)
Theorem stored_result_served_until_ttl
  (s : DatabaseManager) (now : Z) (key : string) (v : QueryResult)
  (s' : DatabaseManager) (now' : Z) :
  _cache_enabled s = true ->
  _set_cached_result MAX_CACHE_SIZE s now key v = Return s' ->
  (now' - now <= CACHE_TTL ->
   _get_cached_result CACHE_TTL s' now' key = (Some v, s'))
  /\ (now' - now > CACHE_TTL ->
      exists s'',
        _get_cached_result CACHE_TTL s' now' key = (None, s'')
        /\ PyDict.lookup key (_query_cache s'') = None
        /\ forall k, k <> key ->
             PyDict.lookup k (_query_cache s'')
             = PyDict.lookup k (_query_cache s')).
Proof.
  intros E P.
  pose proof (put_stores _ _ _ _ _ _ E P) as L.
  pose proof (put_fields _ _ _ _ _ _ P) as (_ & _ & E' & _).
  rewrite E in E'. split; intros H.
  - now apply (get_live CACHE_TTL s' now' key v now).
  - eexists. split; [now apply (get_expired CACHE_TTL s' now' key v now)|].
    simpl. split; [apply lookup_delitem_same|].
    intros k Hk. now apply lookup_delitem_other.
Qed.

(** X3.  With [MAX_CACHE_SIZE] below one and the cache enabled, caching
    has no room at all: on a reachable, connected manager every read run
    with [use_cache] that the database answers is executed and then ends
    in the [ValueError] of [min] on an empty store; nothing is stored. *)
Theorem capacity_below_one_breaks_cached_reads
  (s : DatabaseManager) (w : W) (c : list Invocation) (sql : string)
  (f : Fetched) :
  cache_inv MAX_CACHE_SIZE s ->
  MAX_CACHE_SIZE <= 0 ->
  connection s = true ->
  _cache_enabled s = true ->
  _is_write_operation sql = Return false ->
  fst (cursor_execute sql w) = inr f ->
  run sql true (mkMachine s w c)
  = (Raise ValueError_min_empty,
     mkMachine s (snd (cursor_execute sql w)) (c ++ [Executed sql])).
Proof.
  intros (_ & Hlen & _) Hmax Hc He Hr Hf.
  assert (Q : _query_cache s = []).
  { destruct (_query_cache s) as [|e d]; [reflexivity|].
    unfold PyDict.len in Hlen. simpl in Hlen. lia. }
  rewrite execute_query_read by assumption. cbv zeta.
  rewrite get_absent by now rewrite Q.
  rewrite Hf. unfold _set_cached_result. rewrite He, Q. simpl.
  destruct (PyDict.len [] >=? MAX_CACHE_SIZE) eqn:G; [reflexivity|].
  rewrite Z.geb_leb in G. apply Z.leb_gt in G. unfold PyDict.len in G.
  simpl in G. lia.
Qed.

(** X4.  A read that the database rejects stores nothing: when no live
    entry answers for the statement, the call raises the execution error
    after one driver call, the statement's key has no entry afterwards,
    every other entry of the result cache is as before, and the schema
    cache is untouched. *)
Theorem failed_read_stores_nothing
  (s : DatabaseManager) (w : W) (c : list Invocation) (sql : string)
  (e : string) :
  connection s = true ->
  _cache_enabled s = true ->
  _is_write_operation sql = Return false ->
  fst (cursor_execute sql w) = inl e ->
  (forall v ts,
     PyDict.lookup (_get_cache_key sql) (_query_cache s) = Some (v, ts) ->
     clock w - ts > CACHE_TTL) ->
  exists s',
    run sql true (mkMachine s w c)
    = (Raise (RuntimeError_sql e),
       mkMachine s' (snd (cursor_execute sql w)) (c ++ [Executed sql]))
    /\ PyDict.lookup (_get_cache_key sql) (_query_cache s') = None
    /\ (forall k, k <> _get_cache_key sql ->
          PyDict.lookup k (_query_cache s') = PyDict.lookup k (_query_cache s))
    /\ _schema_cache s' = _schema_cache s.
Proof.
  intros Hc He Hr Hf Hstale.
  rewrite execute_query_read by assumption. cbv zeta.
  destruct (PyDict.lookup (_get_cache_key sql) (_query_cache s))
    as [[v ts]|] eqn:L.
  - rewrite (get_expired CACHE_TTL s (clock w) _ v ts He L (Hstale _ _ eq_refl)).
    rewrite Hf. eexists. split; [reflexivity|]. simpl.
    split; [apply lookup_delitem_same|].
    split; [|reflexivity]. intros k Hk. now apply lookup_delitem_other.
  - rewrite get_absent by assumption. rewrite Hf.
    exists s. auto.
Qed.

(** X5.  A read that bypasses the cache ([use_cache] false), or any read
    on a manager whose cache is disabled, calls the driver exactly once,
    ends as the driver did, and leaves the manager exactly as it was: a
    live entry for the statement is neither served nor refreshed. *)
Theorem uncached_read_always_executes
  (s : DatabaseManager) (w : W) (c : list Invocation) (sql : string)
  (use_cache : bool) :
  connection s = true ->
  _is_write_operation sql = Return false ->
  use_cache = false \/ _cache_enabled s = false ->
  run sql use_cache (mkMachine s w c)
  = (match fst (cursor_execute sql w) with
     | inl e => Raise (RuntimeError_sql e)
     | inr f => Return (fetched_result f)
     end,
     mkMachine s (snd (cursor_execute sql w)) (c ++ [Executed sql])).
Proof.
  intros Hc Hr [-> | He].
  - rewrite execute_query_uncached by assumption. cbv zeta.
    now destruct (fst (cursor_execute sql w)).
  - destruct use_cache.
    + rewrite execute_query_read by assumption. cbv zeta.
      rewrite get_disabled by assumption.
      destruct (fst (cursor_execute sql w)); [reflexivity|].
      now rewrite put_disabled.
    + rewrite execute_query_uncached by assumption. cbv zeta.
      now destruct (fst (cursor_execute sql w)).
Qed.

(** X6.  The two stores are independent short of a write: a statement
    classified as a read never changes the schema cache, whatever
    [use_cache] and the outcome, and a schema lookup never changes the
    result cache. *)
Theorem reads_and_lookups_keep_the_other_store
  (s : DatabaseManager) (w : W) (c : list Invocation) (sql : string)
  (use_cache : bool) (schema table : string) (use_cache' : bool) :
  _is_write_operation sql = Return false ->
  _schema_cache (self (snd (run sql use_cache (mkMachine s w c))))
  = _schema_cache s
  /\ _query_cache
       (self (snd (describe schema table use_cache' (mkMachine s w c))))
     = _query_cache s.
Proof.
  intros Hr. split;
    [|now destruct (get_table_schema_fields CACHE_TTL s w c schema table
                      use_cache')].
  destruct (connection s) eqn:Hc;
    [|now rewrite execute_query_no_connection].
  destruct use_cache.
  - rewrite execute_query_read by assumption. cbv zeta.
    pose proof (get_fields CACHE_TTL s (clock w) (_get_cache_key sql))
      as (_ & _ & _ & S & _).
    destruct (_get_cached_result _ _ _ _) as [[r|] s1]; simpl in *;
      [exact S|].
    destruct (fst (cursor_execute sql w)) as [e|f]; simpl; [exact S|].
    destruct (_set_cached_result _ _ _ _ _) as [s2|e] eqn:P; simpl;
      [|exact S].
    pose proof (put_fields _ _ _ _ _ _ P) as (_ & _ & _ & S2). congruence.
  - rewrite execute_query_uncached by assumption. cbv zeta.
    now destruct (fst (cursor_execute sql w)).
Qed.

(** X7.  [close] drops the connection and nothing else: both caches are
    kept.  Until [connect] is called again every query and every schema
    lookup raises "connection not established" without calling the driver
    and without serving a cached entry; a later successful [connect]
    finds the caches as they were. *)
Theorem closed_manager_serves_nothing
  (s : DatabaseManager) (w : W) (c : list Invocation) :
  let m' := snd (close (mkMachine s w c)) in
  connection (self m') = false
  /\ _query_cache (self m') = _query_cache s
  /\ _schema_cache (self m') = _schema_cache s
  /\ world m' = w /\ calls m' = c
  /\ (forall sql use_cache w2,
        run sql use_cache (mkMachine (self m') w2 c)
        = (Raise RuntimeError_no_connection, mkMachine (self m') w2 c))
  /\ (forall schema table use_cache w2,
        describe schema table use_cache (mkMachine (self m') w2 c)
        = (Raise RuntimeError_no_connection, mkMachine (self m') w2 c))
  /\ (forall w2,
        fst (connect_db (database_url s) w2) = None ->
        let s2 := self (snd (connect (mkMachine (self m') w2 c))) in
        connection s2 = true
        /\ _query_cache s2 = _query_cache s
        /\ _schema_cache s2 = _schema_cache s).
Proof.
  cbv zeta.
  assert (K : exists s1, snd (close (mkMachine s w c)) = mkMachine s1 w c
                         /\ connection s1 = false
                         /\ _query_cache s1 = _query_cache s
                         /\ _schema_cache s1 = _schema_cache s
                         /\ database_url s1 = database_url s).
  { destruct (close_fields s w c) as [-> | [Hc ->]]; eexists;
      (split; [reflexivity|]); simpl; auto. }
  destruct K as (s1 & -> & Hc & Q & S & U). simpl.
  repeat split; auto.
  - intros. now apply execute_query_no_connection.
  - intros. now apply get_table_schema_no_connection.
  - rewrite <- U in H. now rewrite (connect_establishes s1 w2 c H).
  - rewrite <- U in H. now rewrite (connect_establishes s1 w2 c H).
  - rewrite <- U in H. now rewrite (connect_establishes s1 w2 c H).
Qed.

Lemma schema_cache_check_live s now key obj ts :
  _cache_enabled s = true ->
  PyDict.lookup key (_schema_cache s) = Some (obj, ts) ->
  now - ts <= CACHE_TTL ->
  schema_cache_check CACHE_TTL s now key true = (Some obj, s).
Proof.
  unfold schema_cache_check. intros -> -> H. simpl.
  destruct (now - ts <=? CACHE_TTL) eqn:G; [reflexivity|].
  apply Z.leb_gt in G. lia.
Qed.

Lemma schema_cache_check_hit s now key uc obj s1 :
  schema_cache_check CACHE_TTL s now key uc = (Some obj, s1) ->
  s1 = s /\ _cache_enabled s = true
  /\ exists ts, PyDict.lookup key (_schema_cache s) = Some (obj, ts).
Proof.
  unfold schema_cache_check.
  destruct uc; simpl; [|discriminate].
  destruct (_cache_enabled s); [|discriminate].
  destruct (PyDict.lookup key (_schema_cache s)) as [[o ts]|]; [|discriminate].
  destruct (now - ts <=? CACHE_TTL); [|discriminate].
  intros H. injection H as <- <-. repeat split. now exists ts.
Qed.

(** X8.  On a connected manager with the cache enabled, a schema lookup
    with [use_cache] that returns a descriptor is followed, as long as the
    entry is not older than [CACHE_TTL], by lookups that return the same
    descriptor without calling the driver and without changing the
    manager, whatever the database holds by then. *)
Theorem repeated_lookup_served_from_schema_cache
  (s : DatabaseManager) (w : W) (c : list Invocation)
  (schema table : string) (obj : TableSchema)
  (s1 : DatabaseManager) (w1 : W) (c1 : list Invocation) (w2 : W) :
  connection s = true ->
  _cache_enabled s = true ->
  describe schema table true (mkMachine s w c)
  = (Return obj, mkMachine s1 w1 c1) ->
  (forall o ts,
     PyDict.lookup (schema ++ "." ++ table) (_schema_cache s1) = Some (o, ts) ->
     clock w2 - ts <= CACHE_TTL) ->
  describe schema table true (mkMachine s1 w2 c1)
  = (Return obj, mkMachine s1 w2 c1).
Proof.
  intros Hc He Hrun Hfresh.
  rewrite get_table_schema_paths in Hrun by assumption. cbv zeta in Hrun.
  assert (Hit : exists ts,
            connection s1 = true /\ _cache_enabled s1 = true
            /\ PyDict.lookup (schema ++ "." ++ table) (_schema_cache s1)
               = Some (obj, ts)).
  { pose proof (schema_cache_check_fields CACHE_TTL s (clock w)
                  (schema ++ "." ++ table) true) as (Fc & _ & Fe & _).
    destruct (schema_cache_check CACHE_TTL s (clock w) _ true)
      as [[o|] s0] eqn:K; simpl in Fc, Fe.
    - injection Hrun as -> -> _ _.
      apply schema_cache_check_hit in K as (-> & _ & ts & L).
      exists ts. auto.
    - destruct (fst (cursor_columns schema table w)) as [e|[|row more]];
        try discriminate.
      destruct (fst (cursor_primary_key schema table _)) as [e|pk];
        [discriminate|].
      rewrite Fe, He in Hrun. simpl in Hrun.
      injection Hrun as <- <- _ _.
      eexists. simpl. rewrite Fc, Fe, Hc, He.
      split; [reflexivity|]. split; [reflexivity|].
      apply lookup_setitem_same. }
  destruct Hit as (ts & Hc1 & He1 & L).
  rewrite get_table_schema_paths by assumption. cbv zeta.
  now rewrite (schema_cache_check_live s1 (clock w2) _ obj ts He1 L
                 (Hfresh _ _ L)).
Qed.

(** X9.  Once its entry is older than [CACHE_TTL], a table is described
    afresh: the lookup asks the driver for the columns and the primary
    key, returns the descriptor built from today's answers, and stores it
    under the key with the reading of the clock after the two calls. *)
Theorem expired_schema_is_fetched_again
  (s : DatabaseManager) (w : W) (c : list Invocation)
  (schema table : string) (old : TableSchema) (ts : Z)
  (row : ColumnRow) (more : list ColumnRow) (pk : list string) :
  connection s = true ->
  _cache_enabled s = true ->
  PyDict.lookup (schema ++ "." ++ table) (_schema_cache s) = Some (old, ts) ->
  clock w - ts > CACHE_TTL ->
  fst (cursor_columns schema table w) = inr (row :: more) ->
  fst (cursor_primary_key schema table (snd (cursor_columns schema table w)))
  = inr pk ->
  let fresh :=
    mkTableSchema schema table (map column_info (row :: more)) pk in
  let w2 :=
    snd (cursor_primary_key schema table
           (snd (cursor_columns schema table w))) in
  exists s',
    describe schema table true (mkMachine s w c)
    = (Return fresh,
       mkMachine s' w2
         ((c ++ [AskedColumns schema table])
            ++ [AskedPrimaryKey schema table]))
    /\ PyDict.lookup (schema ++ "." ++ table) (_schema_cache s')
       = Some (fresh, clock w2)
    /\ forall k, k <> schema ++ "." ++ table ->
         PyDict.lookup k (_schema_cache s') = PyDict.lookup k (_schema_cache s).
Proof.
  intros Hc He L Hold Hcols Hpk. cbv zeta.
  rewrite get_table_schema_paths by assumption. cbv zeta.
  unfold schema_cache_check. rewrite He, L. simpl.
  destruct (clock w - ts <=? CACHE_TTL) eqn:G;
    [apply Z.leb_le in G; lia|].
  rewrite Hcols, Hpk. simpl. rewrite He. simpl.
  eexists. split; [reflexivity|]. simpl.
  split; [apply lookup_setitem_same|].
  intros k Hk. rewrite lookup_setitem_other by exact Hk.
  now apply lookup_delitem_other.
Qed.

End MoreFacts.

(* ================================================================== *)
(** * Further properties of the classifier and of the cache key *)

Ltac ascii_cases c := destruct c as [[] [] [] [] [] [] [] []].

Lemma upper_char_space c : PyStr.isspace (PyStr.upper_char c) = PyStr.isspace c.
Proof. ascii_cases c; reflexivity. Qed.

Lemma upper_char_idem c : PyStr.upper_char (PyStr.upper_char c) = PyStr.upper_char c.
Proof. ascii_cases c; reflexivity. Qed.

Lemma upper_char_dash c : Ascii.eqb (PyStr.upper_char c) "-" = Ascii.eqb c "-".
Proof. ascii_cases c; reflexivity. Qed.

Lemma upper_char_slash c : Ascii.eqb (PyStr.upper_char c) "/" = Ascii.eqb c "/".
Proof. ascii_cases c; reflexivity. Qed.

Lemma upper_char_star c : Ascii.eqb (PyStr.upper_char c) "*" = Ascii.eqb c "*".
Proof. ascii_cases c; reflexivity. Qed.

Lemma upper_char_newline c :
  Ascii.eqb (PyStr.upper_char c) PyStr.newline = Ascii.eqb c PyStr.newline.
Proof. ascii_cases c; reflexivity. Qed.

Lemma upper_idem s : PyStr.upper (PyStr.upper s) = PyStr.upper s.
Proof.
  induction s as [|c s IH]; [reflexivity|].
  simpl. now rewrite upper_char_idem, IH.
Qed.

Lemma find_newline_upper s : Re.find_newline (PyStr.upper s) = Re.find_newline s.
Proof.
  induction s as [|c s IH]; [reflexivity|].
  cbn [PyStr.upper Re.find_newline]. now rewrite upper_char_newline, IH.
Qed.

Lemma starts_close_upper s : Re.starts_close (PyStr.upper s) = Re.starts_close s.
Proof.
  destruct s as [|a [|b r]]; try reflexivity.
  cbn [PyStr.upper Re.starts_close]. now rewrite upper_char_star, upper_char_slash.
Qed.

Lemma find_close_upper s : Re.find_close (PyStr.upper s) = Re.find_close s.
Proof.
  induction s as [|c s IH]; [reflexivity|].
  change (Re.find_close (PyStr.upper (String c s)))
    with (if Re.starts_close (PyStr.upper (String c s)) then Some 2%nat
          else option_map S (Re.find_close (PyStr.upper s))).
  rewrite starts_close_upper, IH. reflexivity.
Qed.

Lemma match_line_comment_upper s :
  Re.match_line_comment (PyStr.upper s) = Re.match_line_comment s.
Proof.
  destruct s as [|a [|b r]]; try reflexivity.
  cbn [PyStr.upper Re.match_line_comment].
  now rewrite !upper_char_dash, find_newline_upper.
Qed.

Lemma match_block_comment_upper s :
  Re.match_block_comment (PyStr.upper s) = Re.match_block_comment s.
Proof.
  destruct s as [|a [|b r]]; try reflexivity.
  cbn [PyStr.upper Re.match_block_comment].
  now rewrite upper_char_slash, upper_char_star, find_close_upper.
Qed.

Lemma sub_empty_upper f :
  (forall s, f (PyStr.upper s) = f s) ->
  forall s k,
    Re.sub_empty f k (PyStr.upper s) = PyStr.upper (Re.sub_empty f k s).
Proof.
  intros Hf. induction s as [|c s IH]; intros k; [reflexivity|].
  change (PyStr.upper (String c s))
    with (String (PyStr.upper_char c) (PyStr.upper s)).
  cbn [Re.sub_empty]. destruct k as [|k]; [|apply IH].
  change (String (PyStr.upper_char c) (PyStr.upper s))
    with (PyStr.upper (String c s)).
  rewrite Hf. destruct (f (String c s)) as [[|n]|]; cbn [PyStr.upper];
    now rewrite ?IH.
Qed.

Lemma lstrip_upper s : PyStr.lstrip (PyStr.upper s) = PyStr.upper (PyStr.lstrip s).
Proof.
  induction s as [|c s IH]; [reflexivity|].
  cbn [PyStr.upper PyStr.lstrip]. rewrite upper_char_space.
  now destruct (PyStr.isspace c).
Qed.

Lemma is_empty_upper s : PyStr.is_empty (PyStr.upper s) = PyStr.is_empty s.
Proof. now destruct s. Qed.

Lemma rstrip_upper s : PyStr.rstrip (PyStr.upper s) = PyStr.upper (PyStr.rstrip s).
Proof.
  induction s as [|c s IH]; [reflexivity|].
  cbn [PyStr.upper PyStr.rstrip]. rewrite IH, is_empty_upper, upper_char_space.
  now destruct (PyStr.is_empty (PyStr.rstrip s) && PyStr.isspace c).
Qed.

Lemma split_unfold c r :
  PyStr.split (String c r) =
  if PyStr.isspace c then PyStr.split r
  else match r with
       | EmptyString => [String c EmptyString]
       | String c' _ =>
           if PyStr.isspace c' then String c EmptyString :: PyStr.split r
           else match PyStr.split r with
                | w :: ws => String c w :: ws
                | [] => [String c EmptyString]
                end
       end.
Proof. reflexivity. Qed.

Lemma split_upper s :
  PyStr.split (PyStr.upper s) = map PyStr.upper (PyStr.split s).
Proof.
  induction s as [|c s IH]; [reflexivity|].
  change (PyStr.upper (String c s))
    with (String (PyStr.upper_char c) (PyStr.upper s)).
  rewrite !split_unfold, upper_char_space, IH.
  destruct (PyStr.isspace c); [reflexivity|].
  destruct s as [|d s']; [reflexivity|].
  change (PyStr.upper (String d s'))
    with (String (PyStr.upper_char d) (PyStr.upper s')).
  cbv iota. rewrite upper_char_space.
  destruct (PyStr.isspace d); [reflexivity|].
  now destruct (PyStr.split (String d s')).
Qed.

Lemma _is_write_operation_upper s :
  _is_write_operation (PyStr.upper s) = _is_write_operation s.
Proof.
  unfold _is_write_operation, Re.strip_line_comments, Re.strip_block_comments,
    PyStr.strip.
  rewrite (sub_empty_upper _ match_line_comment_upper).
  rewrite (sub_empty_upper _ match_block_comment_upper).
  rewrite lstrip_upper, rstrip_upper, is_empty_upper, split_upper.
  destruct (PyStr.is_empty _); [reflexivity|].
  destruct (PyStr.split _) as [|w ws]; [reflexivity|].
  cbn [map]. now rewrite upper_idem.
Qed.

(** X10.  The classifier does not look at letter case: two statements
    that differ only in the case of their letters a-z are classified
    alike. *)
Theorem classifier_ignores_letter_case (s1 s2 : string) :
  PyStr.upper s1 = PyStr.upper s2 ->
  _is_write_operation s1 = _is_write_operation s2.
Proof.
  intros H. rewrite <- (_is_write_operation_upper s1),
              <- (_is_write_operation_upper s2).
  now rewrite H.
Qed.

(** X11.  A leading line comment does not hide what follows: when the
    statement starts with two dashes and [body] runs to the first line
    feed, the statement is classified as the text after that line feed. *)
Theorem leading_line_comment_is_ignored (body rest : string) :
  Re.find_newline body = None ->
  _is_write_operation ("--" ++ body ++ nl ++ rest) = _is_write_operation rest.
Proof.
  intros H. unfold _is_write_operation.
  now rewrite (strip_line_comment_head body rest H).
Qed.

Lemma mentions_app c a b : mentions c (a ++ b) = mentions c a || mentions c b.
Proof.
  induction a as [|x a IH]; [reflexivity|].
  simpl. now rewrite IH, orb_assoc.
Qed.

Lemma strip_line_comments_prefix pre rest :
  mentions "-" pre = false ->
  Re.strip_line_comments (pre ++ rest)
  = (pre ++ Re.strip_line_comments rest)%string.
Proof.
  unfold Re.strip_line_comments.
  induction pre as [|a pre IH]; [reflexivity|].
  simpl mentions. intros H. apply orb_false_elim in H as [Ha Hpre].
  change (String a pre ++ rest)%string with (String a (pre ++ rest)).
  cbn [Re.sub_empty].
  assert (M : Re.match_line_comment (String a (pre ++ rest)) = None).
  { unfold Re.match_line_comment. destruct (pre ++ rest)%string; [reflexivity|].
    now rewrite Ha. }
  rewrite M, (IH Hpre). reflexivity.
Qed.

(** X12.  A leading block comment does not hide what follows: when the
    statement starts with a comment whose body holds no dash and no
    closing pair, the statement is classified as the text after the
    comment. *)
Theorem leading_block_comment_is_ignored (body rest : string) :
  mentions "-" body = false ->
  Re.find_close (body ++ "*") = None ->
  _is_write_operation ("/*" ++ body ++ "*/" ++ rest) = _is_write_operation rest.
Proof.
  intros Hdash Hclose. unfold _is_write_operation.
  assert (E : ("/*" ++ body ++ "*/" ++ rest
               = ("/*" ++ body ++ "*/") ++ rest)%string).
  { now rewrite <- !append_assoc. }
  rewrite E, strip_line_comments_prefix.
  - rewrite !append_assoc.
    now rewrite (strip_block_comment_head body _ Hclose).
  - rewrite !mentions_app, Hdash. reflexivity.
Qed.

(** ** The normalised text *)

Lemma layout_words ts s : Layout ts s -> Forall (fun t => word t = true) ts.
Proof. induction 1; auto. Qed.

Lemma split_words s : Forall (fun t => word t = true) (PyStr.split s).
Proof. apply (layout_words _ s), layout_of_split. Qed.

Lemma split_join ts :
  Forall (fun t => word t = true) ts -> PyStr.split (PyStr.join " " ts) = ts.
Proof.
  induction 1 as [|t ts Ht Hts IH]; [reflexivity|].
  destruct ts as [|t' ts'].
  - simpl. now apply split_word.
  - change (PyStr.join " " (t :: t' :: ts'))
      with (t ++ String " " (PyStr.join " " (t' :: ts')))%string.
    rewrite split_word_sep by (assumption || reflexivity).
    now rewrite IH.
Qed.

(** X13.  Normalising keeps the words and nothing else: the normalised
    text splits into the words of the statement, normalising twice is
    normalising once, the normalised text has the key of the statement,
    and two statements have the same normalised text exactly when they
    have the same words in the same order. *)
Theorem normalisation_keeps_exactly_the_words :
  (forall s, PyStr.split (sql_normalized s) = PyStr.split s)
  /\ (forall s, sql_normalized (sql_normalized s) = sql_normalized s)
  /\ (forall s, _get_cache_key (sql_normalized s) = _get_cache_key s)
  /\ (forall s1 s2,
        sql_normalized s1 = sql_normalized s2 <-> PyStr.split s1 = PyStr.split s2).
Proof.
  assert (A : forall s, PyStr.split (sql_normalized s) = PyStr.split s).
  { intros s. apply split_join, split_words. }
  split; [exact A|]. split; [|split].
  - intros s. unfold sql_normalized at 1. now rewrite A.
  - intros s. unfold _get_cache_key. now rewrite (A s).
  - intros s1 s2. split; intros H.
    + now rewrite <- (A s1), <- (A s2), H.
    + unfold sql_normalized. now rewrite H.
Qed.

(** ** The shape of a key *)

Lemma le_bytes_range n x :
  Forall (fun b => 0 <= b < 256) (MD5.le_bytes n x).
Proof.
  revert x. induction n as [|n IH]; intros x; simpl; constructor; [|apply IH].
  change 255 with (Z.ones 8). rewrite Z.land_ones by lia.
  apply Z.mod_pos_bound. reflexivity.
Qed.

Lemma le_bytes_length n x : List.length (MD5.le_bytes n x) = n.
Proof. revert x. induction n as [|n IH]; intros x; simpl; [|rewrite IH]; reflexivity. Qed.

Lemma digest_shape msg :
  List.length (MD5.digest msg) = 16%nat
  /\ Forall (fun b => 0 <= b < 256) (MD5.digest msg).
Proof.
  unfold MD5.digest.
  destruct (fold_left MD5.block _ MD5.init) as [[[a b] c] d].
  split.
  - rewrite !length_app, !le_bytes_length. reflexivity.
  - repeat (apply Forall_app; split); apply le_bytes_range.
Qed.

Lemma hex_digit_range n :
  0 <= n < 16 ->
  In (MD5.hex_digit n) (list_ascii_of_string "0123456789abcdef").
Proof.
  intros H. rewrite <- (Z2Nat.id n) by lia.
  assert (B : (Z.to_nat n < 16)%nat) by lia.
  revert B. generalize (Z.to_nat n) as k. intros k B.
  do 16 (destruct k as [|k]; [simpl; tauto|]). lia.
Qed.

Lemma hex_shape bytes :
  Forall (fun b => 0 <= b < 256) bytes ->
  String.length (MD5.hex bytes) = (2 * List.length bytes)%nat
  /\ forall c, In c (list_ascii_of_string (MD5.hex bytes)) ->
               In c (list_ascii_of_string "0123456789abcdef").
Proof.
  induction 1 as [|b bytes Hb _ [IHlen IHin]]; [split; [reflexivity | intros c []]|].
  cbn [MD5.hex String.length List.length list_ascii_of_string].
  split; [rewrite IHlen; lia|].
  intros c [<- | [<- | H]].
  - apply hex_digit_range. rewrite Z.shiftr_div_pow2 by lia.
    change (2 ^ 4) with 16. split.
    + apply Z.div_pos; lia.
    + apply Z.div_lt_upper_bound; lia.
  - apply hex_digit_range. change 15 with (Z.ones 4).
    rewrite Z.land_ones by lia. apply Z.mod_pos_bound. reflexivity.
  - now apply IHin.
Qed.

(** X14.  Every cache key is 32 characters long, each of them a digit or
    one of the letters a to f. *)
Theorem cache_key_is_32_hex_digits (sql : string) :
  String.length (_get_cache_key sql) = 32%nat
  /\ forall c, In c (list_ascii_of_string (_get_cache_key sql)) ->
               In c (list_ascii_of_string "0123456789abcdef").
Proof.
  unfold _get_cache_key, MD5.hexdigest.
  destruct (digest_shape (PyStr.encode (PyStr.join " " (PyStr.split sql))))
    as [Hlen Hrange].
  destruct (hex_shape _ Hrange) as [L I].
  split; [rewrite L, Hlen; reflexivity | exact I].
Qed.

(** ** The environment *)

Section EnvFacts.
Context {W : Type} {driver : Driver W}.
Variables CACHE_TTL MAX_CACHE_SIZE : Z.

(** X15.  Writes are off unless switched on: when the variable
    DANGEROUSLY_ALLOW_WRITE_OPS is not set, or is set to a value that is
    not "true", "1" or "yes" once lower-cased, the manager built from the
    environment and connected refuses every statement classified as a
    write, without calling the driver. *)
Theorem writes_are_off_unless_switched_on
  (getenv : string -> option string) (url : string) (w0 w : W)
  (c : list Invocation) (sql : string) (use_cache : bool) :
  (forall v, getenv "DANGEROUSLY_ALLOW_WRITE_OPS" = Some v ->
             ~ In (PyEnv.lower v) ["true"; "1"; "yes"]) ->
  fst (connect_db url w0) = None ->
  _is_write_operation sql = Return true ->
  let s := self (snd (connect (mkMachine (PyEnv.init_from_env getenv url)
                                         w0 []))) in
  connection s = true
  /\ execute_query CACHE_TTL MAX_CACHE_SIZE sql use_cache (mkMachine s w c)
     = (Raise ValueError_write_disabled, mkMachine s w c).
Proof.
  intros Henv Hconn Hw. cbv zeta.
  rewrite connect_establishes by exact Hconn. simpl self.
  split; [reflexivity|].
  apply execute_query_denied; [reflexivity | exact Hw |].
  simpl. unfold PyEnv.env_flag.
  destruct (getenv "DANGEROUSLY_ALLOW_WRITE_OPS") as [v|] eqn:G;
    [|reflexivity].
  destruct (existsb _ _) eqn:X; [|reflexivity].
  apply existsb_exists in X as (k & Hin & Heq).
  apply String.eqb_eq in Heq. subst k. now elim (Henv v eq_refl).
Qed.

End EnvFacts.

(* ================================================================== *)
(** * The resource reader *)

Section ServerFacts.
Context {W : Type} {driver : Driver W} {catalog : Catalog W}.
Variable CACHE_TTL : Z.

Lemma cut_first sep a b :
  mentions sep a = false ->
  Server.cut sep (a ++ String sep b) = Some (a, b).
Proof.
  induction a as [|c a IH]; simpl.
  - intros _. now rewrite Ascii.eqb_refl.
  - intros H. apply orb_false_elim in H as [Hc Ha].
    rewrite Hc. now rewrite (IH Ha).
Qed.

Lemma cut_none sep s : mentions sep s = false -> Server.cut sep s = None.
Proof.
  induction s as [|c s IH]; [reflexivity|]. simpl.
  intros H. apply orb_false_elim in H as [Hc Hs].
  rewrite Hc. now rewrite (IH Hs).
Qed.

Lemma table_uri_is_not_the_list schema table :
  String.eqb ("table://" ++ schema ++ "/" ++ table) "table://*" = false.
Proof.
  destruct schema as [|a [|b r]]; simpl.
  - reflexivity.
  - now destruct (Ascii.eqb a "*").
  - now destruct (Ascii.eqb a "*").
Qed.

(** X16.  A resource address made of the prefix, a schema name, a slash
    and a table name is read by describing that table of that schema,
    with the schema cache in use, provided the schema name holds no
    slash: the address is cut at its first slash, so the table name may
    hold slashes, the schema name may not. *)
Theorem table_uri_reads_that_table
  (schema table : string) (m : Machine W) :
  mentions "/" schema = false ->
  Server.read_resource CACHE_TTL ("table://" ++ schema ++ "/" ++ table) m
  = match get_table_schema CACHE_TTL schema table true m with
    | (Return table_schema, m') => (Server.SchemaReply table_schema, m')
    | (Raise e, m') => (Server.SchemaFailed e, m')
    end.
Proof.
  intros H. unfold Server.read_resource.
  rewrite table_uri_is_not_the_list.
  change (Server.startswith "table://" ("table://" ++ schema ++ "/" ++ table))
    with true.
  change (Server.slice_from 8 ("table://" ++ schema ++ "/" ++ table))
    with (schema ++ String "/" table)%string.
  unfold Server.split_once. now rewrite (cut_first "/" schema table H).
Qed.

(** X17.  An address that is not the list address and either lacks the
    prefix or has no slash after it is answered as unknown; the manager,
    the database and the log of driver calls are untouched. *)
Theorem unknown_uri_touches_nothing (uri : string) (m : Machine W) :
  String.eqb uri "table://*" = false ->
  Server.startswith "table://" uri = false
  \/ mentions "/" (Server.slice_from 8 uri) = false ->
  Server.read_resource CACHE_TTL uri m = (Server.UnknownUri uri, m).
Proof.
  intros Hlist H. unfold Server.read_resource. rewrite Hlist.
  destruct H as [-> | H]; [reflexivity|].
  destruct (Server.startswith "table://" uri); [|reflexivity].
  unfold Server.split_once. now rewrite (cut_none _ _ H).
Qed.

End ServerFacts.

(* ================================================================== *)
(** * The further properties at work on the small database *)

(** X2, witness: a result stored at tick 10 is served at tick 310 and
    gone at tick 311. *)
Lemma stored_result_witness :
  _set_cached_result 128 (Toy.manager false true) 10 "k" Toy.sample
  = Return Lab.one_entry
  /\ _get_cached_result 300 Lab.one_entry 310 "k"
     = (Some Toy.sample, Lab.one_entry)
  /\ exists s'',
       _get_cached_result 300 Lab.one_entry 311 "k" = (None, s'')
       /\ PyDict.lookup "k" (_query_cache s'') = None.
Proof.
  assert (P : _set_cached_result 128 (Toy.manager false true) 10 "k" Toy.sample
              = Return Lab.one_entry) by reflexivity.
  split; [exact P|]. split.
  - apply (proj1 (stored_result_served_until_ttl 300 128
                    (Toy.manager false true) 10 "k" Toy.sample Lab.one_entry
                    310 eq_refl P)).
    vm_compute. discriminate.
  - destruct (proj2 (stored_result_served_until_ttl 300 128
                       (Toy.manager false true) 10 "k" Toy.sample
                       Lab.one_entry 311 eq_refl P))
      as (s'' & G & L & _); [reflexivity|].
    exists s''. split; assumption.
Defined.

(** X3, witness: with room for no entry a plain SELECT is executed and
    then raises. *)
Lemma capacity_below_one_witness :
  @execute_query Toy.World Toy.driver 300 0 "SELECT 1" true
    (Toy.start false true Toy.w0)
  = (Raise ValueError_min_empty,
     mkMachine (Toy.manager false true) (Toy.tick Toy.w0)
               [Executed "SELECT 1"]).
Proof.
  apply (@capacity_below_one_breaks_cached_reads Toy.World Toy.driver 300 0
           (Toy.manager false true) Toy.w0 [] "SELECT 1" Toy.one_row).
  - apply cache_inv_init.
  - discriminate.
  - reflexivity.
  - reflexivity.
  - vm_compute. reflexivity.
  - reflexivity.
Defined.

(** X4, witness: a SELECT that the server rejects. *)
Lemma failed_read_witness :
  exists s',
    Toy.run "SELECT * FROM missing" true (Toy.start false true Toy.w0)
    = (Raise (RuntimeError_sql "rejected"),
       mkMachine s' (Toy.tick Toy.w0) [Executed "SELECT * FROM missing"])
    /\ PyDict.lookup (_get_cache_key "SELECT * FROM missing") (_query_cache s')
       = None.
Proof.
  assert (Stale : forall v ts,
            PyDict.lookup (_get_cache_key "SELECT * FROM missing")
                          (_query_cache (Toy.manager false true))
            = Some (v, ts) ->
            clock Toy.w0 - ts > 300) by discriminate.
  destruct (@failed_read_stores_nothing Toy.World Toy.driver 300 128
              (Toy.manager false true) Toy.w0 [] "SELECT * FROM missing"
              "rejected" eq_refl eq_refl
              ltac:(vm_compute; reflexivity) eq_refl Stale)
    as (s' & Hrun & L & _).
  exists s'. split; [exact Hrun | exact L].
Defined.

(** X5, witness: a SELECT run with the cache bypassed on a warm manager. *)
Lemma uncached_read_witness :
  Toy.run "SELECT 1" false Toy.warm
  = (Return Toy.sample,
     mkMachine (self Toy.warm) (Toy.tick (world Toy.warm))
               (calls Toy.warm ++ [Executed "SELECT 1"])).
Proof.
  apply (@uncached_read_always_executes Toy.World Toy.driver 300 128
           (self Toy.warm) (world Toy.warm) (calls Toy.warm) "SELECT 1" false).
  - vm_compute. reflexivity.
  - vm_compute. reflexivity.
  - left. reflexivity.
Defined.

(** X6, witness: a SELECT and a lookup on a warm manager. *)
Lemma independent_stores_witness :
  _schema_cache (self (snd (Toy.run "SELECT 2" true Toy.warm)))
  = _schema_cache (self Toy.warm)
  /\ _query_cache (self (snd (Toy.describe "public" "orders" true Toy.warm)))
     = _query_cache (self Toy.warm).
Proof.
  apply (@reads_and_lookups_keep_the_other_store Toy.World Toy.driver 300 128
           (self Toy.warm) (world Toy.warm) (calls Toy.warm) "SELECT 2" true
           "public" "orders" true).
  vm_compute. reflexivity.
Defined.

(** X8, witness: public.users described, then dropped by another client,
    then described again. *)
Lemma repeated_lookup_witness :
  Toy.describe "public" "users" true
    (Toy.later (snd (Toy.describe "public" "users" true
                       (Toy.start false true Toy.w0)))
               Toy.w_dropped)
  = (Return Toy.users_schema,
     Toy.later (snd (Toy.describe "public" "users" true
                       (Toy.start false true Toy.w0)))
               Toy.w_dropped).
Proof.
  pose (m1 := snd (Toy.describe "public" "users" true
                     (Toy.start false true Toy.w0))).
  assert (Fresh : forall o ts,
            PyDict.lookup ("public" ++ "." ++ "users") (_schema_cache (self m1))
            = Some (o, ts) ->
            clock Toy.w_dropped - ts <= 300).
  { intros o ts H. vm_compute in H. injection H as _ <-. vm_compute.
    discriminate. }
  apply (fun Hfirst =>
           @repeated_lookup_served_from_schema_cache Toy.World Toy.driver 300
             (Toy.manager false true) Toy.w0 [] "public" "users"
             Toy.users_schema (self m1) (world m1) (calls m1) Toy.w_dropped
             eq_refl eq_refl Hfirst Fresh).
  vm_compute. reflexivity.
Defined.

(** X9, witness: a descriptor made at tick 0, looked up at tick 1000
    after a column was added. *)
Lemma expired_schema_witness :
  exists s',
    fst (Toy.describe "public" "users" true
           (mkMachine Lab.with_old_schema Lab.w_late []))
    = Return Toy.users_schema
    /\ self (snd (Toy.describe "public" "users" true
                    (mkMachine Lab.with_old_schema Lab.w_late []))) = s'
    /\ PyDict.lookup "public.users" (_schema_cache s')
       = Some (Toy.users_schema, 1002).
Proof.
  destruct (@expired_schema_is_fetched_again Toy.World Toy.driver 300
              Lab.with_old_schema Lab.w_late [] "public" "users"
              Lab.old_users_schema 0
              (mkColumnRow "id" "integer" "NO" None)
              [mkColumnRow "email" "text" "YES" None] ["id"])
    as (s' & Hrun & L & _); try reflexivity.
  exists s'. unfold Toy.describe. rewrite Hrun. simpl.
  split; [reflexivity|]. split; [reflexivity | exact L].
Defined.

(** X10, witness: a lower-case DROP. *)
Lemma letter_case_witness :
  _is_write_operation "drop table Users" = _is_write_operation "DROP TABLE USERS"
  /\ _is_write_operation "drop table Users" = Return true.
Proof.
  split; [|vm_compute; reflexivity].
  apply classifier_ignores_letter_case. vm_compute. reflexivity.
Defined.

(** X11, witness: a DELETE under a comment line. *)
Lemma leading_line_comment_witness :
  _is_write_operation ("--" ++ " nightly clean-up" ++ nl ++ "DELETE FROM t")
  = _is_write_operation "DELETE FROM t"
  /\ _is_write_operation "DELETE FROM t" = Return true.
Proof.
  split; [|vm_compute; reflexivity].
  apply leading_line_comment_is_ignored. reflexivity.
Defined.

(** X12, witness: a DELETE after a block comment of two lines. *)
Lemma leading_block_comment_witness :
  _is_write_operation
    ("/*" ++ (" nightly" ++ nl ++ " clean up ") ++ "*/" ++ " DELETE FROM t")
  = _is_write_operation " DELETE FROM t"
  /\ _is_write_operation " DELETE FROM t" = Return true.
Proof.
  split; [|vm_compute; reflexivity].
  apply leading_block_comment_is_ignored; reflexivity.
Defined.

(** X15, witness: no variable set. *)
Lemma writes_off_witness :
  Toy.run "DROP TABLE users" true
    (mkMachine
       (self (snd (@connect Toy.World Toy.driver
                     (mkMachine (PyEnv.init_from_env Lab.empty_env "pg://db")
                                Toy.w0 []))))
       Toy.w0 [])
  = (Raise ValueError_write_disabled,
     mkMachine
       (self (snd (@connect Toy.World Toy.driver
                     (mkMachine (PyEnv.init_from_env Lab.empty_env "pg://db")
                                Toy.w0 []))))
       Toy.w0 []).
Proof.
  apply (proj2 (@writes_are_off_unless_switched_on Toy.World Toy.driver 300 128
                  Lab.empty_env "pg://db" Toy.w0 Toy.w0 [] "DROP TABLE users"
                  true
                  (fun v H => ltac:(discriminate H)) eq_refl
                  ltac:(vm_compute; reflexivity))).
Defined.

(** X16, witness: the address of public.users. *)
Lemma table_uri_witness :
  Lab.read_resource "table://public/users" (Toy.start false true Toy.w0)
  = (Server.SchemaReply Toy.users_schema,
     snd (Toy.describe "public" "users" true (Toy.start false true Toy.w0))).
Proof.
  unfold Lab.read_resource. etransitivity.
  - exact (@table_uri_reads_that_table Toy.World Toy.driver Lab.catalog 300
             "public" "users" (Toy.start false true Toy.w0) eq_refl).
  - vm_compute. reflexivity.
Defined.

(** X17, witness: an address with no slash after the prefix. *)
Lemma unknown_uri_witness :
  Lab.read_resource "table://users" Toy.warm
  = (Server.UnknownUri "table://users", Toy.warm).
Proof.
  apply (@unknown_uri_touches_nothing Toy.World Toy.driver Lab.catalog 300).
  - reflexivity.
  - right. reflexivity.
Defined.

(* ================================================================== *)
(** * Comments inside a statement *)

Lemma strip_block_comments_prefix pre rest :
  mentions "/" pre = false ->
  Re.strip_block_comments (pre ++ rest)
  = (pre ++ Re.strip_block_comments rest)%string.
Proof.
  unfold Re.strip_block_comments.
  induction pre as [|a pre IH]; [reflexivity|].
  simpl mentions. intros H. apply orb_false_elim in H as [Ha Hpre].
  change (String a pre ++ rest)%string with (String a (pre ++ rest)).
  cbn [Re.sub_empty].
  assert (M : Re.match_block_comment (String a (pre ++ rest)) = None).
  { unfold Re.match_block_comment. destruct (pre ++ rest)%string; [reflexivity|].
    now rewrite Ha. }
  rewrite M, (IH Hpre). reflexivity.
Qed.

(** X18.  A block comment is deleted, not replaced by a space, so it
    glues the texts on its two sides: when neither the text [head] before
    the comment nor the body of the comment holds a dash, [head] holds no
    slash and the body no closing pair, the statement is classified as
    [head] immediately followed by the text after the comment. *)
Theorem block_comment_glues_its_neighbours (head body tail : string) :
  mentions "-" head = false ->
  mentions "/" head = false ->
  mentions "-" body = false ->
  Re.find_close (body ++ "*") = None ->
  _is_write_operation (head ++ "/*" ++ body ++ "*/" ++ tail)
  = _is_write_operation (head ++ tail).
Proof.
  intros Hd Hs Hbd Hclose. unfold _is_write_operation.
  assert (E : (head ++ "/*" ++ body ++ "*/" ++ tail
               = (head ++ "/*" ++ body ++ "*/") ++ tail)%string).
  { now rewrite <- !append_assoc. }
  rewrite E, strip_line_comments_prefix
    by (rewrite !mentions_app, Hd, Hbd; reflexivity).
  rewrite !append_assoc.
  rewrite (strip_block_comments_prefix head _ Hs).
  rewrite (strip_block_comment_head body _ Hclose).
  rewrite (strip_line_comments_prefix head tail Hd).
  now rewrite (strip_block_comments_prefix head _ Hs).
Qed.

(** X18, witness: DROP and TABLE with an empty comment between them read
    as one unknown word, so the statement counts as a read and reaches
    the database of a manager that forbids writes. *)
Lemma block_comment_glue_witness :
  _is_write_operation ("DROP" ++ "/*" ++ "" ++ "*/" ++ "TABLE users")
  = _is_write_operation "DROPTABLE users"
  /\ _is_write_operation "DROP/**/TABLE users" = Return false
  /\ calls (snd (Toy.run "DROP/**/TABLE users" true
                   (Toy.start false true Toy.w0)))
     = [Executed "DROP/**/TABLE users"].
Proof.
  split; [|split; vm_compute; reflexivity].
  apply (block_comment_glues_its_neighbours "DROP" "" "TABLE users");
    reflexivity.
Defined.

(* ================================================================== *)
(** * Which entry is evicted *)

Lemma min_from_first {A} (f : A -> Z) xs :
  forall best,
    (PyDict.min_from f best xs = best /\ forall x, In x xs -> f best <= f x)
    \/ exists l1 l2,
         xs = (l1 ++ PyDict.min_from f best xs :: l2)%list
         /\ f (PyDict.min_from f best xs) < f best
         /\ (forall x, In x l1 -> f (PyDict.min_from f best xs) < f x)
         /\ (forall x, In x l2 -> f (PyDict.min_from f best xs) <= f x).
Proof.
  induction xs as [|x xs IH]; intros best; simpl.
  - left. split; [reflexivity | intros x []].
  - destruct (f x <? f best) eqn:E.
    + apply Z.ltb_lt in E. right.
      destruct (IH x) as [[Hr Hge] | (l1 & l2 & Hxs & Hlt & H1 & H2)].
      * exists [], xs. rewrite Hr. simpl. repeat split; auto.
        intros y [].
      * exists (x :: l1), l2. simpl. rewrite <- Hxs.
        repeat split; auto; [lia|]. intros y [<- | Hy]; auto.
    + apply Z.ltb_ge in E.
      destruct (IH best) as [[Hr Hge] | (l1 & l2 & Hxs & Hlt & H1 & H2)].
      * left. split; [exact Hr|]. intros y [<- | Hy]; auto.
      * right. exists (x :: l1), l2. simpl. rewrite <- Hxs.
        repeat split; auto. intros y [<- | Hy]; [lia | auto].
Qed.

(** X19.  The entry chosen for eviction is the earliest inserted among
    those with the smallest timestamp: every key inserted before it has a
    strictly larger timestamp, every key inserted after it a timestamp at
    least as large. *)
Theorem eviction_takes_the_earliest_of_the_oldest
  (d : PyDict.dict (CacheEntry QueryResult)) (k : string) :
  oldest_key d = Some k ->
  exists before after,
    PyDict.keys d = (before ++ k :: after)%list
    /\ (forall x, In x before -> timestamp_of d k < timestamp_of d x)
    /\ (forall x, In x after -> timestamp_of d k <= timestamp_of d x).
Proof.
  unfold oldest_key. destruct (PyDict.keys d) as [|k0 ks] eqn:K; [discriminate|].
  simpl. intros H. injection H as <-.
  destruct (min_from_first (timestamp_of d) ks k0)
    as [[Hr Hge] | (l1 & l2 & Hxs & Hlt & H1 & H2)].
  - exists [], ks. rewrite Hr. simpl. repeat split; auto. intros x [].
  - exists (k0 :: l1), l2. simpl. rewrite <- Hxs.
    repeat split; auto. intros x [<- | Hx]; auto.
Qed.

(** X19, witness: "A" and "B" stored at the same tick, "C" later. *)
Lemma eviction_order_witness :
  oldest_key [("A", (Toy.sample, 5)); ("B", (Toy.sample, 5));
              ("C", (Toy.sample, 7))] = Some "A"
  /\ exists before after,
       ["A"; "B"; "C"] = (before ++ "A" :: after)%list.
Proof.
  split; [reflexivity|].
  destruct (eviction_takes_the_earliest_of_the_oldest
              [("A", (Toy.sample, 5)); ("B", (Toy.sample, 5));
               ("C", (Toy.sample, 7))] "A" eq_refl)
    as (before & after & Hk & _).
  exists before, after. exact Hk.
Defined.
